(** * Maternal and child health equity: the data-processing core

    A shallow embedding of [src/data_processing.py] and of
    [src/api_fetcher.py], and the properties of the specification
    checked against it, followed by further properties of the code.

    Conventions of the embedding.
    - Python exceptions are values of [exn]; a function that may raise
      returns a [result].
    - Python [float] is an interface, [Arith]: the functions are written
      once over it.  Two instances are given: [b64], IEEE 754 binary64
      as specified by the standard library's [SpecFloat] (the arithmetic
      the program runs on), and [xq], the rationals extended with
      infinities and NaN (the same rules without rounding).
    - [str] is a [string] of ASCII characters.
    - A pandas [DataFrame] is an ordered list of named columns; a column
      is a [float64] column or an [object] column of strings, missing
      entries being NaN and None.
    - A function that prints returns the lines it prints beside its
      result.
    - What a function reads from outside is a parameter of it: the frame
      that [pd.read_csv] has read, the stream of the random generator
      after [np.random.seed(42)], the rounding of a float to a number
      of decimals, and the routine that [sort_values] sorts with. *)

From Stdlib Require Import List String Ascii Bool Arith ZArith QArith Qabs Lia.
From Stdlib Require Import Permutation SpecFloat DecimalString Lqa.
Import ListNotations.

Local Open Scope string_scope.
Local Open Scope list_scope.

(* ================================================================= *)
(** ** Exceptions and results *)

Inductive exn : Type :=
| KeyError (key : string)
| ValueError (msg : string)
| TypeError (msg : string)
| MergeError (msg : string).

Inductive result (A : Type) : Type :=
| Ok (a : A)
| Raise (e : exn).

Arguments Ok {A} a.
Arguments Raise {A} e.

Definition bind {A B : Type} (r : result A) (k : A -> result B) : result B :=
  match r with
  | Ok a => k a
  | Raise e => Raise e
  end.

Notation "x <- r ;; k" := (bind r (fun x => k))
  (at level 61, r at next level, right associativity).

Definition raises {A : Type} (r : result A) : Prop :=
  exists e, r = Raise e.

Definition is_KeyError (e : exn) : bool :=
  match e with KeyError _ => true | _ => false end.

(* ================================================================= *)
(** ** Floating-point numbers *)

(** The operations of Python [float] (and numpy [float64]) that the
    program uses.  [fltb x y] is [x < y] and [feqb x y] is [x == y];
    both are [False] as soon as an operand is NaN.  [of_decimal neg m e]
    is the float nearest to [(-1)^neg * m * 10^e], the value of a
    decimal literal. *)
Class Arith (F : Type) : Type := {
  fzero : F;
  fnan : F;
  finf : bool -> F;
  fadd : F -> F -> F;
  fsub : F -> F -> F;
  fmul : F -> F -> F;
  fdiv : F -> F -> F;
  fabs : F -> F;
  fltb : F -> F -> bool;
  feqb : F -> F -> bool;
  fisnan : F -> bool;
  of_int : Z -> F;
  of_decimal : bool -> Z -> Z -> F
}.

(** [math.sqrt] / [numpy.sqrt], for the arithmetics that have it. *)
Class Sqrt (F : Type) : Type := fsqrt : F -> F.

Definition of_nat {F : Type} `{Arith F} (n : nat) : F := of_int (Z.of_nat n).

(** [x > y] *)
Definition fgtb {F : Type} `{Arith F} (x y : F) : bool := fltb y x.

(** *** binary64 *)

Module B64.

Definition prec : Z := 53.
Definition emax : Z := 1024.

Definition t : Type := spec_float.

Definition is_nan (x : t) : bool :=
  match x with S754_nan => true | _ => false end.

Definition of_int (z : Z) : t := binary_normalize prec emax z 0 false.

Definition of_decimal (neg : bool) (m e : Z) : t :=
  match m with
  | Zpos p =>
      if (0 <=? e)%Z
      then binary_normalize prec emax
             (if neg then Z.opp (m * 10 ^ e) else m * 10 ^ e)%Z 0 false
      else SFdiv prec emax (S754_finite neg p 0)
                           (S754_finite false (Z.to_pos (10 ^ (- e))) 0)
  | _ => S754_zero neg
  end.

(** The sign bit is clear, or the float is NaN. *)
Definition sign_clear (x : t) : bool :=
  match x with
  | S754_nan => true
  | S754_zero s | S754_infinity s | S754_finite s _ _ => negb s
  end.

(** A zero of either sign, or NaN *)
Definition zero_or_nan (x : t) : bool :=
  match x with
  | S754_nan | S754_zero _ => true
  | _ => false
  end.

End B64.

#[export] Instance b64 : Arith B64.t := {|
  fzero := S754_zero false;
  fnan := S754_nan;
  finf := S754_infinity;
  fadd := SFadd B64.prec B64.emax;
  fsub := SFsub B64.prec B64.emax;
  fmul := SFmul B64.prec B64.emax;
  fdiv := SFdiv B64.prec B64.emax;
  fabs := SFabs;
  fltb := SFltb;
  feqb := SFeqb;
  fisnan := B64.is_nan;
  of_int := B64.of_int;
  of_decimal := B64.of_decimal
|}.

#[export] Instance b64_sqrt : Sqrt B64.t := SFsqrt B64.prec B64.emax.

(** *** Exact arithmetic: the extended rationals *)

Module XQ.

Inductive t : Type :=
| Fin (q : Q)
| Inf (neg : bool)
| NaN.

Definition is_nan (x : t) : bool :=
  match x with NaN => true | _ => false end.

Definition is_fin (x : t) : bool :=
  match x with Fin _ => true | _ => false end.

Definition Qneg (q : Q) : bool := (Qnum q <? 0)%Z.
Definition Qzero (q : Q) : bool := (Qnum q =? 0)%Z.

Definition opp (x : t) : t :=
  match x with
  | Fin q => Fin (- q)
  | Inf s => Inf (negb s)
  | NaN => NaN
  end.

Definition add (x y : t) : t :=
  match x, y with
  | NaN, _ | _, NaN => NaN
  | Inf s1, Inf s2 => if Bool.eqb s1 s2 then x else NaN
  | Inf _, Fin _ => x
  | Fin _, Inf _ => y
  | Fin a, Fin b => Fin (a + b)
  end.

Definition sub (x y : t) : t := add x (opp y).

Definition mul (x y : t) : t :=
  match x, y with
  | NaN, _ | _, NaN => NaN
  | Inf s1, Inf s2 => Inf (xorb s1 s2)
  | Inf s, Fin q | Fin q, Inf s =>
      if Qzero q then NaN else Inf (xorb s (Qneg q))
  | Fin a, Fin b => Fin (a * b)
  end.

Definition div (x y : t) : t :=
  match x, y with
  | NaN, _ | _, NaN => NaN
  | Inf _, Inf _ => NaN
  | Inf s, Fin q => Inf (xorb s (Qneg q))
  | Fin _, Inf _ => Fin 0
  | Fin a, Fin b =>
      if Qzero b
      then (if Qzero a then NaN else Inf (Qneg a))
      else Fin (a / b)
  end.

Definition abs (x : t) : t :=
  match x with
  | Fin q => Fin (Qabs q)
  | Inf _ => Inf false
  | NaN => NaN
  end.

Definition ltb (x y : t) : bool :=
  match x, y with
  | NaN, _ | _, NaN => false
  | Inf s1, Inf s2 => s1 && negb s2
  | Inf s, Fin _ => s
  | Fin _, Inf s => negb s
  | Fin a, Fin b => negb (Qle_bool b a)
  end.

Definition eqb (x y : t) : bool :=
  match x, y with
  | NaN, _ | _, NaN => false
  | Inf s1, Inf s2 => Bool.eqb s1 s2
  | Fin a, Fin b => Qeq_bool a b
  | _, _ => false
  end.

Definition of_decimal (neg : bool) (m e : Z) : t :=
  let v := (inject_Z m * Qpower 10 e)%Q in
  Fin (if neg then - v else v).

End XQ.

#[export] Instance xq : Arith XQ.t := {|
  fzero := XQ.Fin 0;
  fnan := XQ.NaN;
  finf := XQ.Inf;
  fadd := XQ.add;
  fsub := XQ.sub;
  fmul := XQ.mul;
  fdiv := XQ.div;
  fabs := XQ.abs;
  fltb := XQ.ltb;
  feqb := XQ.eqb;
  fisnan := XQ.is_nan;
  of_int := fun z => XQ.Fin (inject_Z z);
  of_decimal := XQ.of_decimal
|}.

(* ================================================================= *)
(** ** Strings *)

Definition chars (s : string) : list ascii := list_ascii_of_string s.

Definition code (c : ascii) : nat := nat_of_ascii c.

Definition is_digit (c : ascii) : bool :=
  (48 <=? code c)%nat && (code c <=? 57)%nat.

(** [str.isspace] on ASCII: tab, line feed, vertical tab, form feed,
    carriage return, the four separators 0x1c-0x1f, and space. *)
Definition is_space (c : ascii) : bool :=
  ((9 <=? code c)%nat && (code c <=? 13)%nat)
  || ((28 <=? code c)%nat && (code c <=? 32)%nat).

(** [c.lower()] on ASCII *)
Definition lower_char (c : ascii) : ascii :=
  if (65 <=? code c)%nat && (code c <=? 90)%nat
  then ascii_of_nat (code c + 32)
  else c.

(** [s.lower()] *)
Definition lower (s : list ascii) : list ascii := map lower_char s.

(** [s.replace(c, '')] for a one-character [c] *)
Definition remove_char (c : ascii) (s : list ascii) : list ascii :=
  filter (fun d => negb (Ascii.eqb c d)) s.

Fixpoint lstrip (s : list ascii) : list ascii :=
  match s with
  | c :: r => if is_space c then lstrip r else s
  | [] => []
  end.

(** [s.strip()] *)
Definition strip (s : list ascii) : list ascii :=
  rev (lstrip (rev (lstrip s))).

Fixpoint starts_with (p s : list ascii) : bool :=
  match p, s with
  | [], _ => true
  | a :: p', b :: s' => Ascii.eqb a b && starts_with p' s'
  | _ :: _, [] => false
  end.

(** [p in s] for strings *)
Fixpoint contains (p s : list ascii) : bool :=
  starts_with p s
  || match s with
     | [] => false
     | _ :: s' => contains p s'
     end.

Definition chars_eqb (a b : list ascii) : bool :=
  String.eqb (string_of_list_ascii a) (string_of_list_ascii b).

(* ================================================================= *)
(** ** [float(str)] *)

(** The text of a float, as CPython's [float()] reads it once the
    surrounding whitespace is gone:
    [[sign] (inf | infinity | nan)] without regard to case, or
    [[sign] digits [. [digits]] [(e|E) [sign] digits]] with at least one
    digit before the exponent; a single underscore may separate two
    digits. *)

Definition digit_val (c : ascii) : Z := Z.of_nat (code c) - 48.

Definition digits_val (ds : list ascii) : Z :=
  fold_left (fun acc c => 10 * acc + digit_val c)%Z ds 0%Z.

Fixpoint span_digits (s : list ascii) : list ascii * list ascii :=
  match s with
  | c :: r =>
      if is_digit c
      then let '(ds, rest) := span_digits r in (c :: ds, rest)
      else ([], s)
  | [] => ([], [])
  end.

(** Underscores are dropped when each stands between two digits;
    [prev] is the character before [s]. *)
Fixpoint drop_underscores (prev : option ascii) (s : list ascii)
  : option (list ascii) :=
  let after_digit := match prev with Some p => is_digit p | None => false end in
  let after_underscore :=
    match prev with Some p => Ascii.eqb p "_" | None => false end in
  match s with
  | [] => if after_underscore then None else Some []
  | c :: r =>
      if Ascii.eqb c "_"
      then (if after_digit then drop_underscores (Some c) r else None)
      else if after_underscore && negb (is_digit c) then None
      else option_map (cons c) (drop_underscores (Some c) r)
  end.

Definition parse_sign (s : list ascii) : bool * list ascii :=
  match s with
  | "-"%char :: r => (true, r)
  | "+"%char :: r => (false, r)
  | _ => (false, s)
  end.

(** [_Py_parse_inf_or_nan], the whole text being consumed *)
Definition parse_inf_or_nan {F : Type} `{Arith F} (s : list ascii) : option F :=
  let '(neg, r) := parse_sign s in
  let l := lower r in
  if chars_eqb l (chars "inf") || chars_eqb l (chars "infinity")
  then Some (finf neg)
  else if chars_eqb l (chars "nan") then Some fnan
  else None.

(** The exponent part: [(e|E) [sign] digits], read only when complete *)
Definition parse_exponent (s : list ascii) : Z * list ascii :=
  match s with
  | c :: r =>
      if Ascii.eqb c "e" || Ascii.eqb c "E"
      then let '(neg, r1) := parse_sign r in
           match span_digits r1 with
           | ([], _) => (0%Z, s)
           | (ds, rest) =>
               ((if neg then - digits_val ds else digits_val ds)%Z, rest)
           end
      else (0%Z, s)
  | [] => (0%Z, s)
  end.

(** [strtod], the whole text being consumed: the sign, the digits of
    the mantissa as an integer, and the power of ten *)
Definition strtod (s : list ascii) : option (bool * Z * Z) :=
  let '(neg, r) := parse_sign s in
  let '(ip, r1) := span_digits r in
  let '(fp, r2) :=
    match r1 with
    | "."%char :: r' => span_digits r'
    | _ => ([], r1)
    end in
  match ip ++ fp with
  | [] => None
  | ds =>
      let '(ex, r3) := parse_exponent r2 in
      match r3 with
      | [] => Some (neg, digits_val ds, (ex - Z.of_nat (List.length fp))%Z)
      | _ :: _ => None
      end
  end.

(** [float(s)] for a [str] *)
Definition float_of_str {F : Type} `{Arith F} (s : list ascii) : result F :=
  match drop_underscores None (strip s) with
  | None => Raise (ValueError "could not convert string to float")
  | Some t =>
      match parse_inf_or_nan t with
      | Some x => Ok x
      | None =>
          match strtod t with
          | Some (neg, m, e) => Ok (of_decimal neg m e)
          | None => Raise (ValueError "could not convert string to float")
          end
      end
  end.

(* ================================================================= *)
(** ** [clean_currency] *)

(** The scalars a cell of the raw amount column holds: [None], a [str],
    or a [float] (NaN where the CSV field was empty). *)
Inductive scalar (F : Type) : Type :=
| PyNone
| PyStr (s : string)
| PyFloat (x : F).

Arguments PyNone {F}.
Arguments PyStr {F} s.
Arguments PyFloat {F} x.

(** [pd.isna] on a scalar *)
Definition isna {F : Type} `{Arith F} (v : scalar F) : bool :=
  match v with
  | PyNone => true
  | PyStr _ => false
  | PyFloat x => fisnan x
  end.

(** Line 24: dollar signs and commas removed, then [strip()] *)
Definition cleaned (s : string) : list ascii :=
  strip (remove_char "," (remove_char "$" (chars s))).

(** The body of [clean_currency] on a [str]: lines 24-29. *)
Definition clean_currency_str {F : Type} `{Arith F} (s : string) : result F :=
  match float_of_str (cleaned s) with
  | Ok x => Ok x
  | Raise (ValueError _) => Ok fnan
  | Raise e => Raise e
  end.

(** [clean_currency].  For a float that is not NaN, [str] gives its
    shortest repr, which holds no dollar sign, comma or whitespace and
    which [float] reads back to the same float: the float is returned
    unchanged. *)
Definition clean_currency {F : Type} `{Arith F} (amount_str : scalar F)
  : result F :=
  if isna amount_str then Ok fnan
  else
    match amount_str with
    | PyStr s => clean_currency_str s
    | PyFloat x => Ok x
    | PyNone => Ok fnan
    end.

(* ================================================================= *)
(** ** [categorize_program] *)

(** A program name is a [str], or missing ([None] / NaN). *)
Definition categorize_program (program_name : option string) : string :=
  match program_name with
  | None => "Unknown"
  | Some name =>
      let program_lower := lower (chars name) in
      let has (k : string) := contains (chars k) program_lower in
      if has "mental health" || has "pediatric mental" then
        "Mental Health"
      else if has "maternal" || has "healthy start" then
        "Maternal Health"
      else if has "home" && has "visit" then
        "Home Visiting"
      else if has "cshcn" || has "special" then
        "Special Healthcare Needs"
      else if has "training" || has "leadership" || has "education" then
        "Training & Education"
      else if has "emsc" || has "emergency" then
        "Emergency Services"
      else if has "screening" || has "newborn" then
        "Screening Programs"
      else
        "Other"
  end.

(** The rules as the specification words them: an ordered list of
    (predicate, label) pairs over the lower-cased name, numbered 2 to 8;
    rule 1 is the missing name and rule 9 the default. *)
Definition has_kw (k : string) (lowered : list ascii) : bool :=
  contains (chars k) lowered.

Definition rule_table : list ((list ascii -> bool) * string) :=
  [ (fun n => has_kw "mental health" n || has_kw "pediatric mental" n,
     "Mental Health");
    (fun n => has_kw "maternal" n || has_kw "healthy start" n,
     "Maternal Health");
    (fun n => has_kw "home" n && has_kw "visit" n,
     "Home Visiting");
    (fun n => has_kw "cshcn" n || has_kw "special" n,
     "Special Healthcare Needs");
    (fun n => has_kw "training" n || has_kw "leadership" n
              || has_kw "education" n,
     "Training & Education");
    (fun n => has_kw "emsc" n || has_kw "emergency" n,
     "Emergency Services");
    (fun n => has_kw "screening" n || has_kw "newborn" n,
     "Screening Programs") ].

Fixpoint first_match (rules : list ((list ascii -> bool) * string))
  (lowered : list ascii) : string :=
  match rules with
  | [] => "Other"
  | (p, label) :: rest =>
      if p lowered then label else first_match rest lowered
  end.

Definition categorize_spec (program_name : option string) : string :=
  match program_name with
  | None => "Unknown"
  | Some name => first_match rule_table (lower (chars name))
  end.

(** Rule [k] (2 to 8) matches the lower-cased name. *)
Definition rule_matches (k : nat) (lowered : list ascii) : bool :=
  match nth_error rule_table (k - 2) with
  | Some (p, _) => (2 <=? k)%nat && p lowered
  | None => false
  end.

(* ================================================================= *)
(** ** Series statistics and [identify_outliers] *)

Section Series.

Context {F : Type} `{Arith F}.

(** A float64 [Series]; NaN marks a missing entry. *)
Definition Series : Type := list F.

(** [values.sum()]: the entries are added one after the other, from the
    left.  numpy adds the entries of a series of eight or more in blocks
    and pandas' [groupby] adds with a compensation term: on such series
    the float they return can differ from this one in its last digits.
    The properties stated in binary64 below hold for every order of the
    additions, and the exact arithmetic has one sum only. *)
Definition fsum (xs : list F) : F := fold_left fadd xs fzero.

(** The number of entries that are not missing *)
Definition count_notna (s : Series) : nat :=
  List.length (filter (fun x => negb (fisnan x)) s).

(** The missing entries replaced by 0, as pandas' [nanops] do before
    they add *)
Definition fill0 (s : Series) : list F :=
  map (fun x => if fisnan x then fzero else x) s.

(** [Series.sum()], missing entries skipped *)
Definition series_sum (s : Series) : F := fsum (fill0 s).

(** [Series.mean()], missing entries skipped; NaN when nothing is left *)
Definition series_mean (s : Series) : F :=
  let count := count_notna s in
  if (count =? 0)%nat then fnan
  else fdiv (series_sum s) (of_nat count).

(** [Series.var(ddof)]: the squared deviations from the mean, added up
    over the entries present and divided by their number less [ddof];
    NaN when no more than [ddof] entries are present. *)
Definition series_var (ddof : nat) (s : Series) : F :=
  let count := count_notna s in
  if (count <=? ddof)%nat then fnan
  else
    let mean := series_mean s in
    let sqr :=
      map (fun x => if fisnan x then fzero
                    else fmul (fsub x mean) (fsub x mean)) s in
    fdiv (fsum sqr) (of_nat (count - ddof)).

Context `{Sqrt F}.

Definition std_ddof (ddof : nat) (s : Series) : F := fsqrt (series_var ddof s).

(** [Series.std()]: pandas' default is [ddof = 1], the sample standard
    deviation. *)
Definition series_std (s : Series) : F := std_ddof 1 s.

(** The population standard deviation, [ddof = 0] *)
Definition population_std (s : Series) : F := std_ddof 0 s.

(** [Series.quantile], a routine of pandas taken as given. *)
Variable quantile : Series -> F -> F.

(** Lines 141-148 *)
Definition iqr_outliers (series : Series) (threshold : F) : list bool :=
  let Q1 := quantile series (of_decimal false 25 (-2)) in
  let Q3 := quantile series (of_decimal false 75 (-2)) in
  let IQR := fsub Q3 Q1 in
  let lower_bound := fsub Q1 (fmul threshold IQR) in
  let upper_bound := fadd Q3 (fmul threshold IQR) in
  map (fun x => fltb x lower_bound || fgtb x upper_bound) series.

(** Lines 151-152 *)
Definition zscore_outliers (series : Series) (threshold : F) : list bool :=
  let mean := series_mean series in
  let std := series_std series in
  let z_scores := map (fun x => fabs (fdiv (fsub x mean) std)) series in
  map (fun z => fgtb z threshold) z_scores.

Definition identify_outliers (series : Series) (method : string)
  (threshold : F) : result (list bool) :=
  if String.eqb method "iqr" then Ok (iqr_outliers series threshold)
  else if String.eqb method "zscore" then Ok (zscore_outliers series threshold)
  else Raise (ValueError "Method must be 'iqr' or 'zscore'").

(** The z-score test as the specification words it: the absolute
    deviation from the mean, divided by a standard deviation [sd],
    exceeds the threshold. *)
Definition zscore_exceeds (sd : F) (series : Series) (threshold x : F) : bool :=
  fgtb (fdiv (fabs (fsub x (series_mean series))) sd) threshold.

End Series.

Arguments Series F : clear implicits.

(* ================================================================= *)
(** ** DataFrames *)

Section Frames.

Context {F : Type} `{Arith F}.

(** A column is a float64 column (NaN where missing) or an object
    column of strings ([None] where missing). *)
Inductive column : Type :=
| FloatCol (xs : list F)
| ObjCol (xs : list (option string)).

(** An ordered list of named columns *)
Definition DataFrame : Type := list (string * column).

Definition col_len (c : column) : nat :=
  match c with
  | FloatCol xs => List.length xs
  | ObjCol xs => List.length xs
  end.

(** [df.columns] *)
Definition df_columns (df : DataFrame) : list string := map fst df.

(** [len(df)] *)
Definition df_len (df : DataFrame) : nat :=
  match df with
  | [] => 0%nat
  | (_, c) :: _ => col_len c
  end.

(** [df[name]], by the first column of that name *)
Fixpoint df_get (df : DataFrame) (name : string) : option column :=
  match df with
  | [] => None
  | (n, c) :: rest => if String.eqb n name then Some c else df_get rest name
  end.

(** [df.drop(name, axis=1)] *)
Definition df_drop (df : DataFrame) (name : string) : DataFrame :=
  filter (fun nc => negb (String.eqb (fst nc) name)) df.

(** Every column has [n] rows. *)
Definition has_rows (df : DataFrame) (n : nat) : Prop :=
  Forall (fun nc => col_len (snd nc) = n) df.

(** *** Keys *)

(** The value of a key column in one row. *)
Inductive key : Type :=
| KStr (s : string)
| KNum (x : F).

Definition key_eqb (a b : key) : bool :=
  match a, b with
  | KStr s, KStr t => String.eqb s t
  | KNum x, KNum y => feqb x y
  | _, _ => false
  end.

Definition key_ltb (a b : key) : bool :=
  match a, b with
  | KStr s, KStr t => String.ltb s t
  | KNum x, KNum y => fltb x y
  | KNum _, KStr _ => true
  | KStr _, KNum _ => false
  end.

(** The keys of a column, row by row; [None] where the entry is missing *)
Definition col_keys (c : column) : list (option key) :=
  match c with
  | FloatCol xs => map (fun x => if fisnan x then None else Some (KNum x)) xs
  | ObjCol xs => map (option_map KStr) xs
  end.

(** [isna()] of a column *)
Definition col_isna (c : column) : list bool :=
  match c with
  | FloatCol xs => map fisnan xs
  | ObjCol xs => map (fun o => match o with None => true | Some _ => false end) xs
  end.

(** Boolean indexing: the entries of [xs] where [mask] holds *)
Fixpoint select {A : Type} (mask : list bool) (xs : list A) : list A :=
  match mask, xs with
  | b :: m, x :: r => if b then x :: select m r else select m r
  | _, _ => []
  end.

Definition count_true (mask : list bool) : nat :=
  List.length (filter (fun b => b) mask).

(** *** [groupby] *)

Fixpoint insert_key (k : key) (ks : list key) : list key :=
  match ks with
  | [] => [k]
  | k' :: r =>
      if key_eqb k k' then ks
      else if key_ltb k k' then k :: ks
      else k' :: insert_key k r
  end.

(** The groups of [df.groupby(col)]: the distinct keys present, in
    ascending order; rows whose key is missing belong to no group. *)
Definition group_keys (keys : list (option key)) : list key :=
  fold_left
    (fun acc o => match o with Some k => insert_key k acc | None => acc end)
    keys [].

(** The rows of the group of [k] *)
Definition group_mask (k : key) (keys : list (option key)) : list bool :=
  map (fun o => match o with Some k' => key_eqb k k' | None => false end) keys.

(** ['count'] of a column over the rows of [mask]: the entries present *)
Definition col_count (mask : list bool) (c : column) : nat :=
  count_true (map negb (select mask (col_isna c))).

(* ================================================================= *)
(** ** [get_state_summary] *)

(** One row of the summary.  [geo] is the value of the column that
    [reset_index] names [state_col]. *)
Record StateSummary : Type := {
  geo : key;
  total_funding : F;
  avg_grant_size : F;
  num_grants : nat
}.

(** [sort_values(by, ascending=False)] is called with pandas' default
    algorithm, [kind='quicksort'], the quicksort of numpy, which is
    documented as not stable and whose code is not part of the program.
    It is a parameter here; [sort_permutes] is what is used of it: the
    rows are rearranged, none is lost and none is added. *)
Definition sorter : Type := forall A : Type, (A -> F) -> list A -> list A.

Definition sort_permutes (srt : sorter) : Prop :=
  forall (A : Type) (by_ : A -> F) (l : list A), Permutation (srt A by_ l) l.

(** Row [a] may stand before row [b] in descending order: [b] is
    missing, or [a] is not and is not below [b]. *)
Definition desc_ok (a b : F) : bool :=
  fisnan b || (negb (fisnan a) && negb (fltb a b)).

(** A sorting routine for the examples: descending, the rows whose keys
    are equal in the order they had, the rows whose key is missing last,
    in the order they had.  On the tables of the examples, which hold a
    few rows, [sort_values] returns this order. *)
Fixpoint insert_desc {A : Type} (by_ : A -> F) (x : A) (l : list A) : list A :=
  match l with
  | [] => [x]
  | y :: r =>
      if desc_ok (by_ x) (by_ y)
      then x :: l
      else y :: insert_desc by_ x r
  end.

Definition insertion_sorter : sorter :=
  fun A by_ l => fold_right (insert_desc by_) [] l.

Variable sort_values_desc : sorter.

(** The frame after [.agg(...).reset_index()] and the renaming of its
    five columns: [state_col], [total_funding], [avg_grant_size],
    [num_grants], [grant_count_check]. *)
Definition aggregated (keys : list (option key)) (amounts : list F)
  (grant_number : column) : list (StateSummary * nat) :=
  map (fun k =>
         let m := group_mask k keys in
         let group := select m amounts in
         ({| geo := k;
             total_funding := series_sum group;
             avg_grant_size := series_mean group;
             num_grants := count_notna group |},
          col_count m grant_number))
      (group_keys keys).

(** [summary.drop('grant_count_check', axis=1)] *)
Definition drop_check (summary : list (StateSummary * nat)) : list StateSummary :=
  map fst summary.

(** The amounts that [agg] adds up and averages.  Strings cannot be
    averaged: the mean of a group that holds one raises.  When no group
    holds a string - the column has no rows, or its strings stand in
    rows without a key - every group holds missing entries only. *)
Definition agg_amounts (keys : list (option key)) (c : column)
  : result (list F) :=
  match c with
  | FloatCol amounts => Ok amounts
  | ObjCol xs =>
      if existsb (fun r => match fst r, snd r with
                           | Some _, Some _ => true
                           | _, _ => false
                           end)
                 (combine keys xs)
      then Raise (TypeError "agg function failed [how->mean,dtype->object]")
      else Ok (map (fun _ => fnan) xs)
  end.

Definition get_state_summary (df : DataFrame) (state_col amount_col : string)
  : result (list StateSummary) :=
  (* df.groupby(state_col) *)
  match df_get df state_col with
  | None => Raise (KeyError state_col)
  | Some kc =>
      (* the columns that the dict names are looked up in the whole
         frame, the grouping column among them *)
      if String.eqb amount_col "Grant Number" then
        (* the dict literal has one entry: a single count column *)
        match df_get df "Grant Number" with
        | None => Raise (KeyError "Grant Number")
        | Some _ =>
            if String.eqb state_col "Grant Number" then
              (* reset_index() *)
              Raise (ValueError "cannot insert Grant Number, already exists")
            else
              Raise (ValueError
                "Length mismatch: Expected axis has 2 elements, new values have 5 elements")
        end
      else
        match df_get df amount_col, df_get df "Grant Number" with
        | None, _ => Raise (KeyError amount_col)
        | Some _, None => Raise (KeyError "Grant Number")
        | Some ac, Some grant_number =>
            amounts <- agg_amounts (col_keys kc) ac ;;
            let summary := aggregated (col_keys kc) amounts grant_number in
            let summary := drop_check summary in
            Ok (sort_values_desc _ total_funding summary)
        end
  end.

End Frames.

Arguments column F : clear implicits.
Arguments DataFrame F : clear implicits.
Arguments key F : clear implicits.
Arguments StateSummary F : clear implicits.
Arguments sorter F : clear implicits.

(* ================================================================= *)
(** ** [merge_health_and_funding] *)

Section Merge.

Context {F : Type} `{Arith F}.

(** Two keys of a join are equal; missing keys match each other. *)
Definition okey_eqb (a b : option (key F)) : bool :=
  match a, b with
  | Some x, Some y => key_eqb x y
  | None, None => true
  | _, _ => false
  end.

(** The positions of [rkeys] whose key equals [k], in order; [i] is the
    position of the head of [rkeys]. *)
Fixpoint matches_from (i : nat) (k : option (key F))
  (rkeys : list (option (key F))) : list nat :=
  match rkeys with
  | [] => []
  | r :: rest =>
      if okey_eqb k r then i :: matches_from (S i) k rest
      else matches_from (S i) k rest
  end.

(** The first right row whose key equals [k], if there is one *)
Definition right_row (rkeys : list (option (key F))) (k : option (key F))
  : option nat :=
  hd_error (matches_from 0 k rkeys).

(** The rows of a left join: for every left row, in order, one row per
    matching right row, or one row without a right row. *)
Fixpoint join_from (i : nat) (lkeys rkeys : list (option (key F)))
  : list (nat * option nat) :=
  match lkeys with
  | [] => []
  | k :: rest =>
      match matches_from 0 k rkeys with
      | [] => [(i, None)]
      | js => map (fun j => (i, Some j)) js
      end ++ join_from (S i) rest rkeys
  end.

(** The entries of a column at the given rows; missing where there is
    no row *)
Definition take (c : column F) (rows : list (option nat)) : column F :=
  match c with
  | FloatCol xs =>
      FloatCol (map (fun r => match r with
                              | Some j => nth j xs fnan
                              | None => fnan
                              end) rows)
  | ObjCol xs =>
      ObjCol (map (fun r => match r with
                            | Some j => nth j xs None
                            | None => None
                            end) rows)
  end.

Definition same_kind (a b : column F) : bool :=
  match a, b with
  | FloatCol _, FloatCol _ => true
  | ObjCol _, ObjCol _ => true
  | _, _ => false
  end.

Definition mem (name : string) (names : list string) : bool :=
  existsb (String.eqb name) names.

(** A column name of one side in the result: the names that both sides
    have, the join column apart, get the suffix. *)
Definition suffixed (on : string) (others : list string) (suffix : string)
  (name : string) : string :=
  if negb (String.eqb name on) && mem name others
  then (name ++ suffix)%string else name.

(** [Index.duplicated()]: for every name, whether it repeats an earlier
    one; [seen] are the names before [names]. *)
Fixpoint duplicated_after (seen names : list string) : list bool :=
  match names with
  | [] => []
  | n :: rest => mem n seen :: duplicated_after (n :: seen) rest
  end.

(** The suffixes made a duplicate: a name of [renamed] repeats an earlier
    one where the name it comes from did not. *)
Definition new_duplicates (names renamed : list string) : bool :=
  existsb (fun p => fst p && negb (snd p))
          (combine (duplicated_after [] renamed) (duplicated_after [] names)).

(** [left.merge(right, on=on, how='left')].  The kinds of the two key
    columns are compared as pandas compares them when both tables have
    rows or neither has.  When exactly one of the tables has no rows
    pandas leaves the comparison out; the properties below stay clear of
    that case: their keys are strings on both sides, or numbers in a
    table with rows. *)
Definition merge_left (left right : DataFrame F) (on : string)
  : result (DataFrame F) :=
  match df_get right on, df_get left on with
  | None, _ | _, None => Raise (KeyError on)
  | Some rk, Some lk =>
      if negb (same_kind lk rk) then
        Raise (ValueError "You are trying to merge on columns of different types")
      else
        let lnames := map (suffixed on (df_columns right) "_x") (df_columns left) in
        let rnames :=
          map (suffixed on (df_columns left) "_y")
              (df_columns (df_drop right on)) in
        if new_duplicates (df_columns left) lnames
           || new_duplicates (df_columns (df_drop right on)) rnames
        then Raise (MergeError "Passing 'suffixes' which cause duplicate columns is not allowed")
        else
          let rows := join_from 0 (col_keys lk) (col_keys rk) in
          let lrows := map (fun r => Some (fst r)) rows in
          let rrows := map snd rows in
          Ok (combine lnames (map (fun nc => take (snd nc) lrows) left)
              ++ combine rnames
                   (map (fun nc => take (snd nc) rrows) (df_drop right on)))
  end.

(** [str(n)] for a length *)
Definition str_of_nat (n : nat) : string :=
  DecimalString.NilZero.string_of_uint (Nat.to_uint n).

(** What the function prints, line by line, and what it returns or
    raises. *)
Definition merge_health_and_funding (funding_df health_df : DataFrame F)
  (on : string) : list string * result (DataFrame F) :=
  let out1 := ["Merging funding and health data on '" ++ on ++ "'..."]%string in
  match merge_left funding_df health_df on with
  | Raise e => (out1, Raise e)
  | Ok merged =>
      let out2 :=
        out1 ++ [("Merged dataset has " ++ str_of_nat (df_len merged)
                  ++ " records and "
                  ++ str_of_nat (List.length (df_columns merged))
                  ++ " columns")%string] in
      (* Check for unmatched records *)
      match df_get merged "infant_mortality_rate" with
      | None => (out2, Raise (KeyError "infant_mortality_rate"))
      | Some c =>
          let unmatched := count_true (col_isna c) in
          let out3 :=
            if (0 <? unmatched)%nat
            then out2 ++ [("Warning: " ++ str_of_nat unmatched
                           ++ " records without health data")%string]
            else out2 in
          (out3, Ok merged)
      end
  end.

End Merge.

(* ================================================================= *)
(** ** The specification's words *)

Section SpecWords.

Context {F : Type} `{Arith F}.

(** The amounts of the source rows whose geography is [g] *)
Definition rows_of (g : string) (states : list (option string))
  (amounts : list F) : list F :=
  map snd
      (filter (fun r => match fst r with
                        | Some s => String.eqb g s
                        | None => false
                        end)
              (combine states amounts)).

(** The rows of the summary in the order of the groups, before they
    are sorted: for each geography its code, the sum and the mean of the
    amounts present, and their number. *)
Definition summary_rows (keys : list (option (key F))) (amounts : list F)
  : list (StateSummary F) :=
  map (fun k =>
         let group := select (group_mask k keys) amounts in
         {| geo := k;
            total_funding := series_sum group;
            avg_grant_size := series_mean group;
            num_grants := count_notna group |})
      (group_keys keys).

(** The table with the content of column [name] replaced by [c] *)
Definition df_set (df : DataFrame F) (name : string) (c : column F)
  : DataFrame F :=
  map (fun nc => if String.eqb (fst nc) name then (fst nc, c) else nc) df.

(** The entry of a column in row [i] is missing. *)
Definition missing_at (c : column F) (i : nat) : bool :=
  nth i (col_isna c) true.

End SpecWords.

(* ================================================================= *)
(** ** Example data *)

Module Examples.

(** binary64 floats *)
Definition f64 (z : Z) : B64.t := B64.of_int z.
Definition f0_1 : B64.t := B64.of_decimal false 1 (-1).
Definition f0_5 : B64.t := B64.of_decimal false 5 (-1).

(** exact amounts *)
Definition usd (z : Z) : XQ.t := XQ.Fin (inject_Z z).

(** [Series.quantile] is not called by the z-score method. *)
Definition no_quantile : Series B64.t -> B64.t -> B64.t := fun _ _ => fnan.

Definition five_values : Series B64.t := [f64 1; f64 1; f64 (-1); f64 (-1); f64 0].

Definition three_tenths : Series B64.t := [f0_1; f0_1; f0_1].

(** The grants of the specification's scenario: two in CA, one in TX
    whose amount could not be read. *)
Definition grants : DataFrame XQ.t :=
  [ ("Grant Number", ObjCol [Some "G1"; Some "G2"; Some "G3"]);
    ("State", ObjCol [Some "CA"; Some "CA"; Some "TX"]);
    ("Program Name",
     ObjCol [Some "Maternal Health Initiative"; Some "Home Visiting Program"; None]);
    ("Awardee Amount", FloatCol [usd 10000; usd 5000; XQ.NaN]) ].

(** The same grants without their numbers *)
Definition grants_unnumbered : DataFrame XQ.t := df_drop grants "Grant Number".

Definition funding : DataFrame XQ.t :=
  [ ("state", ObjCol [Some "CA"; Some "TX"]);
    ("total_funding", FloatCol [usd 15000; usd 0]) ].

Definition health : DataFrame XQ.t :=
  [ ("state", ObjCol [Some "CA"; Some "NY"]);
    ("infant_mortality_rate", FloatCol [usd 5; usd 6]) ].

(** Two rows for CA *)
Definition health_two_years : DataFrame XQ.t :=
  [ ("state", ObjCol [Some "CA"; Some "CA"]);
    ("year", FloatCol [usd 2020; usd 2021]);
    ("infant_mortality_rate", FloatCol [usd 5; usd 6]) ].

(** No rows, the columns present *)
Definition health_empty : DataFrame XQ.t :=
  [ ("state", ObjCol []); ("infant_mortality_rate", ObjCol []) ].

(** The indicator column absent *)
Definition health_no_indicator : DataFrame XQ.t :=
  [ ("state", ObjCol [Some "CA"; Some "NY"]);
    ("preterm_birth_pct", FloatCol [usd 9; usd 10]) ].

(** A funding table that itself has a column of the indicator's name *)
Definition funding_with_indicator : DataFrame XQ.t :=
  [ ("state", ObjCol [Some "CA"; Some "TX"]);
    ("infant_mortality_rate", FloatCol [usd 4; usd 7]) ].

End Examples.

(* ================================================================= *)
(** ** The category labels *)

(** The nine labels [categorize_program] returns *)
Definition category_labels : list string :=
  [ "Unknown"; "Mental Health"; "Maternal Health"; "Home Visiting";
    "Special Healthcare Needs"; "Training & Education";
    "Emergency Services"; "Screening Programs"; "Other" ].

(** The place of a label in the chain of tests of [categorize_program]:
    1 for the missing name, 2 to 8 for the keyword tests in their order,
    9 for the final [else]. *)
Definition rule_rank (label : string) : nat :=
  if String.eqb label "Unknown" then 1
  else if String.eqb label "Mental Health" then 2
  else if String.eqb label "Maternal Health" then 3
  else if String.eqb label "Home Visiting" then 4
  else if String.eqb label "Special Healthcare Needs" then 5
  else if String.eqb label "Training & Education" then 6
  else if String.eqb label "Emergency Services" then 7
  else if String.eqb label "Screening Programs" then 8
  else 9.

(** The number of rules of a table that fail before the first one that
    matches *)
Fixpoint first_index (rules : list ((list ascii -> bool) * string))
  (lowered : list ascii) : nat :=
  match rules with
  | [] => 0
  | (p, _) :: rest =>
      if p lowered then 0 else S (first_index rest lowered)
  end.

(* ================================================================= *)
(** ** More example data *)

Module MoreExamples.

(** The quartiles of [1, 2, 3, 4, 100]: 2 and 4 *)
Definition one_to_hundred : Series XQ.t :=
  [Examples.usd 1; Examples.usd 2; Examples.usd 3; Examples.usd 4;
   Examples.usd 100].

Definition quartiles_2_4 : Series XQ.t -> XQ.t -> XQ.t :=
  fun _ q => if XQ.ltb q (XQ.Fin (1 # 2)) then XQ.Fin 2 else XQ.Fin 4.

End MoreExamples.

(* ================================================================= *)
(** ** Ordered keys *)

(** Lists of string keys in strictly ascending order, as [groupby]
    leaves its groups *)
Inductive ascending {F : Type} `{Arith F} : list (key F) -> Prop :=
| ascending_nil : ascending []
| ascending_cons (s : string) (ks : list (key F)) :
    Forall (fun k => key_ltb (KStr s) k = true) ks ->
    Forall (fun k => exists t, k = KStr t) ks ->
    ascending ks ->
    ascending (KStr s :: ks).

(* ================================================================= *)
(** ** The rows that are counted *)

(** The source rows that enter a group with an amount: the state is
    present and so is the amount. *)
Definition counted_rows {F : Type} `{Arith F}
  (states : list (option string)) (amounts : list F)
  : list (option string * F) :=
  filter (fun r => match fst r with
                   | Some _ => negb (fisnan (snd r))
                   | None => false
                   end)
         (combine states amounts).

(* ================================================================= *)
(** ** Records without health data *)

(** The health table has a row of key [k] whose indicator is present. *)
Definition has_health_data {F : Type} `{Arith F}
  (rkeys : list (option string)) (indicator : list F) (k : option string)
  : bool :=
  existsb (fun r => okey_eqb (F:=F) (option_map KStr k) (option_map KStr (fst r))
                    && negb (fisnan (snd r)))
          (combine rkeys indicator).

(** The funding rows for whose key there is no such row *)
Definition records_without_health_data {F : Type} `{Arith F}
  (lkeys rkeys : list (option string)) (indicator : list F) : nat :=
  List.length (filter (fun k => negb (has_health_data rkeys indicator k)) lkeys).


(* ================================================================= *)
(** ** The health data of [api_fetcher] *)

(** The dict [states] of [fetch_cdc_wonder_data]: the state codes with
    their FIPS numbers, in the order of the literal. *)
Definition states : list (string * Z) :=
  [ ("AL", 1); ("AK", 2); ("AZ", 4); ("AR", 5); ("CA", 6); ("CO", 8); ("CT", 9);
    ("DE", 10); ("FL", 12); ("GA", 13); ("HI", 15); ("ID", 16); ("IL", 17);
    ("IN", 18); ("IA", 19); ("KS", 20); ("KY", 21); ("LA", 22); ("ME", 23);
    ("MD", 24); ("MA", 25); ("MI", 26); ("MN", 27); ("MS", 28); ("MO", 29);
    ("MT", 30); ("NE", 31); ("NV", 32); ("NH", 33); ("NJ", 34); ("NM", 35);
    ("NY", 36); ("NC", 37); ("ND", 38); ("OH", 39); ("OK", 40); ("OR", 41);
    ("PA", 42); ("RI", 44); ("SC", 45); ("SD", 46); ("TN", 47); ("TX", 48);
    ("UT", 49); ("VT", 50); ("VA", 51); ("WA", 53); ("WV", 54); ("WI", 55);
    ("WY", 56) ]%Z.

(** No name of a list occurs twice. *)
Fixpoint distinct (names : list string) : bool :=
  match names with
  | [] => true
  | n :: rest => negb (mem n rest) && distinct rest
  end.

Section Fetch.

Context {F : Type} `{Arith F}.

(** [np.random.seed(42)] fixes the stream of the generator:
    [random_sample n] is the [n]-th double of [0, 1) that it gives after
    the seed.  [np.random.uniform(low, high)] takes the next one and
    returns [low + (high - low) * u]. *)
Variable random_sample : nat -> F.

Definition uniform (n : nat) (low high : F) : F :=
  fadd low (fmul (fsub high low) (random_sample n)).

(** [np.random.uniform(low, high, size)], the stream standing at [start] *)
Definition uniform_array (start : nat) (low high : F) (size : nat) : list F :=
  map (fun i => uniform (start + i) low high) (seq 0 size).

(** Python's [round(x, ndigits)] and numpy's [round(decimals)] of a
    float *)
Variable py_round : F -> Z -> F.
Variable np_round : F -> Z -> F.

(** [df[mask]]: the rows where the mask holds *)
Definition df_filter (mask : list bool) (df : DataFrame F) : DataFrame F :=
  map (fun nc =>
         (fst nc,
          match snd nc with
          | FloatCol xs => FloatCol (select mask xs)
          | ObjCol xs => ObjCol (select mask xs)
          end))
      df.

(** One of the five metrics: state number [i] of the loop takes the
    draws [5 i] to [5 i + 4], the metric [m] the draw [5 i + m]. *)
Definition health_metric (m : nat) (low high : F) (ndigits : Z) : column F :=
  FloatCol (map (fun i => py_round (uniform (5 * i + m) low high) ndigits)
                (seq 0 (List.length states))).

(** [fetch_cdc_wonder_data]: what it prints and the frame it returns.
    The frame is built from the list of the rows, its columns in the
    order of the keys of a row.  The whole numbers of [state_fips] and
    [year] are held in float columns, a frame having float and string
    columns only.  [time.sleep(1)] changes nothing of the result. *)
Definition fetch_cdc_wonder_data (state_codes : option (list string))
  (year : Z) : list string * DataFrame F :=
  let df :=
    [ ("state", ObjCol (map (fun p => Some (fst p)) states));
      ("state_fips", FloatCol (map (fun p => of_int (snd p)) states));
      ("year", FloatCol (map (fun _ => of_int year) states));
      ("infant_mortality_rate",
       health_metric 0 (of_decimal false 45 (-1)) (of_decimal false 90 (-1)) 2);
      ("prenatal_care_pct", health_metric 1 (of_int 70) (of_int 85) 1);
      ("low_birthweight_pct", health_metric 2 (of_int 7) (of_int 11) 1);
      ("preterm_birth_pct", health_metric 3 (of_int 8) (of_int 13) 1);
      ("maternal_mortality_rate", health_metric 4 (of_int 15) (of_int 30) 1) ] in
  let df :=
    match state_codes with
    | Some (c :: cs) =>
        (* df[df['state'].isin(state_codes)] *)
        df_filter (map (fun p => mem (fst p) (c :: cs)) states) df
    | Some [] | None => df
    end in
  ([ "Fetching CDC health outcome data...";
     ("Retrieved data for " ++ str_of_nat (df_len df) ++ " states")%string ],
   df).

(** [fetch_county_health_rankings]: the empty frame [pd.DataFrame()] *)
Definition fetch_county_health_rankings (state : string) (year : Z)
  : list string * DataFrame F :=
  ([("Fetching county health data for " ++ state ++ "...")%string], []).

(** [df[name] = c]: the columns of that name are replaced where they
    stand; a new name is added at the end. *)
Definition df_assign (df : DataFrame F) (name : string) (c : column F)
  : DataFrame F :=
  if mem name (df_columns df) then df_set df name c else df ++ [(name, c)].

(** [Series.round(decimals)] *)
Definition round_column (decimals : Z) (c : column F) : column F :=
  match c with
  | FloatCol xs => FloatCol (map (fun x => np_round x decimals) xs)
  | ObjCol xs => ObjCol xs
  end.

(** [df[name] = df[name].round(decimals)] *)
Definition df_round (df : DataFrame F) (name : string) (decimals : Z)
  : result (DataFrame F) :=
  match df_get df name with
  | None => Raise (KeyError name)
  | Some c => Ok (df_assign df name (round_column decimals c))
  end.

(** [enrich_with_demographics]: what it prints and what it returns.
    The four calls of [np.random.uniform] follow each other in the
    stream that the seed has set back to its start. *)
Definition enrich_with_demographics (state_data : DataFrame F)
  : list string * result (DataFrame F) :=
  ( ["Adding demographic variables..."],
    let n1 := df_len state_data in
    let state_data :=
      df_assign state_data "median_household_income"
                (FloatCol (uniform_array 0 (of_int 45000) (of_int 85000) n1)) in
    let n2 := df_len state_data in
    let state_data :=
      df_assign state_data "poverty_rate"
                (FloatCol (uniform_array n1 (of_int 8) (of_int 22) n2)) in
    let n3 := df_len state_data in
    let state_data :=
      df_assign state_data "uninsured_rate"
                (FloatCol (uniform_array (n1 + n2) (of_int 4) (of_int 18) n3)) in
    let n4 := df_len state_data in
    let state_data :=
      df_assign state_data "urban_pct"
                (FloatCol (uniform_array (n1 + n2 + n3) (of_int 45) (of_int 95) n4)) in
    (* Round values *)
    state_data <- df_round state_data "median_household_income" 0 ;;
    state_data <- df_round state_data "poverty_rate" 1 ;;
    state_data <- df_round state_data "uninsured_rate" 1 ;;
    state_data <- df_round state_data "urban_pct" 1 ;;
    Ok state_data ).

End Fetch.

(** The four columns that [enrich_with_demographics] sets *)
Definition demographic_columns : list string :=
  [ "median_household_income"; "poverty_rate"; "uninsured_rate"; "urban_pct" ].

(** The columns of the frame of [fetch_cdc_wonder_data] *)
Definition health_columns : list string :=
  [ "state"; "state_fips"; "year"; "infant_mortality_rate";
    "prenatal_care_pct"; "low_birthweight_pct"; "preterm_birth_pct";
    "maternal_mortality_rate" ].

(** The codes asked for: all of them when [state_codes] is [None] or
    empty, which [if state_codes:] takes for false. *)
Definition asked (state_codes : option (list string)) (s : string) : Prop :=
  match state_codes with
  | Some (c :: cs) => In s (c :: cs)
  | Some [] | None => True
  end.


(* ================================================================= *)
(** ** [load_grant_data] *)

Section Load.

Context {F : Type} `{Arith F}.

(** [name.strip()] *)
Definition strip_name (name : string) : string :=
  string_of_list_ascii (strip (chars name)).

(** [df.columns = df.columns.str.strip()] *)
Definition strip_columns (df : DataFrame F) : DataFrame F :=
  map (fun nc => (strip_name (fst nc), snd nc)) df.

Fixpoint map_result {A B : Type} (f : A -> result B) (l : list A)
  : result (list B) :=
  match l with
  | [] => Ok []
  | x :: rest =>
      y <- f x ;;
      ys <- map_result f rest ;;
      Ok (y :: ys)
  end.

(** The cells of a column as the scalars that [apply] hands over: the
    floats of a float column; the strings of a column of strings, and
    the float NaN where a field of the file was empty. *)
Definition cells (c : column F) : list (scalar F) :=
  match c with
  | FloatCol xs => map PyFloat xs
  | ObjCol xs =>
      map (fun o => match o with
                    | Some s => PyStr s
                    | None => PyFloat fnan
                    end) xs
  end.

(** [Series.apply(clean_currency)].  An empty Series comes back as it
    is; the floats that the calls return make a float column. *)
Definition apply_clean_currency (c : column F) : result (column F) :=
  match cells c with
  | [] => Ok c
  | vs =>
      ys <- map_result clean_currency vs ;;
      Ok (FloatCol ys)
  end.

(** [load_grant_data], from the frame that [pd.read_csv] has read.
    When two columns bear the name after the stripping,
    [df['Awardee Amount']] is a frame and [apply] hands its columns to
    [clean_currency], whose [if pd.isna(...)] raises on a Series; a
    frame without rows is not handed over and stays as it is. *)
Definition load_grant_data (read_csv : DataFrame F) : result (DataFrame F) :=
  let df := strip_columns read_csv in
  if mem "Awardee Amount" (df_columns df) then
    match filter (fun nc => String.eqb (fst nc) "Awardee Amount") df with
    | [(_, c)] =>
        c' <- apply_clean_currency c ;;
        Ok (df_assign df "Awardee Amount" c')
    | _ =>
        if (df_len df =? 0)%nat then Ok df
        else Raise (ValueError
               "The truth value of a Series is ambiguous. Use a.empty, a.bool(), a.item(), a.any() or a.all().")
    end
  else Ok df.

End Load.

(* ================================================================= *)
(** ** [get_full_dataset] *)

Section Full.

Context {F : Type} `{Arith F}.

Variable sort_values_desc : sorter F.
Variable random_sample : nat -> F.
Variable py_round : F -> Z -> F.
Variable np_round : F -> Z -> F.

(** The column of the geographies of a summary, of the kind of the
    column that was grouped *)
Definition geo_column (kc : column F) (summary : list (StateSummary F))
  : column F :=
  match kc with
  | ObjCol _ =>
      ObjCol (map (fun r => match geo r with
                            | KStr s => Some s
                            | KNum _ => None
                            end) summary)
  | FloatCol _ =>
      FloatCol (map (fun r => match geo r with
                              | KNum x => x
                              | KStr _ => fnan
                              end) summary)
  end.

(** The summary as the frame that [get_state_summary] returns: the
    column of the geographies under the name [state_col] and the three
    columns of the amounts; the counts are whole numbers held in a float
    column. *)
Definition summary_frame (state_col : string) (kc : column F)
  (summary : list (StateSummary F)) : DataFrame F :=
  [ (state_col, geo_column kc summary);
    ("total_funding", FloatCol (map total_funding summary));
    ("avg_grant_size", FloatCol (map avg_grant_size summary));
    ("num_grants", FloatCol (map (fun r => of_nat (num_grants r)) summary)) ].

(** [df.rename(columns={old: new})] *)
Definition df_rename (df : DataFrame F) (old new : string) : DataFrame F :=
  map (fun nc => if String.eqb (fst nc) old then (new, snd nc) else nc) df.

(** [get_full_dataset], from the frame that [pd.read_csv] has read:
    what it prints and what it returns or raises. *)
Definition get_full_dataset (read_csv : DataFrame F)
  : list string * result (DataFrame F) :=
  (* Load grant data *)
  match load_grant_data read_csv with
  | Raise e => ([], Raise e)
  | Ok grants =>
      (* Aggregate to state level *)
      match get_state_summary sort_values_desc grants "State" "Awardee Amount",
            df_get grants "State" with
      | Raise e, _ => ([], Raise e)
      | Ok _, None => ([], Raise (KeyError "State"))
      | Ok summary, Some kc =>
          let state_funding := summary_frame "State" kc summary in
          (* Fetch health outcomes *)
          let (out1, health_data) :=
            fetch_cdc_wonder_data random_sample py_round None 2021 in
          (* Add demographics *)
          let (out2, enriched) :=
            enrich_with_demographics random_sample np_round health_data in
          match enriched with
          | Raise e => (out1 ++ out2, Raise e)
          | Ok health_data =>
              (* Merge *)
              let (out3, full_data) :=
                merge_health_and_funding
                  (df_rename state_funding "State" "state") health_data "state" in
              (out1 ++ out2 ++ out3, full_data)
          end
      end
  end.

End Full.


(* ================================================================= *)
(** ** Totals in exact arithmetic *)

(** The number that an amount stands for; a missing amount adds
    nothing to a total. *)
Definition amount_value (x : XQ.t) : Q :=
  match x with
  | XQ.Fin q => q
  | _ => 0
  end.

(** The total of a list of amounts, as a rational number *)
Definition amounts_total (xs : list XQ.t) : Q :=
  fold_right (fun x acc => amount_value x + acc) 0 xs.


(* ================================================================= *)
(** ** The characters of an amount *)

(** [c in cs] for a character *)
Definition one_of (cs : string) (c : ascii) : bool :=
  existsb (Ascii.eqb c) (chars cs).

(** The characters that the text of a float can hold: the digits, the
    signs, the point, the mark of the exponent, the underscore, and the
    letters of [inf], [infinity] and [nan] in either case *)
Definition float_char (c : ascii) : bool :=
  is_digit c || one_of "+-.eE_" c || one_of "infatyn" (lower_char c).

(** These, the whitespace, and the two characters that [clean_currency]
    removes *)
Definition amount_char (c : ascii) : bool :=
  float_char c || is_space c || one_of "$," c.


(* ================================================================= *)
(** ** Example data in binary64 *)

Module FloatExamples.





End FloatExamples.


(* ================================================================= *)
(** * Properties *)

(* ================================================================= *)
(** ** The specification's scenario, evaluated *)

(** The three grants of the end-to-end scenario: the programs of G1 and
    G2 and the missing one of G3. *)
Example scenario_categories :
  map categorize_program
      [Some "Maternal Health Initiative"; Some "Home Visiting Program"; None]
  = ["Maternal Health"; "Home Visiting"; "Unknown"].
Proof. vm_compute. reflexivity. Qed.

(** Their amounts, read in binary64 *)
Example scenario_amounts :
  map (clean_currency (F:=B64.t)) [PyStr "$10,000"; PyStr "$5,000"; PyStr "bad"]
  = [Ok (Examples.f64 10000); Ok (Examples.f64 5000); Ok fnan].
Proof. vm_compute. reflexivity. Qed.

(** The summary merged with health data that knows CA and NY: TX stays,
    without health data, and the function says so. *)
Example scenario_merge :
  merge_health_and_funding Examples.funding Examples.health "state"
  = ([ "Merging funding and health data on 'state'...";
       "Merged dataset has 2 records and 3 columns";
       "Warning: 1 records without health data" ],
     Ok [ ("state", ObjCol [Some "CA"; Some "TX"]);
          ("total_funding", FloatCol [Examples.usd 15000; Examples.usd 0]);
          ("infant_mortality_rate", FloatCol [Examples.usd 5; XQ.NaN]) ]).
Proof. vm_compute. reflexivity. Qed.

(** A method that is neither 'iqr' nor 'zscore' *)
Example unknown_method :
  identify_outliers Examples.no_quantile Examples.five_values "mad"
                    (Examples.f64 3)
  = Raise (ValueError "Method must be 'iqr' or 'zscore'").
Proof. reflexivity. Qed.

(* ================================================================= *)
(** ** Currency Normalizer *)

Lemma float_of_str_raises_ValueError {F : Type} `{Arith F}
  (s : list ascii) (e : exn) :
  float_of_str s = Raise e -> exists msg, e = ValueError msg.
Proof.
  unfold float_of_str.
  destruct (drop_underscores None (strip s)) as [t|].
  - destruct (parse_inf_or_nan t); [discriminate|].
    destruct (strtod t) as [[[neg m] ex]|]; [discriminate|].
    intros [= <-]. eauto.
  - intros [= <-]. eauto.
Qed.

Lemma clean_currency_str_ok {F : Type} `{Arith F} (s : string) :
  exists x, clean_currency_str s = Ok x
            /\ (raises (float_of_str (F:=F) (cleaned s)) -> x = fnan).
Proof.
  unfold clean_currency_str.
  destruct (float_of_str (cleaned s)) as [x|e] eqn:E.
  - exists x. split; [reflexivity|]. intros [e' He]. discriminate.
  - destruct (float_of_str_raises_ValueError _ _ E) as [msg ->].
    exists fnan. split; reflexivity.
Qed.

(** C8.  [clean_currency] returns a float for every scalar and never
    raises: a missing input gives NaN, a string that [float] rejects
    after the dollar signs, commas and surrounding whitespace are gone
    gives NaN, ["$1,234,567"] gives 1234567.0 and ["abc"] gives NaN. *)
Theorem clean_currency_never_raises :
  (forall (F : Type) (A : Arith F) (v : scalar F),
      exists x : F,
        clean_currency v = Ok x
        /\ (isna v = true -> x = fnan)
        /\ (forall s, v = PyStr s ->
                      raises (float_of_str (F:=F) (cleaned s)) -> x = fnan))
  /\ clean_currency (F:=B64.t) (PyStr "$1,234,567") = Ok (B64.of_int 1234567)
  /\ clean_currency (F:=XQ.t) (PyStr "$1,234,567") = Ok (XQ.Fin 1234567)
  /\ clean_currency (F:=B64.t) (PyStr "abc") = Ok fnan
  /\ clean_currency (F:=B64.t) PyNone = Ok fnan.
Proof.
  split; [|repeat split; vm_compute; reflexivity].
  intros F A v. unfold clean_currency.
  destruct (isna v) eqn:Hna.
  - exists fnan. split; [reflexivity|]. split; reflexivity.
  - destruct v as [|s|x]; simpl in Hna; try discriminate.
    + destruct (clean_currency_str_ok (F:=F) s) as (x & Hx & Hr).
      exists x. split; [exact Hx|]. split; [discriminate|].
      intros s' [= <-]. exact Hr.
    + exists x. split; [reflexivity|]. split; discriminate.
Qed.

Lemma clean_currency_never_raises_witness :
  exists x : B64.t, clean_currency (PyStr "12 dollars") = Ok x /\ x = fnan.
Proof.
  destruct (proj1 clean_currency_never_raises B64.t b64 (PyStr "12 dollars"))
    as (x & Hx & _ & Hs).
  exists x. split; [exact Hx|].
  apply (Hs "12 dollars"); [reflexivity|].
  eexists. vm_compute. reflexivity.
Defined.

(* ================================================================= *)
(** ** Program Categorizer *)

Lemma categorize_program_refines (name : option string) :
  categorize_program name = categorize_spec name.
Proof.
  destruct name as [name|]; [|reflexivity].
  unfold categorize_program, categorize_spec, rule_table, first_match, has_kw.
  reflexivity.
Qed.

(** C7, as stated, fails: rule 2 comes before rule 3, so a name with
    "maternal" and "training" that also has "mental health" is
    'Mental Health'. *)
Lemma categorize_maternal_training_counterexample :
  let name := "Maternal Mental Health Training" in
  has_kw "maternal" (lower (chars name)) = true
  /\ has_kw "training" (lower (chars name)) = true
  /\ categorize_program (Some name) = "Mental Health"
  /\ categorize_program (Some name) <> "Maternal Health".
Proof.
  cbv zeta. repeat split; try (vm_compute; reflexivity).
  vm_compute. discriminate.
Qed.

(** C7, amended.  The rules are tried in the order 1 to 9 and the first
    that matches decides: a missing name is 'Unknown'; a name with
    "maternal" and "training" that rule 2 does not match is
    'Maternal Health'; a name with "home", without "visit", that no
    other rule matches is 'Other'. *)
Theorem categorize_program_rule_order :
  (forall name, categorize_program name = categorize_spec name)
  /\ categorize_program None = "Unknown"
  /\ (forall name,
        has_kw "maternal" (lower (chars name)) = true ->
        has_kw "training" (lower (chars name)) = true ->
        rule_matches 2 (lower (chars name)) = false ->
        categorize_program (Some name) = "Maternal Health")
  /\ (forall name,
        has_kw "home" (lower (chars name)) = true ->
        has_kw "visit" (lower (chars name)) = false ->
        (forall k, k <> 4%nat -> rule_matches k (lower (chars name)) = false) ->
        categorize_program (Some name) = "Other").
Proof.
  split; [exact categorize_program_refines|].
  split; [reflexivity|].
  split.
  - intros name Hm Ht H2.
    rewrite categorize_program_refines. unfold categorize_spec.
    cbn [rule_table first_match fst snd].
    cbn in H2. rewrite H2. cbn [has_kw] in *. unfold has_kw in *.
    rewrite Hm. reflexivity.
  - intros name Hh Hv Hk.
    rewrite categorize_program_refines. unfold categorize_spec.
    pose proof (Hk 2%nat ltac:(discriminate)) as H2.
    pose proof (Hk 3%nat ltac:(discriminate)) as H3.
    pose proof (Hk 5%nat ltac:(discriminate)) as H5.
    pose proof (Hk 6%nat ltac:(discriminate)) as H6.
    pose proof (Hk 7%nat ltac:(discriminate)) as H7.
    pose proof (Hk 8%nat ltac:(discriminate)) as H8.
    cbn in H2, H3, H5, H6, H7, H8.
    cbn [rule_table first_match].
    rewrite H2, H3, H5, H6, H7, H8, Hv, andb_false_r. reflexivity.
Qed.

Lemma categorize_program_rule_order_witness :
  categorize_program (Some "Maternal Health Training Institute") = "Maternal Health"
  /\ categorize_program (Some "Home Office Support") = "Other".
Proof.
  destruct categorize_program_rule_order as (_ & _ & Hm & Ho).
  split.
  - apply Hm; vm_compute; reflexivity.
  - apply Ho; try (vm_compute; reflexivity).
    intros k Hk.
    destruct k as [|[|[|[|[|[|[|[|[|k]]]]]]]]];
      try (vm_compute; reflexivity); try (exfalso; apply Hk; reflexivity).
    unfold rule_matches.
    replace (nth_error rule_table (S (S (S (S (S (S (S (S (S k)))))))) - 2))
      with (@None ((list ascii -> bool) * string)); [reflexivity|].
    symmetry. apply nth_error_None. simpl. lia.
Defined.

(* ================================================================= *)
(** ** Facts of binary64 arithmetic *)

Module B64Facts.

Import B64.

(** Case analysis on a float: its class and its sign *)
Ltac float_cases x := destruct x as [[|]|[|]| |[|] ? ?].

Lemma round_aux_shape (s : bool) (m e : Z) (l : location) :
  let r := binary_round_aux prec emax s m e l in
  r = S754_nan \/ r = S754_zero s \/ r = S754_infinity s
  \/ exists m' e', r = S754_finite s m' e'.
Proof.
  unfold binary_round_aux.
  destruct (shr_fexp prec emax m e l) as [mrs' e'].
  destruct (shr_fexp prec emax _ e' loc_Exact) as [mrs'' e''].
  destruct (shr_m mrs'') as [|p|p]; cbv zeta.
  - right; left; reflexivity.
  - destruct (Z.leb e'' (Z.sub emax prec)).
    + right; right; right; eauto.
    + right; right; left; reflexivity.
  - left; reflexivity.
Qed.

Lemma abs_round_aux (s : bool) (m e : Z) (l : location) :
  SFabs (binary_round_aux prec emax s m e l) = binary_round_aux prec emax false m e l.
Proof.
  unfold binary_round_aux.
  destruct (shr_fexp prec emax m e l) as [mrs' e'].
  destruct (shr_fexp prec emax _ e' loc_Exact) as [mrs'' e''].
  destruct (shr_m mrs'') as [|p|p]; try reflexivity.
  destruct (Z.leb e'' (Z.sub emax prec)); reflexivity.
Qed.

Lemma sign_clear_round_aux (m e : Z) (l : location) :
  sign_clear (binary_round_aux prec emax false m e l) = true.
Proof.
  destruct (round_aux_shape false m e l) as [H|[H|[H|(m' & e' & H)]]];
    cbv zeta in H; rewrite H; reflexivity.
Qed.

Lemma sign_clear_round (m : positive) (e : Z) :
  sign_clear (binary_round prec emax false m e) = true.
Proof.
  unfold binary_round.
  destruct (shl_align m e _) as [mz ez].
  apply sign_clear_round_aux.
Qed.

Lemma sign_clear_abs (x : t) : sign_clear x = true -> SFabs x = x.
Proof. float_cases x; simpl; congruence. Qed.

Lemma sign_clear_add (x y : t) :
  sign_clear x = true -> sign_clear y = true ->
  sign_clear (SFadd prec emax x y) = true.
Proof.
  destruct x as [[|]|[|]| |[|] mx ex], y as [[|]|[|]| |[|] my ey];
    simpl; try congruence; intros _ _.
  destruct (shl_align mx ex _) as [a ?], (shl_align my ey _) as [b ?].
  simpl. apply sign_clear_round.
Qed.

Lemma sign_clear_square (x : t) : sign_clear (SFmul prec emax x x) = true.
Proof.
  destruct x as [[|]|[|]| |[|] m e]; simpl; try reflexivity;
    apply sign_clear_round_aux.
Qed.

Lemma sign_clear_div (x y : t) :
  sign_clear x = true -> sign_clear y = true ->
  sign_clear (SFdiv prec emax x y) = true.
Proof.
  destruct x as [[|]|[|]| |[|] mx ex], y as [[|]|[|]| |[|] my ey];
    simpl; try congruence; intros _ _.
  destruct (SFdiv_core_binary prec emax (Zpos mx) ex (Zpos my) ey) as [[mz ez] lz].
  apply sign_clear_round_aux.
Qed.

Lemma sign_clear_sqrt (x : t) :
  sign_clear x = true -> sign_clear (SFsqrt prec emax x) = true.
Proof.
  destruct x as [[|]|[|]| |[|] m e]; simpl; try congruence; intros _.
  destruct (SFsqrt_core_binary prec emax (Zpos m) e) as [[mz ez] lz].
  apply sign_clear_round_aux.
Qed.

Lemma sign_clear_of_nat (n : nat) : sign_clear (of_nat (F:=t) n) = true.
Proof.
  unfold of_nat. simpl. unfold of_int.
  destruct n as [|n]; [reflexivity|].
  simpl. apply sign_clear_round.
Qed.

Lemma abs_div (x y : t) :
  sign_clear y = true ->
  SFabs (SFdiv prec emax x y) = SFdiv prec emax (SFabs x) y.
Proof.
  destruct x as [sx|sx| |sx mx ex], y as [[|]|[|]| |[|] my ey];
    simpl; try congruence; intros _; try reflexivity.
  destruct (SFdiv_core_binary prec emax (Zpos mx) ex (Zpos my) ey) as [[mz ez] lz].
  rewrite abs_round_aux. destruct sx; reflexivity.
Qed.

Lemma sign_clear_fsum (xs : list t) (acc : t) :
  sign_clear acc = true -> Forall (fun x => sign_clear x = true) xs ->
  sign_clear (fold_left fadd xs acc) = true.
Proof.
  intros Hacc Hxs. revert acc Hacc.
  induction Hxs as [|x xs Hx _ IH]; intros acc Hacc; simpl; [exact Hacc|].
  apply IH. apply sign_clear_add; assumption.
Qed.

Lemma sign_clear_var (ddof : nat) (s : Series t) :
  sign_clear (series_var ddof s) = true.
Proof.
  unfold series_var.
  destruct (count_notna s <=? ddof)%nat; [reflexivity|].
  apply sign_clear_div; [|apply sign_clear_of_nat].
  apply sign_clear_fsum; [reflexivity|].
  apply Forall_forall. intros y Hy.
  apply in_map_iff in Hy. destruct Hy as (x & <- & _).
  destruct (fisnan x); [reflexivity|]. apply sign_clear_square.
Qed.

Lemma sign_clear_std (ddof : nat) (s : Series t) :
  sign_clear (std_ddof ddof s) = true.
Proof. apply sign_clear_sqrt, sign_clear_var. Qed.

End B64Facts.

(* ================================================================= *)
(** ** Outlier Detector *)

Module Zscore.

Import B64 B64Facts.

Lemma zero_or_nan_sub_self (v : t) : zero_or_nan (SFsub prec emax v v) = true.
Proof.
  destruct v as [[|]|[|]| |s m e]; try reflexivity.
  simpl. rewrite Z.min_id.
  destruct (shl_align m e e) as [a ?]. simpl.
  rewrite Z.sub_diag. reflexivity.
Qed.

Lemma zero_or_nan_add (x y : t) :
  zero_or_nan x = true -> zero_or_nan y = true ->
  zero_or_nan (SFadd prec emax x y) = true.
Proof. float_cases x; float_cases y; simpl; congruence. Qed.

Lemma zero_or_nan_square (x : t) :
  zero_or_nan x = true -> zero_or_nan (SFmul prec emax x x) = true.
Proof. float_cases x; simpl; congruence. Qed.

Lemma zero_or_nan_div (x y : t) :
  zero_or_nan x = true -> zero_or_nan (SFdiv prec emax x y) = true.
Proof. float_cases x; float_cases y; simpl; congruence. Qed.

Lemma zero_or_nan_sqrt (x : t) :
  zero_or_nan x = true -> zero_or_nan (SFsqrt prec emax x) = true.
Proof. float_cases x; simpl; congruence. Qed.

Lemma nan_div (x y : t) :
  zero_or_nan x = true -> zero_or_nan y = true ->
  SFdiv prec emax x y = S754_nan.
Proof. float_cases x; float_cases y; simpl; congruence. Qed.

Lemma zero_or_nan_fsum (xs : list t) (acc : t) :
  zero_or_nan acc = true -> Forall (fun x => zero_or_nan x = true) xs ->
  zero_or_nan (fold_left fadd xs acc) = true.
Proof.
  intros Hacc Hxs. revert acc Hacc.
  induction Hxs as [|x xs Hx _ IH]; intros acc Hacc; simpl; [exact Hacc|].
  apply IH. apply zero_or_nan_add; assumption.
Qed.

(** The deviations of a series from its mean all being zero or NaN, so
    is its standard deviation. *)
Lemma zero_or_nan_std (ddof : nat) (s : Series t) :
  Forall (fun x => zero_or_nan (fsub x (series_mean s)) = true) s ->
  zero_or_nan (std_ddof ddof s) = true.
Proof.
  intros Hdev. apply zero_or_nan_sqrt. unfold series_var.
  destruct (count_notna s <=? ddof)%nat; [reflexivity|].
  apply zero_or_nan_div. apply zero_or_nan_fsum; [reflexivity|].
  apply Forall_forall. intros y Hy.
  apply in_map_iff in Hy. destruct Hy as (x & <- & Hx).
  destruct (fisnan x); [reflexivity|].
  apply zero_or_nan_square.
  rewrite Forall_forall in Hdev. apply Hdev, Hx.
Qed.

Lemma gt_nan (threshold : t) : fgtb (fabs (F:=t) S754_nan) threshold = false.
Proof. unfold fgtb. simpl. float_cases threshold; reflexivity. Qed.

Lemma zscore_outliers_length (series : Series t) (threshold : t) :
  List.length (zscore_outliers series threshold) = List.length series.
Proof. unfold zscore_outliers. rewrite !length_map. reflexivity. Qed.

End Zscore.

(** C5, as stated, fails: [Series.std()] divides by [n - 1].  On
    [1, 1, -1, -1, 0] with threshold 1 the sample standard deviation is
    1 and nothing is flagged; with the population standard deviation,
    the square root of 4/5, four elements would be. *)
Lemma zscore_population_counterexample :
  identify_outliers Examples.no_quantile Examples.five_values "zscore"
                    (Examples.f64 1)
  = Ok [false; false; false; false; false]
  /\ map (zscore_exceeds (population_std Examples.five_values)
                         Examples.five_values (Examples.f64 1))
         Examples.five_values
     = [true; true; true; true; false].
Proof. split; vm_compute; reflexivity. Qed.

(** C5, amended.  With method 'zscore' the detector flags exactly the
    elements whose absolute deviation from the mean of the series,
    divided by the sample standard deviation of the series (divisor
    [n - 1], pandas' default), exceeds the threshold. *)
Theorem zscore_flags_sample_std
  (quantile : Series B64.t -> B64.t -> B64.t)
  (series : Series B64.t) (threshold : B64.t) :
  identify_outliers quantile series "zscore" threshold
  = Ok (map (zscore_exceeds (std_ddof 1 series) series threshold) series).
Proof.
  unfold identify_outliers. simpl String.eqb. cbv iota.
  unfold zscore_outliers. rewrite map_map. f_equal.
  apply map_ext. intros x. unfold zscore_exceeds, series_std. f_equal.
  apply B64Facts.abs_div, B64Facts.sign_clear_std.
Qed.

(** C10, as stated, fails in binary64: the sum of three copies of 0.1
    is 0.30000000000000004 in whatever order they are added and their
    mean is 0.10000000000000002; the deviations and the standard
    deviation are tiny but not zero, every z-score is about 0.816, and
    with threshold 0.5 all three elements are flagged. *)
Lemma zscore_constant_counterexample :
  series_mean Examples.three_tenths <> Examples.f0_1
  /\ identify_outliers Examples.no_quantile Examples.three_tenths "zscore"
                       Examples.f0_5
     = Ok [true; true; true].
Proof. split; [vm_compute; discriminate | vm_compute; reflexivity]. Qed.

(** C10, amended.  On a non-empty series whose elements are all equal,
    method 'zscore' raises nothing and returns one flag per element;
    when the computed mean is that element itself, the deviations are
    zero, the standard deviation is zero or NaN, every z-score is NaN
    and no element is flagged, whatever the threshold. *)
Theorem zscore_constant_series
  (quantile : Series B64.t -> B64.t -> B64.t)
  (v threshold : B64.t) (n : nat) :
  (0 < n)%nat ->
  exists flags,
    identify_outliers quantile (repeat v n) "zscore" threshold = Ok flags
    /\ List.length flags = n
    /\ (series_mean (repeat v n) = v -> flags = repeat false n).
Proof.
  intros Hn. eexists. split; [reflexivity|]. split.
  - rewrite Zscore.zscore_outliers_length. apply repeat_length.
  - intros Hmean. unfold zscore_outliers. rewrite Hmean.
    rewrite !map_repeat. f_equal.
    pose proof (Zscore.zero_or_nan_sub_self v) as Hd.
    assert (Hs : B64.zero_or_nan (series_std (repeat v n)) = true).
    { apply Zscore.zero_or_nan_std. rewrite Hmean.
      apply Forall_forall. intros x Hx. apply repeat_spec in Hx. subst x.
      exact Hd. }
    change (fdiv (fsub v v) (series_std (repeat v n)))
      with (SFdiv B64.prec B64.emax (SFsub B64.prec B64.emax v v)
                  (series_std (repeat v n))).
    rewrite (Zscore.nan_div _ _ Hd Hs). apply Zscore.gt_nan.
Qed.

Lemma zscore_constant_series_witness :
  exists flags,
    identify_outliers Examples.no_quantile (repeat (Examples.f64 5) 3)
                      "zscore" (Examples.f64 1) = Ok flags
    /\ flags = [false; false; false].
Proof.
  destruct (zscore_constant_series Examples.no_quantile (Examples.f64 5)
              (Examples.f64 1) 3 ltac:(lia)) as (flags & Hf & _ & Hz).
  exists flags. split; [exact Hf|].
  apply Hz. vm_compute. reflexivity.
Defined.

(* ================================================================= *)
(** ** Sorting *)

Section SortFacts.

Context {F : Type} `{Arith F}.

Lemma insert_desc_perm {A : Type} (by_ : A -> F) (x : A) (l : list A) :
  Permutation (insert_desc by_ x l) (x :: l).
Proof.
  induction l as [|y r IH]; simpl; [reflexivity|].
  destruct (desc_ok (by_ x) (by_ y)); [reflexivity|].
  rewrite IH. apply perm_swap.
Qed.

Lemma insertion_sorter_permutes : sort_permutes insertion_sorter.
Proof.
  intros A by_ l. unfold insertion_sorter.
  induction l as [|x l IH]; simpl; [reflexivity|].
  rewrite insert_desc_perm. constructor. exact IH.
Qed.

End SortFacts.

(* ================================================================= *)
(** ** State Aggregator *)

Section AggregatorFacts.

Context {F : Type} `{Arith F}.

Lemma df_get_drop (df : DataFrame F) (dropped name : string) :
  name <> dropped -> df_get (df_drop df dropped) name = df_get df name.
Proof.
  intros Hne. induction df as [|[n c] df IH]; simpl; [reflexivity|].
  destruct (String.eqb_spec n dropped) as [->|Hn]; simpl.
  - rewrite IH. destruct (String.eqb_spec dropped name); congruence.
  - rewrite IH. reflexivity.
Qed.

Lemma insert_key_In (k k' : key F) (ks : list (key F)) :
  (forall k2, In k2 ks -> key_eqb k k2 = true -> k = k2) ->
  In k' (insert_key k ks) <-> k' = k \/ In k' ks.
Proof.
  induction ks as [|k2 r IH]; intros Heq; simpl.
  - intuition congruence.
  - destruct (key_eqb k k2) eqn:E.
    + pose proof (Heq k2 (or_introl eq_refl) E) as ->. simpl. intuition.
    + destruct (key_ltb k k2); simpl.
      * intuition congruence.
      * rewrite IH by (intros; apply Heq; simpl; auto). intuition.
Qed.

Lemma key_eqb_KStr (s : string) (k : key F) :
  key_eqb (KStr s) k = true -> KStr s = k.
Proof.
  destruct k as [t|x]; simpl; [|discriminate].
  intros E. apply String.eqb_eq in E. congruence.
Qed.

Lemma group_keys_fold_In (states : list (option string)) (acc : list (key F))
  (k : key F) :
  (forall k2, In k2 acc -> exists s, k2 = KStr s) ->
  In k (fold_left
          (fun acc o => match o with Some k => insert_key k acc | None => acc end)
          (map (option_map KStr) states) acc)
  <-> In k acc \/ exists s, k = KStr s /\ In (Some s) states.
Proof.
  revert acc. induction states as [|o states IH]; intros acc Hacc; simpl.
  - split; [auto|]. intros [?|(s & _ & [])]. assumption.
  - destruct o as [s|]; simpl.
    + rewrite IH.
      * rewrite insert_key_In by (intros; apply key_eqb_KStr; assumption).
        split.
        -- intros [[->|Hin]|(s' & -> & Hin)]; eauto 6.
        -- intros [Hin|(s' & -> & [[= ->]|Hin])]; eauto 6.
      * intros k2 Hk2.
        apply insert_key_In in Hk2;
          [|intros; apply key_eqb_KStr; assumption].
        destruct Hk2 as [->|Hk2]; eauto.
    + rewrite IH by assumption.
      split.
      * intros [Hin|(s' & -> & Hin)]; eauto 6.
      * intros [Hin|(s' & -> & [[=]|Hin])]; eauto 6.
Qed.

(** The groups of a column of strings are the strings present in it. *)
Lemma group_keys_In (states : list (option string)) (k : key F) :
  In k (group_keys (col_keys (ObjCol states)))
  <-> exists s, k = KStr s /\ In (Some s) states.
Proof.
  unfold group_keys, col_keys. rewrite group_keys_fold_In.
  - simpl. intuition.
  - intros k2 [].
Qed.

Lemma select_group_mask (g : string) (states : list (option string))
  (amounts : list F) :
  select (group_mask (KStr g) (col_keys (ObjCol states))) amounts
  = rows_of g states amounts.
Proof.
  unfold rows_of. simpl col_keys. revert amounts.
  induction states as [|o states IH]; intros [|a amounts];
    try reflexivity.
  destruct o as [s|]; simpl.
  - destruct (String.eqb g s); simpl; rewrite IH; reflexivity.
  - apply IH.
Qed.

Lemma select_incl {A : Type} (mask : list bool) (xs : list A) (x : A) :
  In x (select mask xs) -> In x xs.
Proof.
  revert xs. induction mask as [|b m IH]; intros [|y r]; simpl; try tauto.
  destruct b; simpl; intuition.
Qed.

(** *** What a successful call returns *)

Lemma drop_check_aggregated (keys : list (option (key F))) (amounts : list F)
  (gn : column F) :
  drop_check (aggregated keys amounts gn) = summary_rows keys amounts.
Proof.
  unfold drop_check, aggregated, summary_rows. rewrite map_map. reflexivity.
Qed.

Lemma get_state_summary_ok (srt : sorter F) (df : DataFrame F)
  (state_col amount_col : string) (kc gn : column F) (amounts : list F) :
  state_col <> amount_col ->
  state_col <> "Grant Number" ->
  amount_col <> "Grant Number" ->
  df_get df state_col = Some kc ->
  df_get df amount_col = Some (FloatCol amounts) ->
  df_get df "Grant Number" = Some gn ->
  get_state_summary srt df state_col amount_col
  = Ok (srt _ total_funding (summary_rows (col_keys kc) amounts)).
Proof.
  intros Hsa Hsg Hag Hk Ha Hg. unfold get_state_summary.
  rewrite Hk.
  destruct (String.eqb_spec amount_col "Grant Number"); [contradiction|].
  rewrite Ha, Hg. cbn [agg_amounts bind].
  rewrite drop_check_aggregated. reflexivity.
Qed.



Lemma summary_row_In (srt : sorter F) (keys : list (option (key F)))
  (amounts : list F) (row : StateSummary F) :
  sort_permutes srt ->
  (In row (srt _ total_funding (summary_rows keys amounts))
   <-> exists k, In k (group_keys keys)
                 /\ row = {| geo := k;
                             total_funding :=
                               series_sum (select (group_mask k keys) amounts);
                             avg_grant_size :=
                               series_mean (select (group_mask k keys) amounts);
                             num_grants :=
                               count_notna (select (group_mask k keys) amounts) |}).
Proof.
  intros Hperm. split.
  - intros Hin. apply (Permutation_in _ (Hperm _ _ _)) in Hin.
    apply in_map_iff in Hin. destruct Hin as (k & <- & Hk). eauto.
  - intros (k & Hk & ->).
    apply (Permutation_in _ (Permutation_sym (Hperm _ _ _))).
    apply in_map_iff. eauto.
Qed.

End AggregatorFacts.

(** C1.  The count that the summary keeps is not the count of the
    records.  [agg] returns two counts for every geography: that of the
    amounts, which leaves the missing amounts out, and that of 'Grant
    Number', one for every record.  The code names the first
    [num_grants] and drops the second as a duplicate.  In the grants of
    the scenario TX has one record, whose amount is missing: the count
    that is dropped is 1 and [num_grants] is 0. *)
Theorem num_grants_drops_the_record_count :
  aggregated (col_keys (ObjCol [Some "CA"; Some "CA"; Some "TX"]))
             [Examples.usd 10000; Examples.usd 5000; XQ.NaN]
             (ObjCol [Some "G1"; Some "G2"; Some "G3"])
  = [ ({| geo := KStr "CA";
          total_funding := XQ.Fin 15000;
          avg_grant_size := XQ.Fin (15000 # 2);
          num_grants := 2 |}, 2%nat);
      ({| geo := KStr "TX";
          total_funding := XQ.Fin 0;
          avg_grant_size := XQ.NaN;
          num_grants := 0 |}, 1%nat) ]
  /\ get_state_summary insertion_sorter Examples.grants "State" "Awardee Amount"
     = Ok [ {| geo := KStr "CA";
               total_funding := XQ.Fin 15000;
               avg_grant_size := XQ.Fin (15000 # 2);
               num_grants := 2 |};
            {| geo := KStr "TX";
               total_funding := XQ.Fin 0;
               avg_grant_size := XQ.NaN;
               num_grants := 0 |} ]
  /\ List.length
       (rows_of "TX" [Some "CA"; Some "CA"; Some "TX"]
                [Examples.usd 10000; Examples.usd 5000; XQ.NaN])
     = 1%nat.
Proof. repeat split; vm_compute; reflexivity. Qed.

(** What the code computes: for every geography of the table the
    summary has a row, and in it [num_grants] is the number of source
    rows of that geography whose amount is not missing; the sum and the
    mean are taken over the same rows. *)
Lemma num_grants_counts_present_amounts {F : Type} `{Arith F}
  (srt : sorter F) (df : DataFrame F) (state_col amount_col : string)
  (states : list (option string)) (amounts : list F) (gn : column F) :
  sort_permutes srt ->
  state_col <> amount_col ->
  state_col <> "Grant Number" ->
  amount_col <> "Grant Number" ->
  df_get df state_col = Some (ObjCol states) ->
  df_get df amount_col = Some (FloatCol amounts) ->
  df_get df "Grant Number" = Some gn ->
  exists summary,
    get_state_summary srt df state_col amount_col = Ok summary
    /\ forall g, In (Some g) states ->
         (exists row, In row summary /\ geo row = KStr g)
         /\ (forall row, In row summary -> geo row = KStr g ->
               num_grants row = count_notna (rows_of g states amounts)
               /\ total_funding row = series_sum (rows_of g states amounts)
               /\ avg_grant_size row = series_mean (rows_of g states amounts)).
Proof.
  intros Hperm Hsa Hsg Hag Hk Ha Hg.
  eexists. split; [eapply get_state_summary_ok; eassumption|].
  intros g Hin. split.
  - eexists. split.
    + apply summary_row_In; [exact Hperm|].
      exists (KStr g). split; [|reflexivity].
      apply group_keys_In. eauto.
    + reflexivity.
  - intros row Hrow Hgeo.
    apply summary_row_In in Hrow; [|exact Hperm].
    destruct Hrow as (k & _ & ->). simpl in Hgeo. subst k.
    cbn [num_grants total_funding avg_grant_size].
    rewrite select_group_mask. auto.
Qed.


(** *** Exact arithmetic *)


Lemma select_Forall {A : Type} (P : A -> Prop) (mask : list bool) (xs : list A) :
  Forall P xs -> Forall P (select mask xs).
Proof.
  intros Hxs. apply Forall_forall. intros x Hx.
  rewrite Forall_forall in Hxs. apply Hxs. eapply select_incl, Hx.
Qed.





Lemma df_get_set_other {F : Type} `{Arith F} (df : DataFrame F)
  (name other : string) (c : column F) :
  other <> name -> df_get (df_set df name c) other = df_get df other.
Proof.
  intros Hne. induction df as [|[n c0] df IH]; simpl; [reflexivity|].
  destruct (String.eqb_spec n name) as [->|Hn]; simpl.
  - destruct (String.eqb_spec name other); [congruence|exact IH].
  - rewrite IH. reflexivity.
Qed.

Lemma df_get_set_same {F : Type} `{Arith F} (df : DataFrame F)
  (name : string) (c : column F) :
  df_get (df_set df name c) name
  = match df_get df name with Some _ => Some c | None => None end.
Proof.
  induction df as [|[n c0] df IH]; simpl; [reflexivity|].
  destruct (String.eqb_spec n name) as [->|Hn]; simpl.
  - rewrite String.eqb_refl. reflexivity.
  - destruct (String.eqb_spec n name); [contradiction|exact IH].
Qed.

Lemma df_drop_set {F : Type} `{Arith F} (df : DataFrame F)
  (name dropped : string) (c : column F) :
  df_drop (df_set df name c) dropped = df_set (df_drop df dropped) name c.
Proof.
  induction df as [|[n c0] df IH]; simpl; [reflexivity|].
  destruct (String.eqb_spec n name) as [->|Hn]; simpl;
    destruct (String.eqb name dropped) eqn:E1; simpl;
    try (destruct (String.eqb n dropped) eqn:E2; simpl);
    rewrite ?String.eqb_refl, ?IH; try reflexivity.
  - destruct (String.eqb_spec n name); [contradiction|reflexivity].
  - destruct (String.eqb_spec n name); [contradiction|reflexivity].
Qed.

(** C9.  A table without a column named 'Grant Number' makes
    [get_state_summary] raise a KeyError - that of 'Grant Number' when
    the state and amount columns are there - although the column does
    not influence the summary: replacing its content changes nothing. *)
Theorem grant_number_required_but_unused {F : Type} `{Arith F}
  (srt : sorter F) (df : DataFrame F) (state_col amount_col : string) :
  (df_get df "Grant Number" = None ->
   (exists k, get_state_summary srt df state_col amount_col = Raise (KeyError k))
   /\ (forall kc ac,
         state_col <> amount_col ->
         df_get df state_col = Some kc ->
         df_get df amount_col = Some ac ->
         get_state_summary srt df state_col amount_col
         = Raise (KeyError "Grant Number")))
  /\ (state_col <> "Grant Number" ->
      amount_col <> "Grant Number" ->
      forall c : column F,
        get_state_summary srt (df_set df "Grant Number" c) state_col amount_col
        = get_state_summary srt df state_col amount_col).
Proof.
  split.
  - intros Hgn. split.
    + unfold get_state_summary.
      destruct (df_get df state_col); [|eauto].
      destruct (String.eqb amount_col "Grant Number").
      * rewrite Hgn. eauto.
      * rewrite Hgn. destruct (df_get df amount_col); eauto.
    + intros kc ac Hsa Hk Ha. unfold get_state_summary. rewrite Hk, Hgn.
      destruct (String.eqb amount_col "Grant Number"); [reflexivity|].
      rewrite Ha. reflexivity.
  - intros Hsg Hag c. unfold get_state_summary.
    rewrite (df_get_set_other df "Grant Number" state_col c) by congruence.
    rewrite (df_get_set_other df "Grant Number" amount_col c) by congruence.
    destruct (df_get df state_col) as [kc|]; [|reflexivity].
    destruct (String.eqb_spec amount_col "Grant Number"); [contradiction|].
    rewrite df_get_set_same.
    destruct (df_get df amount_col) as [ac|];
      destruct (df_get df "Grant Number"); try reflexivity.
    destruct (agg_amounts (col_keys kc) ac); [|reflexivity].
    cbn [bind]. rewrite !drop_check_aggregated. reflexivity.
Qed.

Lemma grant_number_required_but_unused_witness :
  get_state_summary insertion_sorter Examples.grants_unnumbered
                    "State" "Awardee Amount"
  = Raise (KeyError "Grant Number")
  /\ get_state_summary insertion_sorter
       (df_set Examples.grants "Grant Number" (ObjCol [None; None; None]))
       "State" "Awardee Amount"
     = get_state_summary insertion_sorter Examples.grants
                         "State" "Awardee Amount".
Proof.
  split.
  - destruct (grant_number_required_but_unused
                insertion_sorter Examples.grants_unnumbered
                "State" "Awardee Amount") as [Hmiss _].
    destruct (Hmiss eq_refl) as [_ Hk].
    apply (Hk (ObjCol [Some "CA"; Some "CA"; Some "TX"])
              (FloatCol [Examples.usd 10000; Examples.usd 5000; XQ.NaN]));
      [discriminate|reflexivity|reflexivity].
  - destruct (grant_number_required_but_unused
                insertion_sorter Examples.grants
                "State" "Awardee Amount") as [_ Hsame].
    apply Hsame; discriminate.
Defined.

(* ================================================================= *)
(** ** Dataset Merger *)

Section MergeFacts.

Context {F : Type} `{Arith F}.

Lemma okey_eqb_str (a b : option string) :
  okey_eqb (F:=F) (option_map KStr a) (option_map KStr b) = true <-> a = b.
Proof.
  destruct a as [s|], b as [t|]; simpl; try (split; congruence).
  rewrite String.eqb_eq. split; congruence.
Qed.

Lemma matches_from_absent (i : nat) (k : option string)
  (rkeys : list (option string)) :
  ~ In k rkeys ->
  matches_from (F:=F) i (option_map KStr k) (map (option_map KStr) rkeys) = [].
Proof.
  revert i. induction rkeys as [|r rest IH]; intros i Hin; simpl; [reflexivity|].
  destruct (okey_eqb (option_map KStr k) (option_map KStr r)) eqn:E.
  - apply okey_eqb_str in E. subst r. exfalso. apply Hin. simpl. auto.
  - apply IH. intros Hr. apply Hin. simpl. auto.
Qed.

Lemma matches_from_number (i : nat) (x : F) (rkeys : list (option string)) :
  matches_from i (Some (KNum x)) (map (option_map KStr) rkeys) = [].
Proof.
  revert i. induction rkeys as [|[r|] rest IH]; intros i; simpl; auto.
Qed.

Lemma matches_from_unique (i : nat) (k : option string)
  (rkeys : list (option string)) :
  NoDup rkeys ->
  (List.length
     (matches_from (F:=F) i (option_map KStr k) (map (option_map KStr) rkeys))
   <= 1)%nat.
Proof.
  intros Hnd. revert i.
  induction Hnd as [|r rest Hr _ IH]; intros i; simpl; [lia|].
  destruct (okey_eqb (option_map KStr k) (option_map KStr r)) eqn:E.
  - apply okey_eqb_str in E. subst r.
    rewrite matches_from_absent by exact Hr. simpl. lia.
  - apply IH.
Qed.

Lemma join_from_unique (i : nat) (lkeys rkeys : list (option (key F))) :
  (forall k, (List.length (matches_from 0 k rkeys) <= 1)%nat) ->
  join_from i lkeys rkeys
  = combine (seq i (List.length lkeys)) (map (right_row rkeys) lkeys).
Proof.
  intros Huniq. revert i.
  induction lkeys as [|k rest IH]; intros i; simpl; [reflexivity|].
  rewrite IH. unfold right_row at 2.
  pose proof (Huniq k) as Hk.
  destruct (matches_from 0 k rkeys) as [|j [|j' more]]; simpl in *;
    [reflexivity|reflexivity|lia].
Qed.

Lemma map_fst_combine {A B : Type} (l : list A) (l' : list B) :
  List.length l = List.length l' -> map fst (combine l l') = l.
Proof.
  revert l'. induction l as [|a l IH]; intros [|b l'] Hlen; simpl in *;
    try discriminate; [reflexivity|].
  f_equal. apply IH. lia.
Qed.

Lemma map_snd_combine {A B : Type} (l : list A) (l' : list B) :
  List.length l = List.length l' -> map snd (combine l l') = l'.
Proof.
  revert l'. induction l as [|a l IH]; intros [|b l'] Hlen; simpl in *;
    try discriminate; [reflexivity|].
  f_equal. apply IH. lia.
Qed.

Lemma map_nth_seq {A : Type} (xs : list A) (d : A) :
  map (fun j => nth j xs d) (seq 0 (List.length xs)) = xs.
Proof.
  induction xs as [|x xs IH]; simpl; [reflexivity|].
  f_equal. rewrite <- seq_shift, map_map. exact IH.
Qed.

(** Taking every row in order gives the column back. *)
Lemma take_all (c : column F) :
  take c (map Some (seq 0 (col_len c))) = c.
Proof.
  destruct c as [xs|xs]; simpl; rewrite map_map; f_equal; apply map_nth_seq.
Qed.

Lemma combine_names (df : DataFrame F) (f : column F -> column F) :
  combine (df_columns df) (map (fun nc => f (snd nc)) df)
  = map (fun nc => (fst nc, f (snd nc))) df.
Proof.
  induction df as [|[n c] df IH]; simpl; [reflexivity|].
  f_equal. exact IH.
Qed.

Lemma df_get_map (df : DataFrame F) (f : column F -> column F) (name : string) :
  df_get (map (fun nc => (fst nc, f (snd nc))) df) name
  = option_map f (df_get df name).
Proof.
  induction df as [|[n c] df IH]; simpl; [reflexivity|].
  destruct (String.eqb n name); [reflexivity|exact IH].
Qed.

Lemma df_get_app (df df' : DataFrame F) (name : string) :
  df_get (df ++ df') name
  = match df_get df name with Some c => Some c | None => df_get df' name end.
Proof.
  induction df as [|[n c] df IH]; simpl; [reflexivity|].
  destruct (String.eqb n name); [reflexivity|exact IH].
Qed.

Lemma df_get_In (df : DataFrame F) (name : string) :
  In name (df_columns df) <-> exists c, df_get df name = Some c.
Proof.
  induction df as [|[n c] df IH]; simpl.
  - split; [tauto|]. intros [c Hc]. discriminate.
  - destruct (String.eqb_spec n name) as [->|Hn].
    + split; eauto.
    + rewrite <- IH. tauto.
Qed.

Lemma df_get_None (df : DataFrame F) (name : string) :
  ~ In name (df_columns df) -> df_get df name = None.
Proof.
  intros Hin. destruct (df_get df name) as [c|] eqn:E; [|reflexivity].
  exfalso. apply Hin, df_get_In. eauto.
Qed.

Lemma mem_In (name : string) (names : list string) :
  mem name names = true <-> In name names.
Proof.
  unfold mem. rewrite existsb_exists. split.
  - intros (x & Hx & E). apply String.eqb_eq in E. congruence.
  - intros Hin. exists name. split; [exact Hin|apply String.eqb_refl].
Qed.

(** Without a shared column name other than the join column, no name
    gets a suffix. *)
Lemma suffixed_disjoint (on suffix : string) (names others : list string) :
  (forall c, In c names -> In c others -> c = on) ->
  map (suffixed on others suffix) names = names.
Proof.
  intros Hdis. rewrite <- (map_id names) at 2.
  apply map_ext_in. intros n Hn. unfold suffixed.
  destruct (String.eqb_spec n on) as [->|Hne]; [reflexivity|]. simpl.
  destruct (mem n others) eqn:E; [|reflexivity].
  apply mem_In in E. elim Hne. auto.
Qed.

Lemma df_columns_drop (df : DataFrame F) (dropped c : string) :
  In c (df_columns (df_drop df dropped)) <-> In c (df_columns df) /\ c <> dropped.
Proof.
  unfold df_columns, df_drop. rewrite !in_map_iff. split.
  - intros ([n col] & <- & Hin). apply filter_In in Hin.
    destruct Hin as [Hin Hne]. simpl in *.
    destruct (String.eqb_spec n dropped); [discriminate|].
    split; [|assumption]. exists (n, col). auto.
  - intros [([n col] & <- & Hin) Hne]. exists (n, col). split; [reflexivity|].
    apply filter_In. split; [assumption|]. simpl.
    destruct (String.eqb_spec n dropped); [contradiction|reflexivity].
Qed.

Lemma new_duplicates_same (names : list string) :
  new_duplicates names names = false.
Proof.
  unfold new_duplicates. generalize (duplicated_after [] names) as l.
  induction l as [|b l IH]; simpl; [reflexivity|].
  rewrite andb_negb_r. exact IH.
Qed.

(** The merge of two tables that share the join column only, no key
    occurring twice on the right: the left table followed by the other
    columns of the right table, row by row. *)
Lemma merge_left_unique (left right : DataFrame F) (on : string)
  (lkeys rkeys : list (option string)) :
  has_rows left (List.length lkeys) ->
  (forall c, In c (df_columns left) -> In c (df_columns right) -> c = on) ->
  df_get left on = Some (ObjCol lkeys) ->
  df_get right on = Some (ObjCol rkeys) ->
  NoDup rkeys ->
  merge_left left right on
  = Ok (left
        ++ map (fun nc =>
                  (fst nc,
                   take (snd nc)
                        (map (right_row (col_keys (ObjCol rkeys)))
                             (col_keys (ObjCol lkeys)))))
               (df_drop right on)).
Proof.
  intros Hlen Hdis Hl Hr Hnd. unfold merge_left. rewrite Hl, Hr.
  cbn [same_kind negb].
  rewrite (suffixed_disjoint on "_x" (df_columns left) (df_columns right) Hdis).
  rewrite (suffixed_disjoint on "_y" (df_columns (df_drop right on))
             (df_columns left)).
  2:{ intros c Hc Hc'. apply df_columns_drop in Hc. destruct Hc as [Hc _].
      auto. }
  rewrite !new_duplicates_same. cbn [orb].
  rewrite join_from_unique.
  2:{ intros [[s|x]|].
      - exact (matches_from_unique 0 (Some s) rkeys Hnd).
      - simpl. rewrite matches_from_number. simpl. lia.
      - exact (matches_from_unique 0 None rkeys Hnd). }
  assert (Hn : List.length (seq 0 (List.length (col_keys (ObjCol lkeys))))
               = List.length (map (right_row (col_keys (ObjCol rkeys)))
                                  (col_keys (ObjCol lkeys)))).
  { rewrite length_seq, length_map. reflexivity. }
  rewrite map_snd_combine by exact Hn.
  rewrite <- (map_map fst (fun i => Some i)), map_fst_combine by exact Hn.
  rewrite (combine_names left
             (fun c => take c (map (fun i => Some i)
                                   (seq 0 (List.length (col_keys (ObjCol lkeys))))))).
  rewrite (combine_names (df_drop right on)
             (fun c => take c (map (right_row (col_keys (ObjCol rkeys)))
                                   (col_keys (ObjCol lkeys))))).
  f_equal. f_equal.
  rewrite <- (map_id left) at 2. apply map_ext_in.
  intros [n c] Hin. simpl. f_equal.
  unfold has_rows in Hlen.
  rewrite Forall_forall in Hlen. specialize (Hlen _ Hin). simpl in Hlen.
  simpl col_keys. rewrite length_map, <- Hlen. apply take_all.
Qed.

Lemma string_length_append (a b : string) :
  String.length (a ++ b) = (String.length a + String.length b)%nat.
Proof. induction a as [|c a IH]; simpl; [reflexivity|]. rewrite IH. reflexivity. Qed.

Lemma string_get_append (a b : string) (k : nat) :
  String.get (String.length a + k) (a ++ b) = String.get k b.
Proof. induction a as [|c a IH]; simpl; [reflexivity|exact IH]. Qed.

(** No suffixed name is the indicator's. *)
Lemma suffixed_not_indicator (n suffix : string) :
  suffix = "_x" \/ suffix = "_y" ->
  (n ++ suffix)%string <> "infant_mortality_rate".
Proof.
  intros Hs E.
  pose proof (f_equal String.length E) as Hlen.
  rewrite string_length_append in Hlen.
  pose proof (string_get_append n suffix 1) as Hget.
  rewrite E in Hget.
  destruct Hs as [-> | ->]; simpl in Hlen;
    replace (String.length n) with 19%nat in Hget by lia;
    simpl in Hget; discriminate.
Qed.

End MergeFacts.

Lemma missing_at_take {F : Type} `{Arith F} (c : column F)
  (rows : list (option nat)) (i : nat) :
  fisnan (fnan : F) = true ->
  nth_error rows i = Some None ->
  missing_at (take c rows) i = true.
Proof.
  intros Hnan Hi. unfold missing_at.
  destruct c as [xs|xs]; simpl; rewrite map_map.
  - apply nth_error_nth.
    rewrite nth_error_map, Hi. simpl. rewrite Hnan. reflexivity.
  - apply nth_error_nth.
    rewrite nth_error_map, Hi. reflexivity.
Qed.

Lemma col_len_take {F : Type} `{Arith F} (c : column F)
  (rows : list (option nat)) :
  col_len (take c rows) = List.length rows.
Proof. destruct c; simpl; apply length_map. Qed.

(** C2, as stated, fails: a left join repeats a left row for every right
    row of its key.  With two health rows for CA the two funding rows
    become three.  And the empty frame [pd.DataFrame()], which has no
    join column, makes the merge raise. *)
Lemma merge_duplicate_keys_counterexample :
  (exists merged,
      snd (merge_health_and_funding Examples.funding Examples.health_two_years
                                    "state") = Ok merged
      /\ df_get merged "state" = Some (ObjCol [Some "CA"; Some "CA"; Some "TX"])
      /\ df_len merged = 3%nat
      /\ df_len Examples.funding = 2%nat)
  /\ snd (merge_health_and_funding Examples.funding [] "state")
     = Raise (KeyError "state").
Proof.
  split; [|vm_compute; reflexivity].
  eexists. repeat split; vm_compute; reflexivity.
Qed.

(** C2, amended.  When no key occurs twice in the right table (and the
    tables share the join column only, the right one having the
    indicator column), the merge returns a table with the rows of the
    left table, one for one: as many rows, every left column unchanged,
    and every right column missing in the rows whose key the right table
    does not have - in all rows when the right table is empty. *)
Theorem merge_keeps_left_rows {F : Type} `{Arith F}
  (left right : DataFrame F) (on : string)
  (lkeys rkeys : list (option string)) :
  fisnan (fnan : F) = true ->
  has_rows left (List.length lkeys) ->
  (forall c, In c (df_columns left) -> In c (df_columns right) -> c = on) ->
  df_get left on = Some (ObjCol lkeys) ->
  df_get right on = Some (ObjCol rkeys) ->
  NoDup rkeys ->
  In "infant_mortality_rate" (df_columns right) ->
  on <> "infant_mortality_rate" ->
  exists merged,
    snd (merge_health_and_funding left right on) = Ok merged
    /\ df_len merged = df_len left
    /\ (forall name c, df_get left name = Some c -> df_get merged name = Some c)
    /\ (forall name c,
          name <> on -> df_get right name = Some c ->
          exists c',
            df_get merged name = Some c'
            /\ col_len c' = df_len left
            /\ forall i k, nth_error lkeys i = Some k -> ~ In k rkeys ->
                           missing_at c' i = true).
Proof.
  intros Hnan Hlen Hdis Hl Hr Hnd Hind Hon.
  pose proof (merge_left_unique left right on lkeys rkeys Hlen Hdis Hl Hr Hnd)
    as Hmerge.
  set (rrows := map (right_row (col_keys (ObjCol rkeys)))
                    (col_keys (ObjCol lkeys))) in *.
  set (rpart := map (fun nc => (fst nc, take (snd nc) rrows))
                    (df_drop right on)) in *.
  assert (Hright : forall name c,
             name <> on -> df_get right name = Some c ->
             df_get rpart name = Some (take c rrows)).
  { intros name c Hne Hc. unfold rpart.
    rewrite (df_get_map (df_drop right on) (fun c => take c rrows)).
    rewrite df_get_drop by exact Hne. rewrite Hc. reflexivity. }
  assert (Hdl : df_len left = List.length lkeys).
  { destruct left as [|[n c] left']; [discriminate|].
    inversion Hlen; subst. assumption. }
  exists (left ++ rpart). split; [|split; [|split]].
  - unfold merge_health_and_funding. rewrite Hmerge.
    apply df_get_In in Hind. destruct Hind as [c Hc].
    rewrite df_get_app, (Hright _ c) by congruence.
    destruct (df_get left "infant_mortality_rate"); reflexivity.
  - destruct left as [|[n c] left']; [discriminate|reflexivity].
  - intros name c Hc. rewrite df_get_app, Hc. reflexivity.
  - intros name c Hne Hc. exists (take c rrows). split; [|split].
    + rewrite df_get_app, df_get_None; [apply Hright; assumption|].
      intros Hin. apply Hne, Hdis; [exact Hin|].
      apply df_get_In. eauto.
    + rewrite col_len_take, Hdl. unfold rrows. simpl col_keys.
      rewrite !length_map. reflexivity.
    + intros i k Hi Hk. apply missing_at_take; [exact Hnan|].
      unfold rrows. simpl col_keys.
      rewrite nth_error_map, nth_error_map, Hi. simpl. f_equal.
      unfold right_row.
      rewrite (matches_from_absent 0 k rkeys Hk). reflexivity.
Qed.

Lemma merge_keeps_left_rows_witness :
  exists merged,
    snd (merge_health_and_funding Examples.funding Examples.health_empty
                                  "state") = Ok merged
    /\ df_len merged = 2%nat
    /\ exists c, df_get merged "infant_mortality_rate" = Some c
                 /\ missing_at c 0 = true /\ missing_at c 1 = true.
Proof.
  destruct (merge_keeps_left_rows
              Examples.funding Examples.health_empty "state"
              [Some "CA"; Some "TX"] []) as (merged & Hm & Hlen & _ & Hright).
  - reflexivity.
  - repeat constructor.
  - intros c Hl Hr. simpl in Hl, Hr.
    destruct Hl as [<-|[<-|[]]]; [reflexivity|].
    destruct Hr as [E|[E|[]]]; discriminate.
  - reflexivity.
  - reflexivity.
  - constructor.
  - simpl. auto.
  - discriminate.
  - exists merged. split; [exact Hm|]. split; [exact Hlen|].
    destruct (Hright "infant_mortality_rate" (ObjCol [])
                ltac:(discriminate) eq_refl) as (c & Hc & _ & Hmiss).
    exists c. split; [exact Hc|]. split.
    + apply (Hmiss 0%nat (Some "CA")); [reflexivity|simpl; tauto].
    + apply (Hmiss 1%nat (Some "TX")); [reflexivity|simpl; tauto].
Defined.

(** C3, as stated, fails: there is no SchemaMismatch condition.  With
    the indicator column absent from the right table the function
    raises the KeyError of the column lookup - and returns normally
    when the left table has a column of that name. *)
Lemma schema_mismatch_counterexample :
  ~ In "infant_mortality_rate" (df_columns Examples.health_no_indicator)
  /\ snd (merge_health_and_funding Examples.funding
            Examples.health_no_indicator "state")
     = Raise (KeyError "infant_mortality_rate")
  /\ is_KeyError (KeyError "infant_mortality_rate") = true
  /\ exists merged,
       snd (merge_health_and_funding Examples.funding_with_indicator
              Examples.health_no_indicator "state") = Ok merged.
Proof.
  split.
  - simpl. intros [E|[E|[]]]; discriminate.
  - split; [vm_compute; reflexivity|]. split; [reflexivity|].
    eexists. vm_compute. reflexivity.
Qed.

(** C3, amended.  When neither table has a column named
    'infant_mortality_rate', the function fails: either the merge itself
    raises, or the merge succeeds and the detection step raises the
    KeyError of the lookup of that column. *)
Theorem indicator_lookup_raises_KeyError {F : Type} `{Arith F}
  (left right : DataFrame F) (on : string) :
  ~ In "infant_mortality_rate" (df_columns left) ->
  ~ In "infant_mortality_rate" (df_columns right) ->
  raises (snd (merge_health_and_funding left right on))
  /\ (forall merged,
        merge_left left right on = Ok merged ->
        snd (merge_health_and_funding left right on)
        = Raise (KeyError "infant_mortality_rate")).
Proof.
  intros Hl Hr.
  assert (Hkey : forall merged,
             merge_left left right on = Ok merged ->
             df_get merged "infant_mortality_rate" = None).
  { intros merged Hm. unfold merge_left in Hm.
    destruct (df_get right on) as [rk|]; [|discriminate].
    destruct (df_get left on) as [lk|]; [|discriminate].
    destruct (negb (same_kind lk rk)); [discriminate|].
    destruct (_ || _); [discriminate|].
    injection Hm as <-.
    apply df_get_None. unfold df_columns. rewrite map_app, in_app_iff.
    assert (Hsuf : forall others suffix names,
               suffix = "_x" \/ suffix = "_y" ->
               ~ In "infant_mortality_rate" names ->
               ~ In "infant_mortality_rate"
                    (map (suffixed on others suffix) names)).
    { intros others suffix names Hs Hn Hin.
      apply in_map_iff in Hin. destruct Hin as (n & E & Hin).
      unfold suffixed in E.
      destruct (negb (String.eqb n on) && mem n others).
      - exact (suffixed_not_indicator n suffix Hs E).
      - subst n. contradiction. }
    intros [Hin|Hin]; apply in_map_iff in Hin;
      destruct Hin as ([n c] & E & Hin); simpl in E; subst n;
      apply in_combine_l in Hin.
    - revert Hin. apply Hsuf; auto.
    - revert Hin. apply Hsuf; auto.
      intros Hin. apply df_columns_drop in Hin. tauto. }
  assert (Hfinal : forall merged,
             merge_left left right on = Ok merged ->
             snd (merge_health_and_funding left right on)
             = Raise (KeyError "infant_mortality_rate")).
  { intros merged Hm. unfold merge_health_and_funding.
    rewrite Hm, (Hkey merged Hm). reflexivity. }
  split; [|exact Hfinal].
  destruct (merge_left left right on) as [merged|e] eqn:Hm.
  - eexists. apply (Hfinal merged). reflexivity.
  - exists e. unfold merge_health_and_funding. rewrite Hm. reflexivity.
Qed.

Lemma indicator_lookup_raises_KeyError_witness :
  snd (merge_health_and_funding Examples.funding Examples.health_no_indicator
                                "state")
  = Raise (KeyError "infant_mortality_rate").
Proof.
  destruct (indicator_lookup_raises_KeyError
              Examples.funding Examples.health_no_indicator "state")
    as [_ Hk].
  - simpl. intros [E|[E|[]]]; discriminate.
  - simpl. intros [E|[E|[]]]; discriminate.
  - eapply Hk. vm_compute. reflexivity.
Defined.

(* ================================================================= *)
(** * Further properties *)

(* ================================================================= *)
(** ** Reading whole amounts *)

Lemma is_digit_cases (c : ascii) :
  is_digit c = true ->
  In c ["0"; "1"; "2"; "3"; "4"; "5"; "6"; "7"; "8"; "9"]%char.
Proof.
  destruct c as [[] [] [] [] [] [] [] []]; intros Hd;
    try discriminate Hd; simpl; tauto.
Qed.

(** What holds of each of the ten digits holds of every digit. *)
Ltac by_digit c H :=
  apply is_digit_cases in H; simpl in H;
  repeat (destruct H as [<-|H]; [reflexivity|]); destruct H.

Lemma digit_not_space (c : ascii) : is_digit c = true -> is_space c = false.
Proof. intros Hd. by_digit c Hd. Qed.

Lemma digit_not_underscore (c : ascii) :
  is_digit c = true -> Ascii.eqb c "_" = false.
Proof. intros Hd. by_digit c Hd. Qed.

Lemma digit_parse_sign (c : ascii) (r : list ascii) :
  is_digit c = true -> parse_sign (c :: r) = (false, c :: r).
Proof. intros Hd. by_digit c Hd. Qed.

Lemma digits_lstrip (ds : list ascii) :
  forallb is_digit ds = true -> lstrip ds = ds.
Proof.
  destruct ds as [|c r]; simpl; [reflexivity|].
  intros Hd. apply andb_true_iff in Hd. destruct Hd as [Hc _].
  rewrite (digit_not_space c Hc). reflexivity.
Qed.

Lemma forallb_rev {A : Type} (f : A -> bool) (l : list A) :
  forallb f l = true -> forallb f (rev l) = true.
Proof.
  rewrite !forallb_forall. intros Hl x Hx. apply Hl, in_rev, Hx.
Qed.

Lemma digits_strip (ds : list ascii) :
  forallb is_digit ds = true -> strip ds = ds.
Proof.
  intros Hd. unfold strip.
  rewrite (digits_lstrip ds Hd).
  rewrite (digits_lstrip (rev ds) (forallb_rev _ _ Hd)).
  apply rev_involutive.
Qed.

Lemma digits_drop_underscores (ds : list ascii) (prev : option ascii) :
  match prev with Some p => Ascii.eqb p "_" | None => false end = false ->
  forallb is_digit ds = true ->
  drop_underscores prev ds = Some ds.
Proof.
  revert prev. induction ds as [|c r IH]; intros prev Hp Hd; simpl.
  - rewrite Hp. reflexivity.
  - simpl in Hd. apply andb_true_iff in Hd. destruct Hd as [Hc Hr].
    rewrite (digit_not_underscore c Hc), Hp. simpl.
    rewrite IH; [reflexivity| |exact Hr].
    apply digit_not_underscore, Hc.
Qed.

Lemma digits_span (ds : list ascii) :
  forallb is_digit ds = true -> span_digits ds = (ds, []).
Proof.
  induction ds as [|c r IH]; simpl; [reflexivity|].
  intros Hd. apply andb_true_iff in Hd. destruct Hd as [Hc Hr].
  rewrite Hc, (IH Hr). reflexivity.
Qed.

Lemma digits_not_inf_or_nan {F : Type} `{Arith F} (ds : list ascii) :
  ds <> [] -> forallb is_digit ds = true ->
  parse_inf_or_nan (F:=F) ds = None.
Proof.
  destruct ds as [|c r]; [congruence|]. intros _ Hd.
  simpl in Hd. apply andb_true_iff in Hd. destruct Hd as [Hc _].
  by_digit c Hc.
Qed.

Lemma digits_strtod (ds : list ascii) :
  ds <> [] -> forallb is_digit ds = true ->
  strtod ds = Some (false, digits_val ds, 0%Z).
Proof.
  destruct ds as [|c r] eqn:E; [congruence|]. intros _ Hd.
  unfold strtod.
  assert (Hc : is_digit c = true)
    by (simpl in Hd; apply andb_true_iff in Hd; tauto).
  rewrite (digit_parse_sign c r Hc), (digits_span _ Hd).
  rewrite app_nil_r. reflexivity.
Qed.

Lemma digits_float {F : Type} `{Arith F} (ds : list ascii) :
  ds <> [] -> forallb is_digit ds = true ->
  float_of_str (F:=F) ds = Ok (of_decimal false (digits_val ds) 0).
Proof.
  intros Hne Hd. unfold float_of_str.
  rewrite (digits_strip ds Hd).
  rewrite (digits_drop_underscores ds None eq_refl Hd).
  rewrite (digits_not_inf_or_nan ds Hne Hd), (digits_strtod ds Hne Hd).
  reflexivity.
Qed.

(** X1.  A string that is a run of decimal digits once its dollar
    signs and commas - wherever they stand - and the whitespace around
    it are gone is read as the whole number the digits write. *)
Theorem clean_currency_whole_amount {F : Type} `{Arith F}
  (s : string) (ds : list ascii) :
  ds <> [] ->
  forallb is_digit ds = true ->
  cleaned s = ds ->
  clean_currency (F:=F) (PyStr s) = Ok (of_decimal false (digits_val ds) 0).
Proof.
  intros Hne Hd Hs. unfold clean_currency. simpl.
  unfold clean_currency_str. rewrite Hs, (digits_float ds Hne Hd).
  reflexivity.
Qed.

Lemma clean_currency_whole_amount_witness :
  clean_currency (F:=XQ.t) (PyStr " $12,50,0 ")
  = Ok (of_decimal false 12500 0).
Proof.
  apply (clean_currency_whole_amount " $12,50,0 " (chars "12500"));
    [discriminate | reflexivity | reflexivity].
Defined.

(* ================================================================= *)
(** ** The categories *)

(** X2.  [categorize_program] returns one of nine labels, and 'Unknown'
    for the missing name only. *)
Theorem categorize_program_labels (name : option string) :
  In (categorize_program name) category_labels
  /\ (categorize_program name = "Unknown" <-> name = None).
Proof.
  destruct name as [name|].
  - unfold categorize_program.
    repeat match goal with
           | |- context [if ?b then _ else _] => destruct b
           end;
      (split; [simpl; tauto | split; discriminate]).
  - split; [simpl; tauto | split; reflexivity].
Qed.

Lemma chars_app (a b : string) : chars (a ++ b) = chars a ++ chars b.
Proof. induction a as [|c a IH]; simpl; [reflexivity|]. f_equal. exact IH. Qed.

Lemma lower_app (a b : list ascii) : lower (a ++ b) = lower a ++ lower b.
Proof. apply map_app. Qed.

Lemma starts_with_app (p s t : list ascii) :
  starts_with p s = true -> starts_with p (s ++ t) = true.
Proof.
  revert s. induction p as [|a p IH]; intros [|b s] Hp; simpl in *;
    try reflexivity; try discriminate.
  apply andb_true_iff in Hp. destruct Hp as [-> Hp]. simpl. apply IH, Hp.
Qed.

Lemma contains_app_r (p s t : list ascii) :
  contains p s = true -> contains p (s ++ t) = true.
Proof.
  induction s as [|b s IH]; intros Hc.
  - simpl in Hc. rewrite orb_false_r in Hc.
    destruct p; [|discriminate]. destruct t; reflexivity.
  - simpl in *. apply orb_true_iff in Hc. apply orb_true_iff.
    destruct Hc as [Hc|Hc].
    + left. exact (starts_with_app p (b :: s) t Hc).
    + right. apply IH, Hc.
Qed.

Lemma contains_app_l (p s t : list ascii) :
  contains p s = true -> contains p (t ++ s) = true.
Proof.
  intros Hc. induction t as [|b t IH]; [exact Hc|].
  simpl. rewrite IH. apply orb_true_r.
Qed.

(** A keyword found in a text is found in every text around it. *)
Lemma has_kw_extends (k : string) (pre s post : list ascii) :
  has_kw k s = true -> has_kw k (pre ++ s ++ post) = true.
Proof. intros Hk. apply contains_app_l, contains_app_r, Hk. Qed.

Lemma rule_table_extends (pre s post : list ascii) :
  Forall (fun rule => fst rule s = true -> fst rule (pre ++ s ++ post) = true)
         rule_table.
Proof.
  repeat constructor; simpl; intros Hr;
    repeat match goal with
           | H : _ || _ = true |- _ => apply orb_true_iff in H; destruct H
           | H : _ && _ = true |- _ => apply andb_true_iff in H; destruct H
           | H : has_kw ?k s = true |- _ =>
               rewrite (has_kw_extends k pre s post H); clear H
           end;
    rewrite ?orb_true_r; reflexivity.
Qed.

Lemma first_index_extends (rules : list ((list ascii -> bool) * string))
  (x y : list ascii) :
  Forall (fun rule => fst rule x = true -> fst rule y = true) rules ->
  (first_index rules y <= first_index rules x)%nat.
Proof.
  induction 1 as [|[p label] rest Hp _ IH]; simpl; [lia|].
  simpl in Hp. destruct (p x).
  - rewrite Hp by reflexivity. lia.
  - destruct (p y); lia.
Qed.

Lemma rank_first_match (x : list ascii) :
  rule_rank (first_match rule_table x) = (2 + first_index rule_table x)%nat.
Proof.
  unfold rule_table, first_match, first_index.
  repeat match goal with
         | |- context [if ?b then _ else _] =>
             match b with
             | String.eqb _ _ => fail 1
             | _ => destruct b
             end
         end; reflexivity.
Qed.

(** X3.  Text added before or after a program name never moves it to a
    later rule: the name with the text around it falls under the same
    rule or under one tested earlier. *)
Theorem categorize_program_extension (before name after : string) :
  (rule_rank (categorize_program (Some (before ++ name ++ after)%string))
   <= rule_rank (categorize_program (Some name)))%nat.
Proof.
  rewrite (categorize_program_refines (Some name)).
  rewrite (categorize_program_refines (Some (before ++ name ++ after)%string)).
  unfold categorize_spec.
  rewrite !rank_first_match, !chars_app, !lower_app.
  pose proof (first_index_extends rule_table _ _
                (rule_table_extends (lower (chars before))
                   (lower (chars name)) (lower (chars after)))).
  lia.
Qed.

(* ================================================================= *)
(** ** The outlier masks *)

Lemma iqr_outliers_length {F : Type} `{Arith F}
  (quantile : Series F -> F -> F) (series : Series F) (threshold : F) :
  List.length (iqr_outliers quantile series threshold) = List.length series.
Proof. unfold iqr_outliers. apply length_map. Qed.

(** X4.  [identify_outliers] returns a mask with one flag per element
    for the methods 'iqr' and 'zscore', and raises ValueError for every
    other method name. *)
Theorem identify_outliers_method {F : Type} `{Arith F} `{Sqrt F}
  (quantile : Series F -> F -> F) (series : Series F) (method : string)
  (threshold : F) :
  (method = "iqr" \/ method = "zscore" ->
   exists flags,
     identify_outliers quantile series method threshold = Ok flags
     /\ List.length flags = List.length series)
  /\ (method <> "iqr" -> method <> "zscore" ->
      identify_outliers quantile series method threshold
      = Raise (ValueError "Method must be 'iqr' or 'zscore'")).
Proof.
  unfold identify_outliers. split.
  - intros [-> | ->]; simpl; eexists; (split; [reflexivity|]).
    + apply iqr_outliers_length.
    + unfold zscore_outliers. rewrite !length_map. reflexivity.
  - intros Hi Hz.
    destruct (String.eqb_spec method "iqr"); [contradiction|].
    destruct (String.eqb_spec method "zscore"); [contradiction|].
    reflexivity.
Qed.

Lemma identify_outliers_method_witness :
  (exists flags,
      identify_outliers Examples.no_quantile Examples.five_values "zscore"
                        (Examples.f64 1) = Ok flags
      /\ List.length flags = 5%nat)
  /\ identify_outliers Examples.no_quantile Examples.five_values "IQR"
                       (Examples.f64 1)
     = Raise (ValueError "Method must be 'iqr' or 'zscore'").
Proof.
  destruct (identify_outliers_method Examples.no_quantile Examples.five_values
              "zscore" (Examples.f64 1)) as [Hok _].
  destruct (identify_outliers_method Examples.no_quantile Examples.five_values
              "IQR" (Examples.f64 1)) as [_ Hbad].
  split; [apply Hok; right; reflexivity | apply Hbad; discriminate].
Defined.

Lemma ltb_nan_r (x : B64.t) : SFltb x S754_nan = false.
Proof. B64Facts.float_cases x; reflexivity. Qed.

(** X5.  In binary64 a missing element is never flagged, by either
    method and whatever the quantiles and the threshold. *)
Theorem identify_outliers_skips_missing
  (quantile : Series B64.t -> B64.t -> B64.t) (series : Series B64.t)
  (method : string) (threshold : B64.t) (flags : list bool) (i : nat) :
  identify_outliers quantile series method threshold = Ok flags ->
  nth_error series i = Some S754_nan ->
  nth_error flags i = Some false.
Proof.
  unfold identify_outliers. intros Hok Hi.
  destruct (String.eqb method "iqr").
  - injection Hok as <-. unfold iqr_outliers.
    rewrite nth_error_map, Hi. simpl. f_equal. apply ltb_nan_r.
  - destruct (String.eqb method "zscore"); [|discriminate].
    injection Hok as <-. unfold zscore_outliers.
    rewrite !nth_error_map, Hi. simpl. f_equal.
    apply Zscore.gt_nan.
Qed.

Lemma identify_outliers_skips_missing_witness :
  exists flags,
    identify_outliers Examples.no_quantile
                      [Examples.f64 1; S754_nan; Examples.f64 100] "iqr"
                      (Examples.f64 0) = Ok flags
    /\ nth_error flags 1 = Some false.
Proof.
  eexists. split; [reflexivity|].
  eapply (identify_outliers_skips_missing Examples.no_quantile
            [Examples.f64 1; S754_nan; Examples.f64 100] "iqr" (Examples.f64 0));
    reflexivity.
Defined.

Lemma map_constant {A B : Type} (f : A -> B) (b : B) (l : list A) :
  (forall x, In x l -> f x = b) -> map f l = repeat b (List.length l).
Proof.
  induction l as [|x l IH]; intros Hf; simpl; [reflexivity|].
  rewrite (Hf x) by (simpl; auto). f_equal. apply IH.
  intros y Hy. apply Hf. simpl. auto.
Qed.

Lemma div_by_nan (x : B64.t) : SFdiv B64.prec B64.emax x S754_nan = S754_nan.
Proof. B64Facts.float_cases x; reflexivity. Qed.

(** X6.  In binary64, method 'zscore' flags nothing in a series with
    fewer than two elements present - an empty series, a single value,
    values that are all missing: the standard deviation is NaN. *)
Theorem zscore_needs_two_values
  (quantile : Series B64.t -> B64.t -> B64.t) (series : Series B64.t)
  (threshold : B64.t) :
  (count_notna series <= 1)%nat ->
  identify_outliers quantile series "zscore" threshold
  = Ok (repeat false (List.length series)).
Proof.
  intros Hcount. unfold identify_outliers. simpl String.eqb. cbv iota.
  f_equal. unfold zscore_outliers. rewrite map_map.
  apply map_constant. intros x _.
  assert (Hstd : series_std series = S754_nan).
  { apply Nat.leb_le in Hcount.
    unfold series_std, std_ddof, series_var. cbv zeta.
    rewrite Hcount. reflexivity. }
  rewrite Hstd.
  change (fdiv (fsub x (series_mean series)) S754_nan)
    with (SFdiv B64.prec B64.emax (fsub x (series_mean series)) S754_nan).
  rewrite div_by_nan. apply Zscore.gt_nan.
Qed.

Lemma zscore_needs_two_values_witness :
  identify_outliers Examples.no_quantile [S754_nan; Examples.f64 1000000]
                    "zscore" (Examples.f64 0)
  = Ok [false; false].
Proof.
  apply (zscore_needs_two_values Examples.no_quantile
           [S754_nan; Examples.f64 1000000] (Examples.f64 0)).
  vm_compute. lia.
Defined.

(** X7.  In exact arithmetic, with quartiles [Q1 <= Q3] and a threshold
    that is not negative, method 'iqr' flags no element that lies
    between the quartiles. *)
Theorem iqr_keeps_middle
  (quantile : Series XQ.t -> XQ.t -> XQ.t) (series : Series XQ.t)
  (threshold q1 q3 v : Q) (i : nat) :
  quantile series (of_decimal false 25 (-2)) = XQ.Fin q1 ->
  quantile series (of_decimal false 75 (-2)) = XQ.Fin q3 ->
  q1 <= q3 ->
  0 <= threshold ->
  nth_error series i = Some (XQ.Fin v) ->
  q1 <= v <= q3 ->
  nth_error (iqr_outliers quantile series (XQ.Fin threshold)) i = Some false.
Proof.
  intros H1 H3 Hq Ht Hi [Hlo Hhi].
  unfold iqr_outliers. rewrite nth_error_map, Hi, H1, H3. simpl. f_equal.
  assert (Hp : 0 <= threshold * (q3 + - q1)).
  { apply Qmult_le_0_compat; [exact Ht|lra]. }
  apply orb_false_iff. split; apply negb_false_iff, Qle_bool_iff; lra.
Qed.

Lemma iqr_keeps_middle_witness :
  nth_error (iqr_outliers MoreExamples.quartiles_2_4
                          MoreExamples.one_to_hundred (XQ.Fin (3 # 2))) 2
  = Some false.
Proof.
  apply (iqr_keeps_middle MoreExamples.quartiles_2_4
           MoreExamples.one_to_hundred (3 # 2) 2 4 3 2);
    try reflexivity; try (split; discriminate); discriminate.
Defined.

(* ================================================================= *)
(** ** The rows of the summary *)

(** X8.  With [amount_col] equal to 'Grant Number', the dict that
    [agg] is given has one entry, and [get_state_summary] returns no
    summary for any table: it raises a KeyError when the table lacks the
    grouping column or 'Grant Number', and a ValueError otherwise, the
    five names not fitting the columns that [agg] returns. *)
Theorem get_state_summary_column_clash {F : Type} `{Arith F}
  (srt : sorter F) (df : DataFrame F) (state_col amount_col : string) :
  amount_col = "Grant Number" ->
  exists e,
    get_state_summary srt df state_col amount_col = Raise e
    /\ (df_get df state_col <> None ->
        df_get df "Grant Number" <> None ->
        exists msg, e = ValueError msg)
    /\ (df_get df state_col = None \/ df_get df "Grant Number" = None ->
        is_KeyError e = true).
Proof.
  intros ->. unfold get_state_summary.
  destruct (df_get df state_col) as [kc|].
  - cbn [String.eqb Ascii.eqb Bool.eqb].
    destruct (df_get df "Grant Number") as [gn|].
    + destruct (String.eqb state_col "Grant Number");
        (eexists; split; [reflexivity|]; split;
         [intros _ _; eexists; reflexivity
         |intros [Hm|Hm]; discriminate]).
    + eexists. split; [reflexivity|]. split; [congruence|reflexivity].
  - eexists. split; [reflexivity|]. split; [congruence|reflexivity].
Qed.

Lemma get_state_summary_column_clash_witness :
  exists msg,
    get_state_summary insertion_sorter Examples.grants "State" "Grant Number"
    = Raise (ValueError msg).
Proof.
  destruct (get_state_summary_column_clash insertion_sorter Examples.grants
              "State" "Grant Number" eq_refl) as (e & He & Hvalue & _).
  destruct Hvalue as [msg ->]; [discriminate|discriminate|].
  exists msg. exact He.
Defined.

(** *** The order of strings *)

Lemma ascii_compare_lt_trans (a b c : ascii) :
  Ascii.compare a b = Lt -> Ascii.compare b c = Lt -> Ascii.compare a c = Lt.
Proof.
  unfold Ascii.compare. rewrite !N.compare_lt_iff. apply N.lt_trans.
Qed.

Lemma string_compare_lt_trans (a b c : string) :
  String.compare a b = Lt -> String.compare b c = Lt -> String.compare a c = Lt.
Proof.
  revert b c. induction a as [|x a IH]; intros [|y b] [|z c]; simpl;
    try discriminate; try reflexivity.
  destruct (Ascii.compare x y) eqn:Exy; try discriminate;
    destruct (Ascii.compare y z) eqn:Eyz; try discriminate; intros Hab Hbc.
  - apply Ascii.compare_eq_iff in Exy, Eyz. subst.
    replace (Ascii.compare z z) with Eq; [eapply IH; eassumption|].
    symmetry. unfold Ascii.compare. apply N.compare_refl.
  - apply Ascii.compare_eq_iff in Exy. subst. rewrite Eyz. reflexivity.
  - apply Ascii.compare_eq_iff in Eyz. subst. rewrite Exy. reflexivity.
  - rewrite (ascii_compare_lt_trans _ _ _ Exy Eyz). reflexivity.
Qed.

Lemma string_compare_refl (a : string) : String.compare a a = Eq.
Proof.
  induction a as [|x a IH]; simpl; [reflexivity|].
  replace (Ascii.compare x x) with Eq; [exact IH|].
  symmetry. unfold Ascii.compare. apply N.compare_refl.
Qed.

Lemma string_ltb_trans (a b c : string) :
  String.ltb a b = true -> String.ltb b c = true -> String.ltb a c = true.
Proof.
  unfold String.ltb.
  destruct (String.compare a b) eqn:Eab; try discriminate.
  destruct (String.compare b c) eqn:Ebc; try discriminate.
  rewrite (string_compare_lt_trans _ _ _ Eab Ebc). reflexivity.
Qed.

Lemma string_ltb_irrefl (a : string) : String.ltb a a = false.
Proof. unfold String.ltb. rewrite string_compare_refl. reflexivity. Qed.

(** Of two different strings one is below the other. *)
Lemma string_ltb_total (a b : string) :
  String.eqb a b = false -> String.ltb a b = false -> String.ltb b a = true.
Proof.
  unfold String.ltb. rewrite (String.compare_antisym b a).
  destruct (String.compare a b) eqn:E; simpl; try discriminate; try reflexivity.
  apply String.compare_eq_iff in E. subst. rewrite String.eqb_refl. discriminate.
Qed.

(** *** The groups are distinct *)

Section GroupFacts.

Context {F : Type} `{Arith F}.

Lemma ascending_insert (s : string) (ks : list (key F)) :
  ascending ks -> ascending (insert_key (KStr s) ks).
Proof.
  induction 1 as [|t ks Hlt Hstr Hks IH]; simpl.
  - constructor; constructor.
  - destruct (String.eqb s t) eqn:Eeq.
    + constructor; assumption.
    + destruct (String.ltb s t) eqn:Elt.
      * constructor.
        -- constructor; [exact Elt|].
           rewrite Forall_forall in *. intros k Hk.
           destruct (Hstr k Hk) as [u ->]. specialize (Hlt _ Hk). simpl in *.
           eapply string_ltb_trans; eassumption.
        -- constructor; [eauto|exact Hstr].
        -- constructor; assumption.
      * pose proof (string_ltb_total s t Eeq Elt) as Hts.
        assert (Hin : forall k, In k (insert_key (KStr s) ks) ->
                                k = KStr s \/ In k ks).
        { intros k Hk. apply insert_key_In in Hk; [exact Hk|].
          intros; apply key_eqb_KStr; assumption. }
        constructor.
        -- rewrite Forall_forall in *. intros k Hk.
           destruct (Hin k Hk) as [->|Hk']; [exact Hts|apply Hlt, Hk'].
        -- rewrite Forall_forall in *. intros k Hk.
           destruct (Hin k Hk) as [->|Hk']; [eauto|apply Hstr, Hk'].
        -- exact IH.
Qed.

Lemma ascending_NoDup (ks : list (key F)) : ascending ks -> NoDup ks.
Proof.
  induction 1 as [|s ks Hlt _ _ IH]; constructor; [|exact IH].
  intros Hin. rewrite Forall_forall in Hlt. specialize (Hlt _ Hin).
  simpl in Hlt. rewrite string_ltb_irrefl in Hlt. discriminate.
Qed.

Lemma group_keys_ascending (states : list (option string)) :
  ascending (group_keys (col_keys (ObjCol states))).
Proof.
  unfold group_keys, col_keys.
  assert (Hacc : ascending []) by constructor.
  revert Hacc. generalize (@nil (key F)) as acc.
  induction states as [|o states IH]; intros acc Hacc; simpl; [exact Hacc|].
  destruct o as [s|]; simpl; apply IH; [apply ascending_insert|]; exact Hacc.
Qed.

Lemma map_geo_summary_rows (keys : list (option (key F))) (amounts : list F) :
  map geo (summary_rows keys amounts) = group_keys keys.
Proof. unfold summary_rows. rewrite map_map. apply map_id. Qed.

End GroupFacts.

(** X9.  The summary has exactly one row for each geography that is
    present in the state column: no geography twice, none that no row
    has, and no row for the rows whose state is missing. *)
Theorem summary_one_row_per_geography {F : Type} `{Arith F}
  (srt : sorter F) (df : DataFrame F) (state_col amount_col : string)
  (states : list (option string)) (amounts : list F) (gn : column F) :
  sort_permutes srt ->
  state_col <> amount_col ->
  state_col <> "Grant Number" ->
  amount_col <> "Grant Number" ->
  df_get df state_col = Some (ObjCol states) ->
  df_get df amount_col = Some (FloatCol amounts) ->
  df_get df "Grant Number" = Some gn ->
  exists summary,
    get_state_summary srt df state_col amount_col = Ok summary
    /\ NoDup (map geo summary)
    /\ (forall k, In k (map geo summary)
                  <-> exists g, k = KStr g /\ In (Some g) states)
    /\ (Forall (fun o => o = None) states -> summary = []).
Proof.
  intros Hperm Hsa Hsg Hag Hk Ha Hg.
  eexists. split; [eapply get_state_summary_ok; eassumption|].
  pose proof (Permutation_map geo
                (Hperm _ total_funding (summary_rows (col_keys (ObjCol states))
                                                     amounts))) as Hp.
  rewrite map_geo_summary_rows in Hp.
  assert (Hiff : forall k,
             In k (map geo (srt (StateSummary F) total_funding
                                (summary_rows (col_keys (ObjCol states)) amounts)))
             <-> exists g, k = KStr g /\ In (Some g) states).
  { intros k. rewrite <- group_keys_In. split; apply Permutation_in.
    - exact Hp.
    - apply Permutation_sym, Hp. }
  split; [|split; [exact Hiff|]].
  - apply (Permutation_NoDup (Permutation_sym Hp)).
    apply ascending_NoDup, group_keys_ascending.
  - intros Hnone.
    destruct (srt (StateSummary F) total_funding _) as [|row rest] eqn:E;
      [reflexivity|].
    destruct (proj1 (Hiff (geo row)) (or_introl eq_refl)) as (g & _ & Hin).
    rewrite Forall_forall in Hnone. specialize (Hnone _ Hin). discriminate.
Qed.

Lemma summary_one_row_per_geography_witness :
  exists summary,
    get_state_summary insertion_sorter Examples.grants "State" "Awardee Amount"
    = Ok summary
    /\ NoDup (map geo summary)
    /\ In (KStr "TX") (map geo summary).
Proof.
  destruct (summary_one_row_per_geography
              insertion_sorter Examples.grants "State" "Awardee Amount"
              [Some "CA"; Some "CA"; Some "TX"]
              [Examples.usd 10000; Examples.usd 5000; XQ.NaN]
              (ObjCol [Some "G1"; Some "G2"; Some "G3"])
              insertion_sorter_permutes
              ltac:(discriminate) ltac:(discriminate) ltac:(discriminate)
              eq_refl eq_refl eq_refl) as (summary & Hs & Hnd & Hiff & _).
  exists summary. split; [exact Hs|]. split; [exact Hnd|].
  apply Hiff. exists "TX". split; [reflexivity|simpl; auto].
Defined.

Section CountFacts.

Context {F : Type} `{Arith F}.

Lemma list_sum_perm (l l' : list nat) :
  Permutation l l' -> list_sum l = list_sum l'.
Proof. induction 1; simpl; lia. Qed.

Lemma list_sum_zero {A : Type} (l : list A) :
  list_sum (map (fun _ => 0%nat) l) = 0%nat.
Proof. induction l; simpl; auto. Qed.

Lemma list_sum_plus {A : Type} (f g : A -> nat) (l : list A) :
  list_sum (map (fun x => (f x + g x)%nat) l)
  = (list_sum (map f l) + list_sum (map g l))%nat.
Proof. induction l; simpl; lia. Qed.

(** In a list without repetition one entry is the one looked for. *)
Lemma list_sum_indicator {A : Type} (f : A -> bool) (x : A) (l : list A) :
  NoDup l -> In x l ->
  (forall y, In y l -> (f y = true <-> y = x)) ->
  list_sum (map (fun y => if f y then 1%nat else 0%nat) l) = 1%nat.
Proof.
  induction 1 as [|y l Hy Hnd IH]; intros Hin Hf; [destruct Hin|].
  simpl. destruct (f y) eqn:Efy.
  - apply (Hf y (or_introl eq_refl)) in Efy. subst y.
    rewrite (map_ext_in _ (fun _ => 0%nat)).
    + rewrite list_sum_zero. reflexivity.
    + intros z Hz. destruct (f z) eqn:Efz; [|reflexivity].
      apply (Hf z (or_intror Hz)) in Efz. subst z. contradiction.
  - destruct Hin as [->|Hin].
    + rewrite (proj2 (Hf x (or_introl eq_refl)) eq_refl) in Efy. discriminate.
    + apply IH; [exact Hin|]. intros z Hz. apply Hf. simpl. auto.
Qed.

Lemma count_notna_cons (b : bool) (a : F) (xs : list F) :
  count_notna (if b then a :: xs else xs)
  = ((if b && negb (fisnan a) then 1 else 0) + count_notna xs)%nat.
Proof.
  unfold count_notna. destruct b; simpl; [|reflexivity].
  destruct (fisnan a); reflexivity.
Qed.

(** The counts of the groups add up to the number of counted rows. *)
Lemma group_counts_add_up (groups : list (key F))
  (states : list (option string)) (amounts : list F) :
  NoDup groups ->
  (forall k, In k groups -> exists s, k = KStr s) ->
  (forall s, In (Some s) states -> In (KStr s) groups) ->
  list_sum
    (map (fun k =>
            count_notna
              (select (group_mask k (col_keys (ObjCol states))) amounts))
         groups)
  = List.length (counted_rows states amounts).
Proof.
  intros Hnd Hstr. revert amounts.
  induction states as [|o states IH]; intros amounts Hin.
  - simpl. apply list_sum_zero.
  - destruct amounts as [|a amounts].
    + simpl. apply list_sum_zero.
    + simpl col_keys in *. cbn [map group_mask select].
      erewrite map_ext by (intros k; apply count_notna_cons).
      rewrite list_sum_plus, IH by (intros s Hs; apply Hin; simpl; auto).
      unfold counted_rows. cbn [combine filter fst snd].
      destruct o as [s|]; cbn [option_map].
      * destruct (fisnan a); cbn [negb].
        -- erewrite map_ext by (intros k; rewrite andb_false_r; reflexivity).
           rewrite list_sum_zero. reflexivity.
        -- erewrite map_ext by (intros k; rewrite andb_true_r; reflexivity).
           rewrite (list_sum_indicator (fun k => key_eqb k (KStr s)) (KStr s));
             [reflexivity|exact Hnd|apply Hin; simpl; auto|].
           intros k Hk. destruct (Hstr k Hk) as [t ->]. simpl.
           rewrite String.eqb_eq. split; congruence.
      * rewrite list_sum_zero. reflexivity.
Qed.

End CountFacts.

(** X10.  The [num_grants] of the rows of the summary add up to the
    number of source rows that have both a state and an amount: every
    such row is counted in one group, and no other row is counted. *)
Theorem num_grants_add_up {F : Type} `{Arith F}
  (srt : sorter F) (df : DataFrame F) (state_col amount_col : string)
  (states : list (option string)) (amounts : list F) (gn : column F) :
  sort_permutes srt ->
  state_col <> amount_col ->
  state_col <> "Grant Number" ->
  amount_col <> "Grant Number" ->
  df_get df state_col = Some (ObjCol states) ->
  df_get df amount_col = Some (FloatCol amounts) ->
  df_get df "Grant Number" = Some gn ->
  exists summary,
    get_state_summary srt df state_col amount_col = Ok summary
    /\ list_sum (map num_grants summary)
       = List.length (counted_rows states amounts).
Proof.
  intros Hperm Hsa Hsg Hag Hk Ha Hg.
  eexists. split; [eapply get_state_summary_ok; eassumption|].
  rewrite (list_sum_perm _ _ (Permutation_map num_grants (Hperm _ _ _))).
  unfold summary_rows. rewrite map_map. cbn [num_grants].
  apply group_counts_add_up.
  - apply ascending_NoDup, group_keys_ascending.
  - intros k Hin. apply group_keys_In in Hin. destruct Hin as (s & -> & _). eauto.
  - intros s Hs. apply group_keys_In. eauto.
Qed.

Lemma num_grants_add_up_witness :
  exists summary,
    get_state_summary insertion_sorter Examples.grants "State" "Awardee Amount"
    = Ok summary
    /\ list_sum (map num_grants summary) = 2%nat.
Proof.
  destruct (num_grants_add_up
              insertion_sorter Examples.grants "State" "Awardee Amount"
              [Some "CA"; Some "CA"; Some "TX"]
              [Examples.usd 10000; Examples.usd 5000; XQ.NaN]
              (ObjCol [Some "G1"; Some "G2"; Some "G3"])
              insertion_sorter_permutes
              ltac:(discriminate) ltac:(discriminate) ltac:(discriminate)
              eq_refl eq_refl eq_refl) as (summary & Hs & Hsum).
  exists summary. split; [exact Hs|exact Hsum].
Defined.

Section JoinFacts.

Context {F : Type} `{Arith F}.

Lemma matches_from_shift (i : nat) (k : option (key F))
  (rkeys : list (option (key F))) :
  matches_from (S i) k rkeys = map S (matches_from i k rkeys).
Proof.
  revert i. induction rkeys as [|r rest IH]; intros i; simpl; [reflexivity|].
  destruct (okey_eqb k r); simpl; rewrite IH; reflexivity.
Qed.

Lemma right_row_cons (k r : option (key F)) (rest : list (option (key F))) :
  right_row (r :: rest) k
  = if okey_eqb k r then Some 0%nat else option_map S (right_row rest k).
Proof.
  unfold right_row. simpl. destruct (okey_eqb k r); [reflexivity|].
  rewrite matches_from_shift.
  destruct (matches_from 0 k rest); reflexivity.
Qed.

Lemma right_row_absent (k : option string) (rkeys : list (option string)) :
  ~ In k rkeys ->
  right_row (F:=F) (map (option_map KStr) rkeys) (option_map KStr k) = None.
Proof.
  intros Hk. unfold right_row. rewrite matches_from_absent by exact Hk.
  reflexivity.
Qed.

(** A key that stands once in the right table is found at its row. *)
Lemma right_row_position (rkeys : list (option string)) (j : nat)
  (k : option string) :
  NoDup rkeys -> nth_error rkeys j = Some k ->
  right_row (F:=F) (map (option_map KStr) rkeys) (option_map KStr k) = Some j.
Proof.
  intros Hnd. revert j.
  induction Hnd as [|r rest Hr Hnd IH]; intros j Hj; [destruct j; discriminate|].
  cbn [map]. rewrite right_row_cons.
  destruct j as [|j]; simpl in Hj.
  - injection Hj as ->.
    rewrite (proj2 (okey_eqb_str k k) eq_refl). reflexivity.
  - destruct (okey_eqb (option_map KStr k) (option_map KStr r)) eqn:E.
    + apply okey_eqb_str in E. subst r. exfalso. apply Hr.
      eapply nth_error_In. exact Hj.
    + rewrite (IH j Hj). reflexivity.
Qed.

(** The merge of the function, for tables that share the join column
    only, no key occurring twice on the right. *)
Lemma merge_health_and_funding_unique (left right : DataFrame F) (on : string)
  (lkeys rkeys : list (option string)) (c : column F) :
  has_rows left (List.length lkeys) ->
  (forall n, In n (df_columns left) -> In n (df_columns right) -> n = on) ->
  df_get left on = Some (ObjCol lkeys) ->
  df_get right on = Some (ObjCol rkeys) ->
  NoDup rkeys ->
  df_get right "infant_mortality_rate" = Some c ->
  on <> "infant_mortality_rate" ->
  let rrows := map (right_row (col_keys (ObjCol rkeys)))
                   (col_keys (ObjCol lkeys)) in
  let merged := left ++ map (fun nc => (fst nc, take (snd nc) rrows))
                            (df_drop right on) in
  let out2 :=
    [("Merging funding and health data on '" ++ on ++ "'...")%string;
     ("Merged dataset has " ++ str_of_nat (List.length lkeys)
      ++ " records and "
      ++ str_of_nat (List.length left + List.length (df_drop right on))
      ++ " columns")%string] in
  let unmatched := count_true (col_isna (take c rrows)) in
  merge_health_and_funding left right on
  = (if (0 <? unmatched)%nat
     then out2 ++ [("Warning: " ++ str_of_nat unmatched
                    ++ " records without health data")%string]
     else out2,
     Ok merged)
  /\ forall name c',
       name <> on -> df_get right name = Some c' ->
       df_get merged name = Some (take c' rrows).
Proof.
  intros Hlen Hdis Hl Hr Hnd Hc Hon rrows merged out2 unmatched.
  assert (Hright : forall name c',
             name <> on -> df_get right name = Some c' ->
             df_get merged name = Some (take c' rrows)).
  { intros name c' Hne Hc'. unfold merged.
    rewrite df_get_app, df_get_None.
    - rewrite (df_get_map (df_drop right on) (fun c => take c rrows)).
      rewrite df_get_drop by exact Hne. rewrite Hc'. reflexivity.
    - intros Hin. apply Hne, Hdis; [exact Hin|]. apply df_get_In. eauto. }
  split; [|exact Hright].
  unfold merge_health_and_funding.
  rewrite (merge_left_unique left right on lkeys rkeys Hlen Hdis Hl Hr Hnd).
  fold rrows. fold merged.
  rewrite (Hright _ c) by congruence.
  assert (Hrows : df_len merged = List.length lkeys).
  { unfold merged. destruct left as [|[n c0] left']; [discriminate|].
    inversion Hlen; subst. assumption. }
  assert (Hcols : List.length (df_columns merged)
                  = (List.length left + List.length (df_drop right on))%nat).
  { unfold merged, df_columns. rewrite length_map, length_app, length_map.
    reflexivity. }
  rewrite Hrows, Hcols. reflexivity.
Qed.

(** Whether the indicator is missing in the merged row of key [k] *)
Lemma indicator_missing_iff (rkeys : list (option string)) (ind : list F)
  (k : option string) :
  fisnan (fnan : F) = true ->
  NoDup rkeys ->
  fisnan (match right_row (map (option_map KStr) rkeys) (option_map KStr k) with
          | Some j => nth j ind fnan
          | None => fnan
          end)
  = negb (has_health_data rkeys ind k).
Proof.
  intros Hnan Hnd. revert ind.
  induction Hnd as [|r rest Hr Hnd IH]; intros ind; [exact Hnan|].
  cbn [map]. rewrite right_row_cons. unfold has_health_data.
  destruct ind as [|x ind].
  - simpl. destruct (okey_eqb _ _); [exact Hnan|].
    destruct (right_row _ _) as [j|]; simpl; [|exact Hnan].
    exact Hnan.
  - cbn [combine existsb fst snd].
    destruct (okey_eqb (option_map KStr k) (option_map KStr r)) eqn:E.
    + apply okey_eqb_str in E. subst r. simpl.
      replace (existsb _ (combine rest ind)) with false.
      * rewrite orb_false_r, negb_involutive. reflexivity.
      * symmetry. apply not_true_is_false. intros Hex.
        apply existsb_exists in Hex. destruct Hex as ([r x'] & Hin & Hok).
        apply andb_prop in Hok. destruct Hok as [Hok _].
        apply okey_eqb_str in Hok. simpl in Hok. subst r.
        apply Hr. eapply in_combine_l. exact Hin.
    + etransitivity; [|etransitivity; [exact (IH ind)|reflexivity]].
      destruct (right_row _ _) as [j|]; reflexivity.
Qed.

End JoinFacts.

(** X11.  In the merge of the function, for tables that share the join
    column only and a right table in which no key occurs twice, a
    funding row whose key the health table has carries, in every health
    column, the entry of the health row of that key. *)
Theorem merge_copies_matching_row {F : Type} `{Arith F}
  (left right : DataFrame F) (on : string)
  (lkeys rkeys : list (option string))
  (name : string) (c : column F) (i j : nat) (k : option string) :
  has_rows left (List.length lkeys) ->
  (forall n, In n (df_columns left) -> In n (df_columns right) -> n = on) ->
  df_get left on = Some (ObjCol lkeys) ->
  df_get right on = Some (ObjCol rkeys) ->
  NoDup rkeys ->
  In "infant_mortality_rate" (df_columns right) ->
  on <> "infant_mortality_rate" ->
  name <> on ->
  df_get right name = Some c ->
  nth_error lkeys i = Some k ->
  nth_error rkeys j = Some k ->
  exists merged c',
    snd (merge_health_and_funding left right on) = Ok merged
    /\ df_get merged name = Some c'
    /\ take c' [Some i] = take c [Some j].
Proof.
  intros Hlen Hdis Hl Hr Hnd Hind Hon Hne Hc Hi Hj.
  apply df_get_In in Hind. destruct Hind as [ci Hci].
  destruct (merge_health_and_funding_unique left right on lkeys rkeys ci
              Hlen Hdis Hl Hr Hnd Hci Hon) as [Hm Hright].
  eexists. eexists. split; [rewrite Hm; reflexivity|].
  split; [apply Hright; eassumption|].
  assert (Hrow : nth_error (map (right_row (col_keys (ObjCol rkeys)))
                                (col_keys (ObjCol lkeys))) i
                 = Some (Some j)).
  { simpl col_keys. rewrite !nth_error_map, Hi. simpl. f_equal.
    apply right_row_position; assumption. }
  revert Hrow.
  generalize (map (right_row (col_keys (ObjCol rkeys)))
                  (col_keys (ObjCol lkeys))) as rrows.
  intros rrows Hrow.
  destruct c as [xs|xs]; cbn [take map]; f_equal; f_equal;
    apply nth_error_nth; rewrite nth_error_map, Hrow; reflexivity.
Qed.

Lemma merge_copies_matching_row_witness :
  exists merged c',
    snd (merge_health_and_funding Examples.funding Examples.health "state")
    = Ok merged
    /\ df_get merged "infant_mortality_rate" = Some c'
    /\ take c' [Some 0%nat] = FloatCol [Examples.usd 5].
Proof.
  apply (merge_copies_matching_row
           Examples.funding Examples.health "state"
           [Some "CA"; Some "TX"] [Some "CA"; Some "NY"]
           "infant_mortality_rate" (FloatCol [Examples.usd 5; Examples.usd 6])
           0%nat 0%nat (Some "CA")).
  - repeat constructor.
  - intros n Hl Hr. simpl in Hl, Hr.
    destruct Hl as [<-|[<-|[]]]; [reflexivity|].
    destruct Hr as [E|[E|[]]]; discriminate.
  - reflexivity.
  - reflexivity.
  - repeat constructor; simpl; intuition discriminate.
  - simpl. auto.
  - discriminate.
  - discriminate.
  - reflexivity.
  - reflexivity.
  - reflexivity.
Defined.

(** X12.  What the function prints, for such tables: the two lines on
    the merge, with the number of funding rows and the number of columns
    of both tables (the join column once), and then the warning exactly
    when some funding row has no health row of its key with the
    indicator present; the warning gives the number of these rows. *)
Theorem merge_warning_counts {F : Type} `{Arith F}
  (left right : DataFrame F) (on : string)
  (lkeys rkeys : list (option string)) (ind : list F) :
  fisnan (fnan : F) = true ->
  has_rows left (List.length lkeys) ->
  (forall n, In n (df_columns left) -> In n (df_columns right) -> n = on) ->
  df_get left on = Some (ObjCol lkeys) ->
  df_get right on = Some (ObjCol rkeys) ->
  NoDup rkeys ->
  df_get right "infant_mortality_rate" = Some (FloatCol ind) ->
  on <> "infant_mortality_rate" ->
  fst (merge_health_and_funding left right on)
  = [("Merging funding and health data on '" ++ on ++ "'...")%string;
     ("Merged dataset has " ++ str_of_nat (List.length lkeys)
      ++ " records and "
      ++ str_of_nat (List.length left + List.length (df_drop right on))
      ++ " columns")%string]
    ++ (let n := records_without_health_data lkeys rkeys ind in
        if (0 <? n)%nat
        then [("Warning: " ++ str_of_nat n
               ++ " records without health data")%string]
        else []).
Proof.
  intros Hnan Hlen Hdis Hl Hr Hnd Hc Hon.
  destruct (merge_health_and_funding_unique left right on lkeys rkeys _
              Hlen Hdis Hl Hr Hnd Hc Hon) as [Hm _].
  rewrite Hm. cbn [fst].
  assert (Hn : count_true
                 (col_isna
                    (take (FloatCol ind)
                          (map (right_row (col_keys (ObjCol rkeys)))
                               (col_keys (ObjCol lkeys)))))
               = records_without_health_data lkeys rkeys ind).
  { unfold records_without_health_data, count_true. simpl.
    rewrite !map_map.
    clear Hm Hl Hlen. induction lkeys as [|k lkeys IH]; [reflexivity|].
    cbn [map filter].
    rewrite (indicator_missing_iff rkeys ind k Hnan Hnd).
    destruct (negb (has_health_data rkeys ind k)); simpl; rewrite IH;
      reflexivity. }
  rewrite Hn. cbv zeta.
  destruct (0 <? records_without_health_data lkeys rkeys ind)%nat;
    [reflexivity|]. rewrite app_nil_r. reflexivity.
Qed.

Lemma merge_warning_counts_witness :
  fst (merge_health_and_funding Examples.funding Examples.health "state")
  = [ "Merging funding and health data on 'state'...";
      "Merged dataset has 2 records and 3 columns";
      "Warning: 1 records without health data" ].
Proof.
  etransitivity;
    [apply (merge_warning_counts
              Examples.funding Examples.health "state"
              [Some "CA"; Some "TX"] [Some "CA"; Some "NY"]
              [Examples.usd 5; Examples.usd 6])
    |vm_compute; reflexivity].
  - reflexivity.
  - repeat constructor.
  - intros n Hl Hr. simpl in Hl, Hr.
    destruct Hl as [<-|[<-|[]]]; [reflexivity|].
    destruct Hr as [E|[E|[]]]; discriminate.
  - reflexivity.
  - reflexivity.
  - repeat constructor; simpl; intuition discriminate.
  - reflexivity.
  - discriminate.
Defined.

(* ================================================================= *)
(** ** The health data *)

Lemma distinct_NoDup (names : list string) :
  distinct names = true -> NoDup names.
Proof.
  induction names as [|n rest IH]; simpl; intros Hd; [constructor|].
  apply andb_prop in Hd. destruct Hd as [Hn Hd].
  constructor; [|auto].
  intros Hin. apply mem_In in Hin. rewrite Hin in Hn. discriminate.
Qed.

Lemma states_distinct : NoDup (map fst states).
Proof. apply distinct_NoDup. vm_compute. reflexivity. Qed.

Lemma select_map {A B : Type} (f : A -> B) (mask : list bool) (xs : list A) :
  select mask (map f xs) = map f (select mask xs).
Proof.
  revert xs. induction mask as [|b mask IH]; intros [|x xs]; simpl;
    try reflexivity.
  destruct b; simpl; rewrite IH; reflexivity.
Qed.

Lemma select_map_filter {A : Type} (f : A -> bool) (xs : list A) :
  select (map f xs) xs = filter f xs.
Proof.
  induction xs as [|x xs IH]; simpl; [reflexivity|].
  destruct (f x); rewrite IH; reflexivity.
Qed.

Lemma select_length {A : Type} (mask : list bool) (xs : list A) :
  List.length xs = List.length mask ->
  List.length (select mask xs) = count_true mask.
Proof.
  unfold count_true. revert xs.
  induction mask as [|b mask IH]; intros [|x xs] Hlen; simpl in *;
    try discriminate; [reflexivity|].
  destruct b; simpl; rewrite IH by lia; reflexivity.
Qed.

Section FetchFacts.

Context {F : Type} `{Arith F}.

Lemma df_filter_rows (mask : list bool) (df : DataFrame F) :
  has_rows df (List.length mask) ->
  has_rows (df_filter mask df) (count_true mask).
Proof.
  unfold has_rows, df_filter. intros Hrows.
  apply Forall_map. eapply Forall_impl; [|exact Hrows].
  intros [n [xs|xs]] Hlen; simpl in *; apply select_length; exact Hlen.
Qed.

Lemma df_columns_filter (mask : list bool) (df : DataFrame F) :
  df_columns (df_filter mask df) = df_columns df.
Proof.
  unfold df_columns, df_filter. rewrite map_map. reflexivity.
Qed.

Lemma has_rows_len (df : DataFrame F) (n : nat) :
  df <> [] -> has_rows df n -> df_len df = n.
Proof.
  intros Hne Hrows. destruct df as [|[name c] df]; [contradiction|].
  inversion Hrows; subst. reflexivity.
Qed.

Variable random_sample : nat -> F.
Variable py_round : F -> Z -> F.

(** The frame before the filter *)
Lemma fetch_all_states (year : Z) :
  let df := snd (fetch_cdc_wonder_data random_sample py_round None year) in
  df_get df "state" = Some (ObjCol (map Some (map fst states)))
  /\ df_columns df = health_columns
  /\ has_rows df (List.length (map fst states)).
Proof.
  split; [reflexivity|]. split; [reflexivity|].
  repeat constructor.
Qed.

Lemma fetch_filtered (c : string) (cs : list string) (year : Z) :
  snd (fetch_cdc_wonder_data random_sample py_round (Some (c :: cs)) year)
  = df_filter (map (fun s => mem s (c :: cs)) (map fst states))
      (snd (fetch_cdc_wonder_data random_sample py_round None year)).
Proof.
  unfold fetch_cdc_wonder_data. cbv zeta. cbn [snd].
  rewrite map_map. reflexivity.
Qed.

Lemma df_get_filter (mask : list bool) (df : DataFrame F) (name : string) :
  df_get (df_filter mask df) name
  = option_map (fun c => match c with
                         | FloatCol xs => FloatCol (select mask xs)
                         | ObjCol xs => ObjCol (select mask xs)
                         end)
               (df_get df name).
Proof.
  induction df as [|[n c] df IH]; simpl; [reflexivity|].
  destruct (String.eqb n name); [reflexivity|exact IH].
Qed.

(** The states of the frame that is returned *)
Lemma fetch_states (state_codes : option (list string)) (year : Z) :
  exists keys,
    let df :=
      snd (fetch_cdc_wonder_data random_sample py_round state_codes year) in
    df_get df "state" = Some (ObjCol (map Some keys))
    /\ NoDup keys
    /\ (forall s, In s keys <-> In s (map fst states) /\ asked state_codes s)
    /\ df_columns df = health_columns
    /\ has_rows df (List.length keys)
    /\ df_len df = List.length keys.
Proof.
  destruct (fetch_all_states year) as (Hst & Hcols & Hrows).
  assert (Hall : forall codes,
             asked codes = (fun _ => True) ->
             snd (fetch_cdc_wonder_data random_sample py_round codes year)
             = snd (fetch_cdc_wonder_data random_sample py_round None year) ->
             exists keys,
               let df :=
                 snd (fetch_cdc_wonder_data random_sample py_round codes year) in
               df_get df "state" = Some (ObjCol (map Some keys))
               /\ NoDup keys
               /\ (forall s, In s keys <-> In s (map fst states) /\ asked codes s)
               /\ df_columns df = health_columns
               /\ has_rows df (List.length keys)
               /\ df_len df = List.length keys).
  { intros codes Hasked Heq. exists (map fst states). cbv zeta. rewrite Heq, Hasked.
    split; [exact Hst|]. split; [exact states_distinct|].
    split; [tauto|]. split; [exact Hcols|]. split; [exact Hrows|].
    reflexivity. }
  destruct state_codes as [[|c cs]|]; [apply Hall; reflexivity| |apply Hall; reflexivity].
  exists (filter (fun s => mem s (c :: cs)) (map fst states)).
  cbv zeta. rewrite fetch_filtered.
  set (mask := map (fun s => mem s (c :: cs)) (map fst states)).
  set (full := snd (fetch_cdc_wonder_data random_sample py_round None year)) in *.
  assert (Hkeys : List.length (filter (fun s => mem s (c :: cs)) (map fst states))
                  = count_true mask).
  { rewrite <- select_map_filter. apply select_length.
    unfold mask. rewrite length_map. reflexivity. }
  assert (Hfr : has_rows (df_filter mask full) (count_true mask)).
  { apply df_filter_rows. unfold mask. rewrite length_map. exact Hrows. }
  split; [|split; [|split; [|split; [|split]]]].
  - rewrite df_get_filter, Hst. cbn [option_map].
    unfold mask. rewrite select_map, select_map_filter. reflexivity.
  - apply NoDup_filter, states_distinct.
  - intros s. rewrite filter_In, mem_In. unfold asked. tauto.
  - rewrite df_columns_filter. exact Hcols.
  - rewrite Hkeys. exact Hfr.
  - rewrite Hkeys. apply has_rows_len; [|exact Hfr].
    intros E. apply (f_equal df_columns) in E.
    rewrite df_columns_filter, Hcols in E. discriminate.
Qed.

End FetchFacts.

(** X13.  The frame of [fetch_cdc_wonder_data] has the eight columns of
    the source and one row per state of the table that was asked for, no
    state twice.  [None] and the empty list ask for all fifty states;
    a code that is not in the table is passed over.  The second line
    printed gives the number of rows. *)
Theorem fetch_cdc_wonder_data_states {F : Type} `{Arith F}
  (random_sample : nat -> F) (py_round : F -> Z -> F)
  (state_codes : option (list string)) (year : Z) :
  exists keys,
    let out := fetch_cdc_wonder_data random_sample py_round state_codes year in
    df_get (snd out) "state" = Some (ObjCol (map Some keys))
    /\ NoDup keys
    /\ (forall s, In s keys <-> In s (map fst states) /\ asked state_codes s)
    /\ df_columns (snd out) = health_columns
    /\ has_rows (snd out) (List.length keys)
    /\ fst out = [ "Fetching CDC health outcome data...";
                   ("Retrieved data for " ++ str_of_nat (List.length keys)
                    ++ " states")%string ].
Proof.
  destruct (fetch_states random_sample py_round state_codes year)
    as (keys & Hst & Hnd & Hin & Hcols & Hrows & Hlen).
  exists keys. cbv zeta in *.
  split; [exact Hst|]. split; [exact Hnd|]. split; [exact Hin|].
  split; [exact Hcols|]. split; [exact Hrows|].
  rewrite <- Hlen. reflexivity.
Qed.

(* ================================================================= *)
(** ** Assigning columns *)

Section AssignFacts.

Context {F : Type} `{Arith F}.

Lemma df_columns_set (df : DataFrame F) (name : string) (c : column F) :
  df_columns (df_set df name c) = df_columns df.
Proof.
  unfold df_columns, df_set. rewrite map_map. apply map_ext.
  intros [n c0]. simpl. destruct (String.eqb n name); reflexivity.
Qed.

Lemma df_get_assign_same (df : DataFrame F) (name : string) (c : column F) :
  df_get (df_assign df name c) name = Some c.
Proof.
  unfold df_assign. destruct (mem name (df_columns df)) eqn:E.
  - apply mem_In, df_get_In in E. destruct E as [c0 Hc0].
    rewrite df_get_set_same, Hc0. reflexivity.
  - rewrite df_get_app, df_get_None.
    + simpl. rewrite String.eqb_refl. reflexivity.
    + intros Hin. apply mem_In in Hin. congruence.
Qed.

Lemma df_get_assign_other (df : DataFrame F) (name other : string)
  (c : column F) :
  other <> name -> df_get (df_assign df name c) other = df_get df other.
Proof.
  intros Hne. unfold df_assign. destruct (mem name (df_columns df)).
  - apply df_get_set_other. exact Hne.
  - rewrite df_get_app. destruct (df_get df other); [reflexivity|].
    simpl. destruct (String.eqb_spec name other); congruence.
Qed.

Lemma df_len_assign (df : DataFrame F) (name : string) (c : column F) :
  col_len c = df_len df -> df_len (df_assign df name c) = df_len df.
Proof.
  intros Hlen. unfold df_assign.
  destruct df as [|[n c0] df]; [exact Hlen|].
  destruct (mem name (df_columns ((n, c0) :: df))); [|reflexivity].
  simpl. destruct (String.eqb n name); [exact Hlen|reflexivity].
Qed.

Lemma has_rows_assign (df : DataFrame F) (name : string) (c : column F)
  (n : nat) :
  has_rows df n -> col_len c = n -> has_rows (df_assign df name c) n.
Proof.
  unfold has_rows, df_assign. intros Hrows Hlen.
  destruct (mem name (df_columns df)).
  - unfold df_set. apply Forall_map. eapply Forall_impl; [|exact Hrows].
    intros [m c0] Hc0. simpl. destruct (String.eqb m name); assumption.
  - apply Forall_app. split; [exact Hrows|]. repeat constructor. exact Hlen.
Qed.

Lemma df_columns_assign (df : DataFrame F) (name : string) (c : column F) :
  df_columns (df_assign df name c)
  = if mem name (df_columns df) then df_columns df
    else df_columns df ++ [name].
Proof.
  unfold df_assign. destruct (mem name (df_columns df)).
  - apply df_columns_set.
  - unfold df_columns. rewrite map_app. reflexivity.
Qed.

Lemma uniform_array_length (random_sample : nat -> F) (start : nat)
  (low high : F) (size : nat) :
  List.length (uniform_array random_sample start low high size) = size.
Proof. unfold uniform_array. rewrite length_map, length_seq. reflexivity. Qed.

Variable random_sample : nat -> F.
Variable np_round : F -> Z -> F.

(** The frame that [enrich_with_demographics] returns: the eight
    assignments with the length of the frame that was given. *)
Lemma enrich_ok (df : DataFrame F) :
  let n := df_len df in
  let u := uniform_array random_sample in
  let r d xs := FloatCol (map (fun x => np_round x d) xs) in
  let c1 := u 0%nat (of_int 45000) (of_int 85000) n in
  let c2 := u n (of_int 8) (of_int 22) n in
  let c3 := u (n + n)%nat (of_int 4) (of_int 18) n in
  let c4 := u (n + n + n)%nat (of_int 45) (of_int 95) n in
  let d1 := df_assign df "median_household_income" (FloatCol c1) in
  let d2 := df_assign d1 "poverty_rate" (FloatCol c2) in
  let d3 := df_assign d2 "uninsured_rate" (FloatCol c3) in
  let d4 := df_assign d3 "urban_pct" (FloatCol c4) in
  let d5 := df_assign d4 "median_household_income" (r 0%Z c1) in
  let d6 := df_assign d5 "poverty_rate" (r 1%Z c2) in
  let d7 := df_assign d6 "uninsured_rate" (r 1%Z c3) in
  let d8 := df_assign d7 "urban_pct" (r 1%Z c4) in
  enrich_with_demographics random_sample np_round df
  = (["Adding demographic variables..."], Ok d8).
Proof.
  intros n u r c1 c2 c3 c4 d1 d2 d3 d4 d5 d6 d7 d8.
  assert (L1 : df_len d1 = n).
  { apply df_len_assign. apply uniform_array_length. }
  assert (L2 : df_len d2 = n).
  { unfold d2. rewrite df_len_assign; [exact L1|].
    rewrite L1. apply uniform_array_length. }
  assert (L3 : df_len d3 = n).
  { unfold d3. rewrite df_len_assign; [exact L2|].
    rewrite L2. apply uniform_array_length. }
  unfold enrich_with_demographics. cbv zeta. f_equal.
  fold n. fold (u 0%nat (of_int 45000) (of_int 85000) n). fold c1. fold d1.
  rewrite L1. fold (u n (of_int 8) (of_int 22) n). fold c2. fold d2.
  rewrite L2. fold (u (n + n)%nat (of_int 4) (of_int 18) n). fold c3. fold d3.
  rewrite L3. fold (u (n + n + n)%nat (of_int 45) (of_int 95) n). fold c4.
  fold d4.
  assert (G1 : df_get d4 "median_household_income" = Some (FloatCol c1)).
  { unfold d4, d3, d2.
    rewrite !df_get_assign_other by discriminate.
    apply df_get_assign_same. }
  unfold df_round at 1. rewrite G1. cbn [bind round_column].
  fold (r 0%Z c1). fold d5.
  assert (G2 : df_get d5 "poverty_rate" = Some (FloatCol c2)).
  { unfold d5, d4, d3.
    rewrite !df_get_assign_other by discriminate.
    apply df_get_assign_same. }
  unfold df_round at 1. rewrite G2. cbn [bind round_column].
  fold (r 1%Z c2). fold d6.
  assert (G3 : df_get d6 "uninsured_rate" = Some (FloatCol c3)).
  { unfold d6, d5, d4.
    rewrite !df_get_assign_other by discriminate.
    apply df_get_assign_same. }
  unfold df_round at 1. rewrite G3. cbn [bind round_column].
  fold (r 1%Z c3). fold d7.
  assert (G4 : df_get d7 "urban_pct" = Some (FloatCol c4)).
  { unfold d7, d6, d5.
    rewrite !df_get_assign_other by discriminate.
    apply df_get_assign_same. }
  unfold df_round at 1. rewrite G4. cbn [bind round_column].
  reflexivity.
Qed.

End AssignFacts.

Section EnrichFacts.

Context {F : Type} `{Arith F}.

Lemma mem_app (name : string) (l l' : list string) :
  mem name (l ++ l') = mem name l || mem name l'.
Proof. unfold mem. apply existsb_app. Qed.

Lemma df_len_assign_float (df : DataFrame F) (name : string) (xs : list F)
  (n : nat) :
  df_len df = n -> List.length xs = n ->
  df_len (df_assign df name (FloatCol xs)) = n.
Proof.
  intros Hdf Hxs. rewrite df_len_assign; [exact Hdf|].
  simpl. congruence.
Qed.

Lemma df_columns_assign_present (df : DataFrame F) (name : string)
  (c : column F) :
  df_get df name <> None -> df_columns (df_assign df name c) = df_columns df.
Proof.
  intros Hget. rewrite df_columns_assign.
  destruct (mem name (df_columns df)) eqn:E; [reflexivity|].
  exfalso. apply Hget, df_get_None. intros Hin. apply mem_In in Hin. congruence.
Qed.

Lemma df_columns_assign_new (df : DataFrame F) (name : string) (c : column F) :
  df_columns (df_assign df name c)
  = df_columns df ++ filter (fun n => negb (mem n (df_columns df))) [name].
Proof.
  rewrite df_columns_assign. cbn [filter].
  destruct (mem name (df_columns df)); cbn [negb]; [|reflexivity].
  rewrite app_nil_r. reflexivity.
Qed.

(** Adding the names that are new, in two steps *)
Lemma new_names_app (l ns ns' : list string) :
  (forall a, In a ns' -> ~ In a ns) ->
  (l ++ filter (fun n => negb (mem n l)) ns)
  ++ filter (fun n => negb (mem n (l ++ filter (fun n => negb (mem n l)) ns))) ns'
  = l ++ filter (fun n => negb (mem n l)) (ns ++ ns').
Proof.
  intros Hdis. rewrite filter_app, app_assoc. f_equal.
  apply filter_ext_in. intros a Ha. f_equal. rewrite mem_app.
  replace (mem a (filter _ ns)) with false; [apply orb_false_r|].
  symmetry. apply not_true_is_false. intros Hin. apply mem_In in Hin.
  apply filter_In in Hin. destruct Hin as [Hin _]. exact (Hdis a Ha Hin).
Qed.

Lemma df_assign_present (df : DataFrame F) (name : string) (c c0 : column F) :
  df_get df name = Some c0 -> df_assign df name c = df_set df name c.
Proof.
  intros Hc0. unfold df_assign.
  replace (mem name (df_columns df)) with true; [reflexivity|].
  symmetry. apply mem_In, df_get_In. eauto.
Qed.

(** After [df[name] = c] every column of that name is [c], and the
    other columns are those of before. *)
Lemma assign_all_same (df : DataFrame F) (name : string) (c : column F)
  (m : string) (x : column F) :
  In (m, x) (df_assign df name c) -> m = name -> x = c.
Proof.
  unfold df_assign. intros Hin ->.
  destruct (mem name (df_columns df)) eqn:E.
  - unfold df_set in Hin. apply in_map_iff in Hin.
    destruct Hin as ([m0 x0] & Heq & _). simpl in Heq.
    destruct (String.eqb_spec m0 name); congruence.
  - apply in_app_or in Hin. destruct Hin as [Hin|[Heq|[]]]; [|congruence].
    exfalso. apply (in_map fst) in Hin. apply mem_In in Hin.
    unfold df_columns in E. simpl in Hin. congruence.
Qed.

Lemma assign_all_other (df : DataFrame F) (name : string) (c : column F)
  (m : string) (x : column F) :
  In (m, x) (df_assign df name c) -> m <> name -> In (m, x) df.
Proof.
  unfold df_assign. intros Hin Hne.
  destruct (mem name (df_columns df)).
  - unfold df_set in Hin. apply in_map_iff in Hin.
    destruct Hin as ([m0 x0] & Heq & Hin). simpl in Heq.
    destruct (String.eqb_spec m0 name); congruence.
  - apply in_app_or in Hin. destruct Hin as [Hin|[Heq|[]]]; [exact Hin|].
    congruence.
Qed.

End EnrichFacts.

(** What [enrich_with_demographics] prints and returns *)
Lemma enrich_facts {F : Type} `{Arith F}
  (random_sample : nat -> F) (np_round : F -> Z -> F) (df : DataFrame F) :
  exists enriched,
    enrich_with_demographics random_sample np_round df
    = (["Adding demographic variables..."], Ok enriched)
    /\ df_len enriched = df_len df
    /\ (forall name, ~ In name demographic_columns ->
                     df_get enriched name = df_get df name)
    /\ (forall name, In name demographic_columns ->
                     exists xs, df_get enriched name = Some (FloatCol xs)
                                /\ List.length xs = df_len df)
    /\ df_columns enriched
       = df_columns df
         ++ filter (fun n => negb (mem n (df_columns df))) demographic_columns.
Proof.
  pose proof (enrich_ok random_sample np_round df) as Hok. cbv beta zeta in Hok.
  eexists. split; [exact Hok|].
  split; [|split; [|split]].
  - repeat (apply df_len_assign_float;
            [|rewrite ?length_map; apply uniform_array_length]).
    reflexivity.
  - intros name Hname. rewrite !df_get_assign_other; [reflexivity|..];
      intros ->; apply Hname; simpl; tauto.
  - intros name Hname.
    destruct Hname as [<-|[<-|[<-|[<-|[]]]]];
      repeat (rewrite df_get_assign_other by discriminate);
      rewrite df_get_assign_same; eexists; (split; [reflexivity|]);
      rewrite length_map; apply uniform_array_length.
  - repeat match goal with
           | |- context [df_columns (df_assign ?d ?n ?c)] =>
               rewrite (df_columns_assign_present d n c)
                 by (repeat (rewrite df_get_assign_other by discriminate);
                     rewrite df_get_assign_same; discriminate)
           end.
    rewrite !df_columns_assign_new.
    rewrite !new_names_app by (simpl; intuition congruence).
    reflexivity.
Qed.

(** X14.  [enrich_with_demographics] never raises.  The frame it
    returns has the rows of the frame given, every column of another
    name as it was, and under each of the four demographic names a float
    column of that many rows; the names that the frame did not have are
    added at the end, in the order of the source. *)
Theorem enrich_with_demographics_columns {F : Type} `{Arith F}
  (random_sample : nat -> F) (np_round : F -> Z -> F) (df : DataFrame F) :
  exists enriched,
    snd (enrich_with_demographics random_sample np_round df) = Ok enriched
    /\ df_len enriched = df_len df
    /\ (forall name, ~ In name demographic_columns ->
                     df_get enriched name = df_get df name)
    /\ (forall name, In name demographic_columns ->
                     exists xs, df_get enriched name = Some (FloatCol xs)
                                /\ List.length xs = df_len df)
    /\ df_columns enriched
       = df_columns df
         ++ filter (fun n => negb (mem n (df_columns df))) demographic_columns.
Proof.
  destruct (enrich_facts random_sample np_round df)
    as (enriched & Hok & Hlen & Hother & Hdemo & Hcols).
  exists enriched. rewrite Hok.
  split; [reflexivity|]. split; [exact Hlen|]. split; [exact Hother|].
  split; [exact Hdemo|exact Hcols].
Qed.

(** X15.  Enriching twice gives what enriching once gives: the frame
    returned by [enrich_with_demographics] is returned unchanged when it
    is given again.  Each call sets the generator back to the seed and
    the rows are as many, so the draws are the same, and they replace
    the four columns where they stand. *)
Theorem enrich_with_demographics_twice {F : Type} `{Arith F}
  (random_sample : nat -> F) (np_round : F -> Z -> F) (df : DataFrame F) :
  exists enriched,
    snd (enrich_with_demographics random_sample np_round df) = Ok enriched
    /\ snd (enrich_with_demographics random_sample np_round enriched)
       = Ok enriched.
Proof.
  pose proof (enrich_ok random_sample np_round df) as Hok. cbv beta zeta in Hok.
  eexists. split; [rewrite Hok; reflexivity|].
  match goal with |- snd (enrich_with_demographics _ _ ?d) = _ =>
    set (d8 := d) end.
  pose proof (enrich_ok random_sample np_round d8) as Hok'. cbv beta zeta in Hok'.
  rewrite Hok'. cbn [snd]. f_equal. clear Hok Hok'.
  assert (Hlen : df_len d8 = df_len df).
  { unfold d8.
    repeat (apply df_len_assign_float;
            [|rewrite ?length_map; apply uniform_array_length]).
    reflexivity. }
  rewrite Hlen.
  assert (Hget : forall name, In name demographic_columns ->
                              exists c, df_get d8 name = Some c).
  { intros name Hname. unfold d8.
    destruct Hname as [<-|[<-|[<-|[<-|[]]]]];
      repeat (rewrite df_get_assign_other by discriminate);
      rewrite df_get_assign_same; eauto. }
  assert (Hset : forall (d : DataFrame F) (name : string) (c : column F),
             (forall n, In n demographic_columns ->
                        exists c0, df_get d n = Some c0) ->
             In name demographic_columns ->
             df_assign d name c = df_set d name c
             /\ forall n, In n demographic_columns ->
                          exists c0, df_get (df_set d name c) n = Some c0).
  { intros d name c Hd Hname. destruct (Hd name Hname) as [c0 Hc0].
    split; [eapply df_assign_present; exact Hc0|].
    intros n Hn. apply df_get_In. rewrite df_columns_set.
    apply df_get_In. auto. }
  repeat match goal with
         | |- context [df_assign ?d ?name ?c] =>
             lazymatch d with
             | context [df_assign] => fail
             | _ => idtac
             end;
             let Ha := fresh "Ha" in
             let Hg := fresh "Hg" in
             destruct (Hset d name c) as [Ha Hg];
             [first [exact Hget | assumption] | simpl; tauto |];
             rewrite Ha; clear Ha
         end.
  unfold df_set. rewrite !map_map.
  rewrite <- (map_id d8) at 2. apply map_ext_in.
  intros [m x] Hin. cbn [fst snd].
  destruct (String.eqb_spec m "median_household_income") as [E1|N1];
    [|destruct (String.eqb_spec m "poverty_rate") as [E2|N2];
      [|destruct (String.eqb_spec m "uninsured_rate") as [E3|N3];
        [|destruct (String.eqb_spec m "urban_pct") as [E4|N4]]]].
  - subst m. cbn. f_equal. symmetry.
    unfold d8 in Hin.
    do 3 (apply assign_all_other in Hin; [|discriminate]).
    eapply assign_all_same; [exact Hin|reflexivity].
  - subst m. cbn. f_equal. symmetry.
    unfold d8 in Hin.
    do 2 (apply assign_all_other in Hin; [|discriminate]).
    eapply assign_all_same; [exact Hin|reflexivity].
  - subst m. cbn. f_equal. symmetry.
    unfold d8 in Hin.
    do 1 (apply assign_all_other in Hin; [|discriminate]).
    eapply assign_all_same; [exact Hin|reflexivity].
  - subst m. cbn. f_equal. symmetry.
    unfold d8 in Hin.
    eapply assign_all_same; [exact Hin|reflexivity].
  - cbn [fst snd].
    repeat match goal with
           | |- context [String.eqb ?a ?b] =>
               destruct (String.eqb_spec a b); [contradiction|]; cbn [fst snd]
           end.
    reflexivity.
Qed.

(* ================================================================= *)
(** ** Loading the grants *)

Section LoadFacts.

Context {F : Type} `{Arith F}.

Lemma clean_currency_total (v : scalar F) : exists x, clean_currency v = Ok x.
Proof.
  unfold clean_currency. destruct (isna v); [eauto|].
  destruct v as [|s|x]; eauto.
  destruct (clean_currency_str_ok (F:=F) s) as (x & Hx & _). eauto.
Qed.

Lemma map_result_total {A B : Type} (f : A -> result B) (xs : list A) :
  (forall x, exists y, f x = Ok y) ->
  exists ys, map_result f xs = Ok ys
             /\ Forall2 (fun x y => f x = Ok y) xs ys.
Proof.
  intros Hf. induction xs as [|x xs IH]; simpl.
  - exists []. split; [reflexivity|constructor].
  - destruct (Hf x) as [y Hy]. destruct IH as (ys & Hys & Hall).
    exists (y :: ys). rewrite Hy, Hys. split; [reflexivity|].
    constructor; assumption.
Qed.

Lemma cells_length (c : column F) : List.length (cells c) = col_len c.
Proof. destruct c; simpl; apply length_map. Qed.

(** [apply] on a column with rows: a float column, entry by entry what
    [clean_currency] returns. *)
Lemma apply_clean_currency_rows (c : column F) :
  col_len c <> 0%nat ->
  exists ys, apply_clean_currency c = Ok (FloatCol ys)
             /\ Forall2 (fun v y => clean_currency v = Ok y) (cells c) ys.
Proof.
  intros Hrows. unfold apply_clean_currency.
  destruct (cells c) as [|v vs] eqn:E.
  - rewrite <- cells_length, E in Hrows. contradiction.
  - destruct (map_result_total clean_currency (v :: vs) clean_currency_total)
      as (ys & Hys & Hall).
    exists ys. rewrite Hys. split; [reflexivity|exact Hall].
Qed.

Lemma filter_In_name (df : DataFrame F) (name n : string) (c : column F)
  (rest : DataFrame F) :
  filter (fun nc => String.eqb (fst nc) name) df = (n, c) :: rest ->
  n = name /\ In name (df_columns df).
Proof.
  intros Hf.
  assert (Hin : In (n, c) (filter (fun nc => String.eqb (fst nc) name) df)).
  { rewrite Hf. simpl. auto. }
  apply filter_In in Hin. destruct Hin as [Hin Hn]. simpl in Hn.
  apply String.eqb_eq in Hn. subst n. split; [reflexivity|].
  apply (in_map fst) in Hin. exact Hin.
Qed.

(** The first column of a name is the first that the filter keeps. *)
Lemma df_get_filter_name (df : DataFrame F) (name : string) :
  df_get df name
  = option_map snd (hd_error (filter (fun nc => String.eqb (fst nc) name) df)).
Proof.
  induction df as [|[n c] df IH]; simpl; [reflexivity|].
  destruct (String.eqb n name); [reflexivity|exact IH].
Qed.

(** The frame that [load_grant_data] returns when one column bears the
    name and the file has rows *)
Lemma load_grant_data_one (read_csv : DataFrame F) (name : string)
  (c : column F) :
  filter (fun nc => String.eqb (fst nc) "Awardee Amount")
         (strip_columns read_csv) = [(name, c)] ->
  col_len c <> 0%nat ->
  exists ys,
    load_grant_data read_csv
    = Ok (df_set (strip_columns read_csv) "Awardee Amount" (FloatCol ys))
    /\ Forall2 (fun v y => clean_currency v = Ok y) (cells c) ys.
Proof.
  intros Hf Hrows.
  destruct (apply_clean_currency_rows c Hrows) as (ys & Hys & Hall).
  exists ys. split; [|exact Hall].
  destruct (filter_In_name _ _ _ _ _ Hf) as [-> Hin].
  unfold load_grant_data. cbv zeta.
  rewrite (proj2 (mem_In _ _) Hin), Hf, Hys. cbn [bind].
  f_equal. apply df_get_In in Hin. destruct Hin as [c0 Hc0].
  eapply df_assign_present. exact Hc0.
Qed.

End LoadFacts.

(** X16.  [load_grant_data], on the frame read from the file, when one
    column bears the name 'Awardee Amount' once the names are stripped
    and the file has rows: it does not raise; the frame returned has the
    stripped names, every other column as it was read, and the amounts
    as a float column that holds, entry by entry, what [clean_currency]
    returns for the entry read.  A frame in which no column bears the
    name is returned with its names stripped and nothing else changed. *)
Theorem load_grant_data_cleans_amounts {F : Type} `{Arith F}
  (read_csv : DataFrame F) :
  (forall name c,
      filter (fun nc => String.eqb (fst nc) "Awardee Amount")
             (strip_columns read_csv) = [(name, c)] ->
      col_len c <> 0%nat ->
      exists df ys,
        load_grant_data read_csv = Ok df
        /\ df_columns df = map strip_name (df_columns read_csv)
        /\ df_get df "Awardee Amount" = Some (FloatCol ys)
        /\ Forall2 (fun v y => clean_currency v = Ok y) (cells c) ys
        /\ forall other, other <> "Awardee Amount" ->
                         df_get df other
                         = df_get (strip_columns read_csv) other)
  /\ (~ In "Awardee Amount" (map strip_name (df_columns read_csv)) ->
      load_grant_data read_csv = Ok (strip_columns read_csv)).
Proof.
  assert (Hcols : df_columns (strip_columns read_csv)
                  = map strip_name (df_columns read_csv)).
  { unfold df_columns, strip_columns. rewrite !map_map. reflexivity. }
  split.
  - intros name c Hf Hrows.
    destruct (load_grant_data_one read_csv name c Hf Hrows) as (ys & Hl & Hall).
    eexists. exists ys. split; [exact Hl|].
    split; [rewrite df_columns_set; exact Hcols|].
    split; [|split; [exact Hall|]].
    + rewrite df_get_set_same.
      destruct (filter_In_name _ _ _ _ _ Hf) as [_ Hin].
      apply df_get_In in Hin. destruct Hin as [c0 ->]. reflexivity.
    + intros other Hne. apply df_get_set_other. exact Hne.
  - intros Hnot. unfold load_grant_data. cbv zeta. rewrite Hcols.
    destruct (mem "Awardee Amount" (map strip_name (df_columns read_csv))) eqn:E;
      [|reflexivity].
    apply mem_In in E. contradiction.
Qed.

Lemma load_grant_data_cleans_amounts_witness :
  exists df ys,
    load_grant_data (F:=XQ.t)
      [ (" State", ObjCol [Some "CA"; Some "TX"]);
        ("Awardee Amount ", ObjCol [Some "$1,000"; None]) ] = Ok df
    /\ df_columns df = ["State"; "Awardee Amount"]
    /\ df_get df "Awardee Amount" = Some (FloatCol ys)
    /\ Forall2 (fun v y => clean_currency v = Ok y)
               [PyStr "$1,000"; PyFloat XQ.NaN] ys.
Proof.
  destruct (proj1 (load_grant_data_cleans_amounts (F:=XQ.t)
                     [ (" State", ObjCol [Some "CA"; Some "TX"]);
                       ("Awardee Amount ", ObjCol [Some "$1,000"; None]) ])
                  "Awardee Amount" (ObjCol [Some "$1,000"; None])
                  eq_refl ltac:(discriminate))
    as (df & ys & Hl & Hc & Hg & Hall & _).
  exists df, ys. split; [exact Hl|]. split; [exact Hc|].
  split; [exact Hg|exact Hall].
Defined.

(* ================================================================= *)
(** ** The full dataset *)

Section FullFacts.

Context {F : Type} `{Arith F}.

Lemma df_columns_drop_filter (df : DataFrame F) (name : string) :
  df_columns (df_drop df name)
  = filter (fun n => negb (String.eqb n name)) (df_columns df).
Proof.
  induction df as [|[n c] df IH]; [reflexivity|].
  unfold df_drop, df_columns in *. cbn [filter map fst].
  destruct (String.eqb n name); cbn [negb map fst]; rewrite IH; reflexivity.
Qed.

(** The geographies of the summary are the strings of the state
    column, each once. *)
Lemma summary_keys (srt : sorter F) (geos : list (option string))
  (amounts : list F) :
  sort_permutes srt ->
  exists keys,
    map geo (srt _ total_funding (summary_rows (col_keys (ObjCol geos)) amounts))
    = map KStr keys
    /\ NoDup keys
    /\ (forall g, In g keys <-> In (Some g) geos).
Proof.
  intros Hperm.
  set (summary := srt _ total_funding
                      (summary_rows (col_keys (ObjCol geos)) amounts)).
  assert (Hp : Permutation (map geo summary)
                           (group_keys (col_keys (ObjCol geos)))).
  { rewrite <- (map_geo_summary_rows (col_keys (ObjCol geos)) amounts).
    apply Permutation_map, Hperm. }
  assert (Hstr : forall k, In k (map geo summary) -> exists s, k = KStr s).
  { intros k Hk. apply (Permutation_in _ Hp) in Hk.
    apply group_keys_In in Hk. destruct Hk as (s & -> & _). eauto. }
  set (name_of := fun k : key F => match k with KStr s => s | KNum _ => "" end).
  assert (Heq : map geo summary = map KStr (map name_of (map geo summary))).
  { rewrite (map_map name_of). rewrite <- (map_id (map geo summary)) at 1.
    apply map_ext_in. intros k Hk. destruct (Hstr k Hk) as [s ->]. reflexivity. }
  exists (map name_of (map geo summary)).
  split; [exact Heq|]. split.
  - apply (NoDup_map_inv (@KStr F)). rewrite <- Heq.
    eapply Permutation_NoDup; [apply Permutation_sym, Hp|].
    apply ascending_NoDup, group_keys_ascending.
  - intros g. split.
    + intros Hg. apply (in_map (@KStr F)) in Hg. rewrite <- Heq in Hg.
      apply (Permutation_in _ Hp) in Hg. apply group_keys_In in Hg.
      destruct Hg as (s & [= ->] & Hs). exact Hs.
    + intros Hg.
      assert (Hin : In (KStr g) (map geo summary)).
      { apply (Permutation_in _ (Permutation_sym Hp)).
        apply group_keys_In. eauto. }
      rewrite Heq in Hin. apply in_map_iff in Hin.
      destruct Hin as (s & [= ->] & Hs). exact Hs.
Qed.

Variable random_sample : nat -> F.
Variable py_round : F -> Z -> F.
Variable np_round : F -> Z -> F.

(** The health data that [get_full_dataset] merges *)
Lemma health_data_enriched :
  exists enriched c,
    enrich_with_demographics random_sample np_round
      (snd (fetch_cdc_wonder_data random_sample py_round None 2021))
    = (["Adding demographic variables..."], Ok enriched)
    /\ df_get enriched "state" = Some (ObjCol (map Some (map fst states)))
    /\ df_get enriched "infant_mortality_rate" = Some c
    /\ df_columns enriched = health_columns ++ demographic_columns.
Proof.
  destruct (fetch_all_states random_sample py_round 2021) as (Hst & Hcols & _).
  set (health := snd (fetch_cdc_wonder_data random_sample py_round None 2021))
    in *.
  destruct (enrich_facts random_sample np_round health)
    as (enriched & Hok & _ & Hother & _ & Hc).
  assert (Hind : exists c, df_get health "infant_mortality_rate" = Some c).
  { apply df_get_In. rewrite Hcols. simpl. tauto. }
  destruct Hind as [c Hind].
  exists enriched, c. split; [exact Hok|]. split; [|split].
  - rewrite Hother; [exact Hst|]. simpl. intuition discriminate.
  - rewrite Hother; [exact Hind|]. simpl. intuition discriminate.
  - rewrite Hc, Hcols. reflexivity.
Qed.

Variable srt : sorter F.

(** [get_full_dataset] on a file with rows that has the three columns:
    the merge of the summary, its state column renamed, with the health
    data of the fifty states. *)
Lemma get_full_dataset_merged (read_csv : DataFrame F)
  (geos : list (option string)) (name : string) (c gn : column F) :
  sort_permutes srt ->
  df_get (strip_columns read_csv) "State" = Some (ObjCol geos) ->
  filter (fun nc => String.eqb (fst nc) "Awardee Amount")
         (strip_columns read_csv) = [(name, c)] ->
  col_len c <> 0%nat ->
  df_get (strip_columns read_csv) "Grant Number" = Some gn ->
  exists keys left enriched ci,
    NoDup keys
    /\ (forall g, In g keys <-> In (Some g) geos)
    /\ df_get left "state" = Some (ObjCol (map Some keys))
    /\ df_columns left
       = ["state"; "total_funding"; "avg_grant_size"; "num_grants"]
    /\ has_rows left (List.length keys)
    /\ df_get enriched "state" = Some (ObjCol (map Some (map fst states)))
    /\ df_get enriched "infant_mortality_rate" = Some ci
    /\ df_columns enriched = health_columns ++ demographic_columns
    /\ get_full_dataset srt random_sample py_round np_round read_csv
       = (fst (fetch_cdc_wonder_data random_sample py_round None 2021)
          ++ ["Adding demographic variables..."]
          ++ fst (merge_health_and_funding left enriched "state"),
          snd (merge_health_and_funding left enriched "state"))
    /\ snd (enrich_with_demographics random_sample np_round
              (snd (fetch_cdc_wonder_data random_sample py_round None 2021)))
       = Ok enriched.
Proof.
  intros Hperm Hst Hf Hrows Hgn.
  destruct (load_grant_data_one read_csv name c Hf Hrows) as (ys & Hload & _).
  destruct (filter_In_name _ _ _ _ _ Hf) as [_ Hamt].
  apply df_get_In in Hamt. destruct Hamt as [c0 Hamt].
  set (grants := df_set (strip_columns read_csv) "Awardee Amount" (FloatCol ys))
    in *.
  assert (Hstate : df_get grants "State" = Some (ObjCol geos)).
  { unfold grants. rewrite df_get_set_other by discriminate. exact Hst. }
  assert (Hamount : df_get grants "Awardee Amount" = Some (FloatCol ys)).
  { unfold grants. rewrite df_get_set_same, Hamt. reflexivity. }
  assert (Hnumber : df_get grants "Grant Number" = Some gn).
  { unfold grants. rewrite df_get_set_other by discriminate. exact Hgn. }
  pose proof (get_state_summary_ok srt grants "State" "Awardee Amount"
                (ObjCol geos) gn ys
                ltac:(discriminate) ltac:(discriminate) ltac:(discriminate)
                Hstate Hamount Hnumber) as Hsum.
  destruct (summary_keys srt geos ys Hperm) as (keys & Hgeo & Hnd & Hin).
  revert Hsum Hgeo.
  generalize (srt _ total_funding (summary_rows (col_keys (ObjCol geos)) ys))
    as summary.
  intros summary Hsum Hgeo.
  destruct health_data_enriched as (enriched & ci & Hen & Hes & Hei & Hec).
  assert (Hlen : List.length summary = List.length keys).
  { apply (f_equal (@List.length _)) in Hgeo. rewrite !length_map in Hgeo.
    exact Hgeo. }
  exists keys,
    (df_rename (summary_frame "State" (ObjCol geos) summary) "State" "state"),
    enriched, ci.
  split; [exact Hnd|]. split; [exact Hin|].
  split; [|split; [reflexivity|split; [|split; [exact Hes|split;
    [exact Hei|split; [exact Hec|split; [|rewrite Hen; reflexivity]]]]]]].
  - cbn. f_equal. f_equal.
    rewrite <- (map_map geo (fun k => match k with
                                      | KStr s => Some s
                                      | KNum _ => None
                                      end)).
    rewrite Hgeo, map_map. reflexivity.
  - repeat constructor; cbn; rewrite length_map; exact Hlen.
  - unfold get_full_dataset. rewrite Hload, Hsum, Hstate.
    remember (fetch_cdc_wonder_data random_sample py_round None 2021)
      as fetched eqn:Ef in *.
    destruct fetched as [out1 health]. cbn [fst snd] in *.
    rewrite Hen.
    destruct (merge_health_and_funding _ enriched "state") as [out3 full].
    reflexivity.
Qed.

Lemma NoDup_map_Some {A : Type} (l : list A) : NoDup l -> NoDup (map Some l).
Proof.
  induction 1 as [|x l Hx _ IH]; simpl; constructor; [|exact IH].
  intros Hin. apply in_map_iff in Hin. destruct Hin as (y & [= ->] & Hy).
  contradiction.
Qed.

End FullFacts.

(** X17.  [get_full_dataset], on a file with rows that has, once the
    names are stripped, the columns 'State' (of strings), 'Grant Number'
    and one column 'Awardee Amount': it returns a frame with one row for
    each geography of the state column, none twice - the health table
    has every state once, so that the merge repeats no row - and with
    the fifteen columns of the summary, the health data and the
    demographic data.  A geography that is not one of the fifty states
    of the table has every health and demographic column missing. *)
Theorem get_full_dataset_rows {F : Type} `{Arith F}
  (srt : sorter F) (random_sample : nat -> F) (py_round np_round : F -> Z -> F)
  (read_csv : DataFrame F) (geos : list (option string))
  (name : string) (c gn : column F) :
  fisnan (fnan : F) = true ->
  sort_permutes srt ->
  df_get (strip_columns read_csv) "State" = Some (ObjCol geos) ->
  filter (fun nc => String.eqb (fst nc) "Awardee Amount")
         (strip_columns read_csv) = [(name, c)] ->
  col_len c <> 0%nat ->
  df_get (strip_columns read_csv) "Grant Number" = Some gn ->
  exists full keys,
    snd (get_full_dataset srt random_sample py_round np_round read_csv)
    = Ok full
    /\ df_get full "state" = Some (ObjCol (map Some keys))
    /\ NoDup keys
    /\ (forall g, In g keys <-> In (Some g) geos)
    /\ has_rows full (List.length keys)
    /\ df_columns full
       = ["state"; "total_funding"; "avg_grant_size"; "num_grants"]
         ++ tl health_columns ++ demographic_columns
    /\ (forall i g column_name column,
          nth_error keys i = Some g ->
          ~ In g (map fst states) ->
          In column_name (tl health_columns ++ demographic_columns) ->
          df_get full column_name = Some column ->
          missing_at column i = true).
Proof.
  intros Hnan Hperm Hst Hf Hrows Hgn.
  destruct (get_full_dataset_merged random_sample py_round np_round srt
              read_csv geos name c gn Hperm Hst Hf Hrows Hgn)
    as (keys & left & enriched & ci & Hnd & Hin & Hls & Hlc & Hlr
        & Hes & Hei & Hec & Hfull & _).
  assert (Hdis : forall n, In n (df_columns left) ->
                           In n (df_columns enriched) -> n = "state").
  { intros n Hl Hr. rewrite Hlc in Hl. rewrite Hec in Hr.
    destruct Hl as [<-|[<-|[<-|[<-|[]]]]]; [reflexivity|..];
      exfalso; simpl in Hr; intuition discriminate. }
  assert (Hlr' : has_rows left (List.length (map Some keys))).
  { rewrite length_map. exact Hlr. }
  destruct (merge_health_and_funding_unique left enriched "state"
              (map Some keys) (map Some (map fst states)) ci
              Hlr' Hdis Hls Hes (NoDup_map_Some _ states_distinct) Hei
              ltac:(discriminate)) as [Hm Hright].
  cbv zeta in Hm, Hright.
  set (rrows := map (right_row (col_keys (ObjCol (map Some (map fst states)))))
                    (col_keys (ObjCol (map Some keys)))) in *.
  assert (Hrr : List.length rrows = List.length keys).
  { unfold rrows. cbn [col_keys]. rewrite !length_map. reflexivity. }
  eexists. exists keys.
  split; [rewrite Hfull; cbn [snd]; rewrite Hm; reflexivity|].
  split; [rewrite df_get_app, Hls; reflexivity|].
  split; [exact Hnd|]. split; [exact Hin|].
  split; [|split].
  - unfold has_rows. apply Forall_app. split; [exact Hlr|].
    apply Forall_map. apply Forall_forall. intros [n cr] _. cbn [fst snd].
    rewrite col_len_take. exact Hrr.
  - change (df_columns (left ++ map (fun nc => (fst nc, take (snd nc) rrows))
                                    (df_drop enriched "state")))
      with (map fst (left ++ map (fun nc => (fst nc, take (snd nc) rrows))
                                 (df_drop enriched "state"))).
    rewrite map_app, map_map. cbn [fst].
    change (map fst left) with (df_columns left).
    change (map (fun x => fst x) (df_drop enriched "state"))
      with (df_columns (df_drop enriched "state")).
    rewrite Hlc, df_columns_drop_filter, Hec. reflexivity.
  - intros i g column_name column Hi Hg Hn Hc.
    assert (Hne : column_name <> "state").
    { intros ->. simpl in Hn. intuition discriminate. }
    assert (Hen : exists cr, df_get enriched column_name = Some cr).
    { apply df_get_In. rewrite Hec. simpl in Hn |- *. tauto. }
    destruct Hen as [cr Hcr].
    rewrite (Hright _ _ Hne Hcr) in Hc. injection Hc as <-.
    apply missing_at_take; [exact Hnan|].
    unfold rrows. cbn [col_keys].
    rewrite !nth_error_map, Hi. cbn [option_map]. f_equal.
    apply (right_row_absent (Some g)).
    intros Hin'. apply in_map_iff in Hin'.
    destruct Hin' as (s & [= ->] & Hs). contradiction.
Qed.

Lemma get_full_dataset_rows_witness :
  exists full keys,
    snd (get_full_dataset (F:=XQ.t) insertion_sorter
           (fun _ => XQ.Fin (1 # 2)) (fun x _ => x) (fun x _ => x)
           [ ("Grant Number", ObjCol [Some "G1"; Some "G2"; Some "G3"]);
             (" State", ObjCol [Some "CA"; Some "DC"; Some "CA"]);
             ("Awardee Amount", ObjCol [Some "$1,000"; Some "$2,000"; None]) ])
    = Ok full
    /\ df_get full "state" = Some (ObjCol (map Some keys))
    /\ NoDup keys
    /\ (forall g, In g keys <-> In (Some g) [Some "CA"; Some "DC"; Some "CA"])
    /\ has_rows full (List.length keys).
Proof.
  destruct (@get_full_dataset_rows XQ.t xq insertion_sorter
              (fun _ => XQ.Fin (1 # 2)) (fun x _ => x) (fun x _ => x)
              [ ("Grant Number", ObjCol [Some "G1"; Some "G2"; Some "G3"]);
                (" State", ObjCol [Some "CA"; Some "DC"; Some "CA"]);
                ("Awardee Amount", ObjCol [Some "$1,000"; Some "$2,000"; None]) ]
              [Some "CA"; Some "DC"; Some "CA"]
              "Awardee Amount" (ObjCol [Some "$1,000"; Some "$2,000"; None])
              (ObjCol [Some "G1"; Some "G2"; Some "G3"])
              eq_refl insertion_sorter_permutes eq_refl eq_refl
              ltac:(discriminate) eq_refl)
    as (full & keys & H1 & H2 & H3 & H4 & H5 & _).
  exists full, keys. repeat split; try assumption; apply H4.
Defined.

Section MissingColumns.

Context {F : Type} `{Arith F}.

Lemma apply_clean_currency_total (c : column F) :
  exists c', apply_clean_currency c = Ok c'.
Proof.
  unfold apply_clean_currency. destruct (cells c) as [|v vs]; [eauto|].
  destruct (map_result_total clean_currency (v :: vs) clean_currency_total)
    as (ys & Hys & _).
  rewrite Hys. cbn [bind]. eauto.
Qed.

(** What [load_grant_data] returns when at most one column bears the
    name *)
Lemma load_grant_data_single (read_csv : DataFrame F) :
  (List.length (filter (fun nc => String.eqb (fst nc) "Awardee Amount")
                       (strip_columns read_csv)) <= 1)%nat ->
  exists grants,
    load_grant_data read_csv = Ok grants
    /\ forall name, df_get (strip_columns read_csv) name = None ->
                    df_get grants name = None.
Proof.
  intros Hle. unfold load_grant_data. cbv zeta.
  destruct (mem "Awardee Amount" (df_columns (strip_columns read_csv))) eqn:E;
    [|eauto].
  destruct (filter _ (strip_columns read_csv)) as [|[n c] [|more]] eqn:Hf.
  - exfalso. apply mem_In, df_get_In in E. destruct E as [c Hc].
    rewrite df_get_filter_name, Hf in Hc. discriminate.
  - destruct (apply_clean_currency_total c) as [c' Hc']. rewrite Hc'.
    cbn [bind]. eexists. split; [reflexivity|].
    intros name Hname.
    destruct (String.eqb_spec name "Awardee Amount") as [->|Hne].
    + apply mem_In, df_get_In in E. destruct E as [c0 Hc0]. congruence.
    + rewrite df_get_assign_other by exact Hne. exact Hname.
  - simpl in Hle. lia.
Qed.

Lemma get_state_summary_missing (srt : sorter F) (df : DataFrame F) :
  df_get df "State" = None \/ df_get df "Awardee Amount" = None
  \/ df_get df "Grant Number" = None ->
  exists e,
    get_state_summary srt df "State" "Awardee Amount" = Raise e
    /\ is_KeyError e = true.
Proof.
  intros Hmiss. unfold get_state_summary.
  destruct (df_get df "State") as [kc|] eqn:Hst; [|eauto].
  cbn [String.eqb Ascii.eqb Bool.eqb].
  destruct (df_get df "Awardee Amount") as [ca|]; [|eauto].
  destruct (df_get df "Grant Number") as [gn|].
  - exfalso. destruct Hmiss as [Hm|[Hm|Hm]]; discriminate.
  - eauto.
Qed.

End MissingColumns.

(** X18.  When the file lacks, once the names are stripped, the column
    'State', 'Awardee Amount' or 'Grant Number' (and no two columns bear
    the name 'Awardee Amount'), [get_full_dataset] raises a KeyError,
    and it does so before anything is printed: no health data is
    fetched. *)
Theorem get_full_dataset_missing_column {F : Type} `{Arith F}
  (srt : sorter F) (random_sample : nat -> F) (py_round np_round : F -> Z -> F)
  (read_csv : DataFrame F) :
  (List.length (filter (fun nc => String.eqb (fst nc) "Awardee Amount")
                       (strip_columns read_csv)) <= 1)%nat ->
  df_get (strip_columns read_csv) "State" = None
  \/ df_get (strip_columns read_csv) "Awardee Amount" = None
  \/ df_get (strip_columns read_csv) "Grant Number" = None ->
  exists e,
    get_full_dataset srt random_sample py_round np_round read_csv
    = ([], Raise e)
    /\ is_KeyError e = true.
Proof.
  intros Hle Hmiss.
  destruct (load_grant_data_single read_csv Hle) as (grants & Hload & Hnone).
  destruct (get_state_summary_missing srt grants) as (e & He & Hkey).
  { destruct Hmiss as [Hm|[Hm|Hm]]; auto. }
  exists e. split; [|exact Hkey].
  unfold get_full_dataset. rewrite Hload, He. reflexivity.
Qed.

Lemma get_full_dataset_missing_column_witness :
  exists e,
    get_full_dataset (F:=XQ.t) insertion_sorter
      (fun _ => XQ.Fin (1 # 2)) (fun x _ => x) (fun x _ => x)
      [ ("State", ObjCol [Some "CA"]);
        ("Awardee Amount", ObjCol [Some "$1,000"]) ]
    = ([], Raise e)
    /\ is_KeyError e = true.
Proof.
  apply (@get_full_dataset_missing_column XQ.t xq).
  - simpl. lia.
  - right. right. reflexivity.
Defined.

Section FullDatasetFacts.

Context {F : Type} `{Arith F}.

(** A row of a column of the merge is the row of the right table that
    it was taken from. *)
Lemma take_row (c : column F) (rows : list (option nat)) (i j : nat) :
  nth_error rows i = Some (Some j) ->
  take (take c rows) [Some i] = take c [Some j].
Proof.
  intros Hrow.
  destruct c as [xs|xs]; cbn [take map]; f_equal; f_equal;
    apply nth_error_nth; rewrite nth_error_map, Hrow; reflexivity.
Qed.



Lemma fetch_prints (random_sample : nat -> F) (py_round : F -> Z -> F)
  (year : Z) :
  fst (fetch_cdc_wonder_data random_sample py_round None year)
  = ["Fetching CDC health outcome data..."; "Retrieved data for 50 states"].
Proof. reflexivity. Qed.

End FullDatasetFacts.

(** X19.  In the frame of [get_full_dataset] (a file as in X17), the
    row of a geography that is one of the fifty states carries, in
    every health and demographic column, the entry of that state in the
    enriched health data. *)
Theorem get_full_dataset_health_values {F : Type} `{Arith F}
  (srt : sorter F) (random_sample : nat -> F) (py_round np_round : F -> Z -> F)
  (read_csv : DataFrame F) (geos : list (option string))
  (name : string) (c gn : column F) (health_data : DataFrame F) :
  sort_permutes srt ->
  df_get (strip_columns read_csv) "State" = Some (ObjCol geos) ->
  filter (fun nc => String.eqb (fst nc) "Awardee Amount")
         (strip_columns read_csv) = [(name, c)] ->
  col_len c <> 0%nat ->
  df_get (strip_columns read_csv) "Grant Number" = Some gn ->
  snd (enrich_with_demographics random_sample np_round
         (snd (fetch_cdc_wonder_data random_sample py_round None 2021)))
  = Ok health_data ->
  exists full keys,
    snd (get_full_dataset srt random_sample py_round np_round read_csv)
    = Ok full
    /\ df_get full "state" = Some (ObjCol (map Some keys))
    /\ forall i j g column_name column,
         nth_error keys i = Some g ->
         nth_error (map fst states) j = Some g ->
         column_name <> "state" ->
         df_get health_data column_name = Some column ->
         exists merged_column,
           df_get full column_name = Some merged_column
           /\ take merged_column [Some i] = take column [Some j].
Proof.
  intros Hperm Hst Hf Hrows Hgn Hhealth.
  destruct (get_full_dataset_merged random_sample py_round np_round srt
              read_csv geos name c gn Hperm Hst Hf Hrows Hgn)
    as (keys & left & enriched & ci & Hnd & Hin & Hls & Hlc & Hlr
        & Hes & Hei & Hec & Hfull & Hen).
  rewrite Hen in Hhealth. injection Hhealth as <-.
  assert (Hdis : forall n, In n (df_columns left) ->
                           In n (df_columns enriched) -> n = "state").
  { intros n Hl Hr. rewrite Hlc in Hl. rewrite Hec in Hr.
    destruct Hl as [<-|[<-|[<-|[<-|[]]]]]; [reflexivity|..];
      exfalso; simpl in Hr; intuition discriminate. }
  assert (Hlr' : has_rows left (List.length (map Some keys))).
  { rewrite length_map. exact Hlr. }
  destruct (merge_health_and_funding_unique left enriched "state"
              (map Some keys) (map Some (map fst states)) ci
              Hlr' Hdis Hls Hes (NoDup_map_Some _ states_distinct) Hei
              ltac:(discriminate)) as [Hm Hright].
  cbv zeta in Hm, Hright.
  eexists. exists keys.
  split; [rewrite Hfull; cbn [snd]; rewrite Hm; reflexivity|].
  split; [rewrite df_get_app, Hls; reflexivity|].
  intros i j g column_name column Hi Hj Hne Hc.
  eexists. split; [apply Hright; eassumption|].
  apply take_row. cbn [col_keys].
  rewrite !nth_error_map, Hi. cbn [option_map]. f_equal.
  apply (right_row_position (map Some (map fst states)) j (Some g)).
  - apply NoDup_map_Some, states_distinct.
  - rewrite nth_error_map, Hj. reflexivity.
Qed.


Lemma get_full_dataset_health_values_witness :
  exists full keys,
    snd (get_full_dataset (F:=XQ.t) insertion_sorter
           (fun _ => XQ.Fin (1 # 2)) (fun x _ => x) (fun x _ => x)
           [ ("Grant Number", ObjCol [Some "G1"; Some "G2"; Some "G3"]);
             (" State", ObjCol [Some "CA"; Some "DC"; Some "CA"]);
             ("Awardee Amount", ObjCol [Some "$1,000"; Some "$2,000"; None]) ])
    = Ok full
    /\ df_get full "state" = Some (ObjCol (map Some keys))
    /\ forall i,
         nth_error keys i = Some "CA" ->
         exists merged_column,
           df_get full "state_fips" = Some merged_column
           /\ take merged_column [Some i] = FloatCol [XQ.Fin 6].
Proof.
  edestruct (@get_full_dataset_health_values XQ.t xq insertion_sorter
               (fun _ => XQ.Fin (1 # 2)) (fun x _ => x) (fun x _ => x)
               [ ("Grant Number", ObjCol [Some "G1"; Some "G2"; Some "G3"]);
                 (" State", ObjCol [Some "CA"; Some "DC"; Some "CA"]);
                 ("Awardee Amount", ObjCol [Some "$1,000"; Some "$2,000"; None]) ]
               [Some "CA"; Some "DC"; Some "CA"]
               "Awardee Amount" (ObjCol [Some "$1,000"; Some "$2,000"; None])
               (ObjCol [Some "G1"; Some "G2"; Some "G3"]))
    as (full & keys & H1 & H2 & H3).
  - exact insertion_sorter_permutes.
  - reflexivity.
  - reflexivity.
  - discriminate.
  - reflexivity.
  - vm_compute. reflexivity.
  - exists full, keys. split; [exact H1|]. split; [exact H2|].
    intros i Hi.
    edestruct (H3 i 4%nat "CA" "state_fips") as (mc & Hmc & Htake).
    + exact Hi.
    + reflexivity.
    + discriminate.
    + reflexivity.
    + exists mc. split; [exact Hmc|]. rewrite Htake. reflexivity.
Defined.


(** X21.  The frame of [fetch_county_health_rankings] cannot be merged:
    it is the empty frame, for every state and year, and
    [merge_health_and_funding] with it raises the KeyError of the join
    column once it has printed its first line - also when the frame has
    gone through [enrich_with_demographics], which gives it the four
    demographic columns, without rows, and no other. *)
Theorem county_rankings_cannot_be_merged {F : Type} `{Arith F}
  (random_sample : nat -> F) (np_round : F -> Z -> F)
  (funding_df : DataFrame F) (on state : string) (year : Z) :
  let county := snd (fetch_county_health_rankings (F:=F) state year) in
  merge_health_and_funding funding_df county on
  = ([("Merging funding and health data on '" ++ on ++ "'...")%string],
     Raise (KeyError on))
  /\ exists enriched,
       snd (enrich_with_demographics random_sample np_round county)
       = Ok enriched
       /\ df_columns enriched = demographic_columns
       /\ has_rows enriched 0
       /\ (~ In on demographic_columns ->
           merge_health_and_funding funding_df enriched on
           = ([("Merging funding and health data on '" ++ on ++ "'...")%string],
              Raise (KeyError on))).
Proof.
  cbv zeta. split; [reflexivity|].
  destruct (enrich_facts random_sample np_round
              (snd (fetch_county_health_rankings (F:=F) state year)))
    as (enriched & Hok & _ & Hother & Hdemo & Hcols).
  assert (Hnames : df_columns enriched = demographic_columns).
  { rewrite Hcols. reflexivity. }
  clear Hcols. rename Hnames into Hcols.
  exists enriched. rewrite Hok. split; [reflexivity|].
  split; [exact Hcols|]. split.
  - unfold has_rows. apply Forall_forall. intros [n c] Hin.
    assert (Hn : In n demographic_columns).
    { rewrite <- Hcols. apply (in_map fst) in Hin. exact Hin. }
    destruct (Hdemo n Hn) as (xs & Hxs & Hlen).
    assert (Hall : forall c', In (n, c') enriched -> col_len c' = 0%nat).
    { clear Hin c. intros c' Hin.
      assert (Hnd : NoDup (df_columns enriched)).
      { rewrite Hcols. apply distinct_NoDup. reflexivity. }
      clear Hcols Hother Hdemo Hok.
      induction enriched as [|[m c0] rest IH]; [destruct Hin|].
      simpl in Hxs, Hnd. inversion Hnd as [|? ? Hm Hrest]; subst.
      destruct (String.eqb_spec m n) as [->|Hne].
      - destruct Hin as [[= <-]|Hin].
        + injection Hxs as ->. exact Hlen.
        + exfalso. apply Hm. apply (in_map fst) in Hin. exact Hin.
      - destruct Hin as [[= -> _]|Hin]; [contradiction|].
        apply IH; assumption. }
    apply (Hall c Hin).
  - intros Hon. unfold merge_health_and_funding, merge_left.
    rewrite (Hother on Hon). reflexivity.
Qed.

(** The entry of a selection is an entry of the list, at a place that
    the mask alone decides. *)
Lemma select_position (mask : list bool) (i : nat) :
  (exists j, forall (A : Type) (ys : list A),
               nth_error (select mask ys) i = nth_error ys j)
  \/ (forall (A : Type) (ys : list A), nth_error (select mask ys) i = None).
Proof.
  revert i. induction mask as [|b mask IH]; intros i.
  - right. intros A ys. simpl. destruct i; reflexivity.
  - destruct b.
    + destruct i as [|i].
      * left. exists 0%nat. intros A [|y ys]; reflexivity.
      * destruct (IH i) as [[j Hj]|Hnone].
        -- left. exists (S j). intros A [|y ys]; [reflexivity|]. simpl. apply Hj.
        -- right. intros A [|y ys]; [reflexivity|]. simpl. apply Hnone.
    + destruct (IH i) as [[j Hj]|Hnone].
      * left. exists (S j). intros A [|y ys]; simpl.
        -- destruct i; reflexivity.
        -- apply Hj.
      * right. intros A [|y ys]; simpl.
        -- destruct i; reflexivity.
        -- apply Hnone.
Qed.

Lemma nth_nth_error {A : Type} (l : list A) (i : nat) (d : A) :
  nth i l d = match nth_error l i with Some x => x | None => d end.
Proof.
  revert i. induction l as [|x l IH]; intros [|i]; simpl; auto.
Qed.

(** X22.  The rows of the frame of [fetch_cdc_wonder_data] do not
    depend on the codes asked for: the row of a state in the frame
    returned is, in every column, the row of that state in the frame of
    all the states.  The draws are made for the fifty states before the
    filter is applied. *)
Theorem fetch_filter_keeps_values {F : Type} `{Arith F}
  (random_sample : nat -> F) (py_round : F -> Z -> F)
  (state_codes : option (list string)) (year : Z) :
  let all := snd (fetch_cdc_wonder_data random_sample py_round None year) in
  let df := snd (fetch_cdc_wonder_data random_sample py_round state_codes year) in
  exists keys,
    df_get df "state" = Some (ObjCol (map Some keys))
    /\ forall i s,
         nth_error keys i = Some s ->
         exists j,
           nth_error (map fst states) j = Some s
           /\ forall name c,
                df_get all name = Some c ->
                exists c',
                  df_get df name = Some c'
                  /\ take c' [Some i] = take c [Some j].
Proof.
  cbv zeta.
  destruct (fetch_all_states random_sample py_round year) as (Hst & _ & _).
  assert (Hall : forall codes,
             snd (fetch_cdc_wonder_data random_sample py_round codes year)
             = snd (fetch_cdc_wonder_data random_sample py_round None year) ->
             exists keys,
               df_get (snd (fetch_cdc_wonder_data random_sample py_round codes year))
                      "state" = Some (ObjCol (map Some keys))
               /\ forall i s,
                    nth_error keys i = Some s ->
                    exists j,
                      nth_error (map fst states) j = Some s
                      /\ forall name c,
                           df_get (snd (fetch_cdc_wonder_data random_sample
                                          py_round None year)) name = Some c ->
                           exists c',
                             df_get (snd (fetch_cdc_wonder_data random_sample
                                            py_round codes year)) name = Some c'
                             /\ take c' [Some i] = take c [Some j]).
  { intros codes Heq. rewrite Heq. exists (map fst states).
    split; [exact Hst|]. intros i s Hi. exists i. split; [exact Hi|].
    intros name c Hc. exists c. split; [exact Hc|reflexivity]. }
  destruct state_codes as [[|c0 cs]|];
    [apply Hall; reflexivity| |apply Hall; reflexivity].
  clear Hall. rewrite fetch_filtered.
  set (mask := map (fun s => mem s (c0 :: cs)) (map fst states)).
  set (all := snd (fetch_cdc_wonder_data random_sample py_round None year)) in *.
  exists (select mask (map fst states)). split.
  - rewrite df_get_filter, Hst. cbn [option_map]. rewrite select_map.
    reflexivity.
  - intros i s Hi.
    destruct (select_position mask i) as [[j Hj]|Hnone];
      [|rewrite Hnone in Hi; discriminate].
    exists j. split; [rewrite <- Hj; exact Hi|].
    intros name c Hc. rewrite df_get_filter, Hc. cbn [option_map].
    eexists. split; [reflexivity|].
    destruct c as [xs|xs]; cbn [take map]; f_equal; f_equal;
      rewrite !nth_nth_error, Hj; reflexivity.
Qed.

(** X23.  A file whose 'State' column holds numbers, not all of them
    missing, cannot be processed: the summary is made, the health data
    is fetched and enriched, and the merge raises a ValueError, the key
    of the summary being a column of numbers and that of the health data
    a column of strings. *)
Theorem get_full_dataset_numeric_state {F : Type} `{Arith F}
  (srt : sorter F) (random_sample : nat -> F) (py_round np_round : F -> Z -> F)
  (read_csv : DataFrame F) (codes : list F)
  (name : string) (c gn : column F) (x : F) :
  df_get (strip_columns read_csv) "State" = Some (FloatCol codes) ->
  filter (fun nc => String.eqb (fst nc) "Awardee Amount")
         (strip_columns read_csv) = [(name, c)] ->
  col_len c <> 0%nat ->
  df_get (strip_columns read_csv) "Grant Number" = Some gn ->
  In x codes ->
  fisnan x = false ->
  exists msg,
    get_full_dataset srt random_sample py_round np_round read_csv
    = ([ "Fetching CDC health outcome data...";
         "Retrieved data for 50 states";
         "Adding demographic variables...";
         "Merging funding and health data on 'state'..." ],
       Raise (ValueError msg)).
Proof.
  intros Hst Hf Hrows Hgn _ _.
  destruct (load_grant_data_one read_csv name c Hf Hrows) as (ys & Hload & _).
  destruct (filter_In_name _ _ _ _ _ Hf) as [_ Hamt].
  apply df_get_In in Hamt. destruct Hamt as [c0 Hamt].
  set (grants := df_set (strip_columns read_csv) "Awardee Amount" (FloatCol ys))
    in *.
  assert (Hstate : df_get grants "State" = Some (FloatCol codes)).
  { unfold grants. rewrite df_get_set_other by discriminate. exact Hst. }
  assert (Hamount : df_get grants "Awardee Amount" = Some (FloatCol ys)).
  { unfold grants. rewrite df_get_set_same, Hamt. reflexivity. }
  assert (Hnumber : df_get grants "Grant Number" = Some gn).
  { unfold grants. rewrite df_get_set_other by discriminate. exact Hgn. }
  pose proof (get_state_summary_ok srt grants "State" "Awardee Amount"
                (FloatCol codes) gn ys
                ltac:(discriminate) ltac:(discriminate) ltac:(discriminate)
                Hstate Hamount Hnumber) as Hsum.
  revert Hsum.
  generalize (srt _ total_funding (summary_rows (col_keys (FloatCol codes)) ys))
    as summary.
  intros summary Hsum.
  destruct (health_data_enriched random_sample py_round np_round)
    as (enriched & ci & Hen & Hes & _ & _).
  pose proof (fetch_prints random_sample py_round 2021) as Hout.
  eexists.
  unfold get_full_dataset. rewrite Hload, Hsum, Hstate.
  remember (fetch_cdc_wonder_data random_sample py_round None 2021)
    as fetched eqn:Ef in *.
  destruct fetched as [out1 health]. cbn [fst snd] in *.
  rewrite Hen, Hout.
  unfold merge_health_and_funding, merge_left. rewrite Hes.
  cbn. reflexivity.
Qed.

Lemma get_full_dataset_numeric_state_witness :
  exists msg,
    get_full_dataset (F:=XQ.t) insertion_sorter
      (fun _ => XQ.Fin (1 # 2)) (fun x _ => x) (fun x _ => x)
      [ ("Grant Number", ObjCol [Some "G1"; Some "G2"]);
        ("State", FloatCol [Examples.usd 6; Examples.usd 48]);
        ("Awardee Amount", ObjCol [Some "$1,000"; Some "$2,000"]) ]
    = ([ "Fetching CDC health outcome data...";
         "Retrieved data for 50 states";
         "Adding demographic variables...";
         "Merging funding and health data on 'state'..." ],
       Raise (ValueError msg)).
Proof.
  apply (@get_full_dataset_numeric_state XQ.t xq insertion_sorter
           (fun _ => XQ.Fin (1 # 2)) (fun x _ => x) (fun x _ => x)
           [ ("Grant Number", ObjCol [Some "G1"; Some "G2"]);
             ("State", FloatCol [Examples.usd 6; Examples.usd 48]);
             ("Awardee Amount", ObjCol [Some "$1,000"; Some "$2,000"]) ]
           [Examples.usd 6; Examples.usd 48]
           "Awardee Amount" (ObjCol [Some "$1,000"; Some "$2,000"])
           (ObjCol [Some "G1"; Some "G2"]) (Examples.usd 6)).
  - reflexivity.
  - reflexivity.
  - discriminate.
  - reflexivity.
  - simpl. auto.
  - reflexivity.
Defined.

(* ================================================================= *)
(** ** The funding is conserved *)

Lemma amounts_total_perm (l l' : list XQ.t) :
  Permutation l l' -> amounts_total l == amounts_total l'.
Proof.
  induction 1 as [|x l l' _ IH|x y l|l l' l'' _ IH1 _ IH2]; simpl.
  - reflexivity.
  - rewrite IH. reflexivity.
  - ring.
  - rewrite IH1. exact IH2.
Qed.

(** The sum of pandas is the total, for amounts that are numbers or
    missing. *)
Lemma series_sum_total (xs : list XQ.t) :
  Forall (fun x => XQ.is_fin x || XQ.is_nan x = true) xs ->
  exists t, series_sum xs = XQ.Fin t /\ t == amounts_total xs.
Proof.
  intros Hxs. unfold series_sum, fsum.
  assert (Hacc : forall acc,
             exists t, fold_left fadd (fill0 xs) (XQ.Fin acc) = XQ.Fin t
                       /\ t == acc + amounts_total xs).
  { induction Hxs as [|x xs Hx _ IH]; intros acc.
    - exists acc. split; [reflexivity|]. simpl. ring.
    - destruct x as [q|s|]; simpl in Hx; try discriminate.
      + destruct (IH (acc + q)) as (t & Ht & Heq).
        exists t. split; [exact Ht|]. rewrite Heq. simpl. ring.
      + destruct (IH (acc + 0)) as (t & Ht & Heq).
        exists t. split; [exact Ht|]. rewrite Heq. simpl. ring. }
  destruct (Hacc 0) as (t & Ht & Heq).
  exists t. split; [exact Ht|]. rewrite Heq. ring.
Qed.

Lemma qsum_zero {A : Type} (l : list A) :
  fold_right (fun _ acc => 0 + acc) 0 l == 0.
Proof. induction l as [|x l IH]; simpl; [reflexivity|]. rewrite IH. ring. Qed.

Lemma qsum_plus {A : Type} (f g : A -> Q) (l : list A) :
  fold_right (fun k acc => (f k + g k) + acc) 0 l
  == fold_right (fun k acc => f k + acc) 0 l
     + fold_right (fun k acc => g k + acc) 0 l.
Proof. induction l as [|x l IH]; simpl; [ring|]. rewrite IH. ring. Qed.

Lemma qsum_ext {A : Type} (f g : A -> Q) (l : list A) :
  (forall k, In k l -> f k == g k) ->
  fold_right (fun k acc => f k + acc) 0 l
  == fold_right (fun k acc => g k + acc) 0 l.
Proof.
  induction l as [|x l IH]; intros Hfg; simpl; [reflexivity|].
  rewrite (Hfg x (or_introl eq_refl)), IH; [reflexivity|].
  intros k Hk. apply Hfg. simpl. auto.
Qed.

Lemma qsum_indicator {A : Type} (f : A -> bool) (x : A) (v : Q) (l : list A) :
  NoDup l -> In x l ->
  (forall y, In y l -> (f y = true <-> y = x)) ->
  fold_right (fun k acc => (if f k then v else 0) + acc) 0 l == v.
Proof.
  induction 1 as [|y l Hy Hnd IH]; intros Hin Hf; [destruct Hin|].
  simpl. destruct (f y) eqn:Efy.
  - apply (Hf y (or_introl eq_refl)) in Efy. subst y.
    rewrite (qsum_ext _ (fun _ => 0)).
    + rewrite qsum_zero. ring.
    + intros z Hz. destruct (f z) eqn:Efz; [|reflexivity].
      apply (Hf z (or_intror Hz)) in Efz. subst z. contradiction.
  - destruct Hin as [->|Hin].
    + rewrite (proj2 (Hf x (or_introl eq_refl)) eq_refl) in Efy. discriminate.
    + rewrite IH; [ring|exact Hin|]. intros z Hz. apply Hf. simpl. auto.
Qed.

Lemma amounts_total_cons (b : bool) (a : XQ.t) (xs : list XQ.t) :
  amounts_total (if b then a :: xs else xs)
  == (if b then amount_value a else 0) + amounts_total xs.
Proof. destruct b; simpl; ring. Qed.

Lemma amounts_total_map {A : Type} (f : A -> XQ.t) (l : list A) :
  amounts_total (map f l)
  = fold_right (fun k acc => amount_value (f k) + acc) 0 l.
Proof.
  induction l as [|x l IH]; simpl; [reflexivity|]. rewrite <- IH. reflexivity.
Qed.

(** The totals of the groups add up to the total of the counted rows. *)
Lemma group_totals_add_up (groups : list (key XQ.t))
  (states : list (option string)) (amounts : list XQ.t) :
  NoDup groups ->
  (forall k, In k groups -> exists s, k = KStr s) ->
  (forall s, In (Some s) states -> In (KStr s) groups) ->
  fold_right
    (fun k acc =>
       amounts_total (select (group_mask k (col_keys (ObjCol states))) amounts)
       + acc)
    0 groups
  == amounts_total (map snd (counted_rows states amounts)).
Proof.
  intros Hnd Hstr. revert amounts.
  induction states as [|o states IH]; intros amounts Hin.
  - simpl. apply qsum_zero.
  - destruct amounts as [|a amounts].
    + simpl. apply qsum_zero.
    + simpl col_keys in *. cbn [map group_mask select].
      rewrite (qsum_ext _ _ _ (fun k _ => amounts_total_cons _ a _)).
      rewrite qsum_plus, IH by (intros s Hs; apply Hin; simpl; auto).
      unfold counted_rows. cbn [combine filter fst snd].
      destruct o as [s|]; cbn [option_map].
      * rewrite (qsum_indicator (fun k => key_eqb k (KStr s)) (KStr s));
          [|exact Hnd|apply Hin; simpl; auto|].
        -- destruct a as [q|neg|]; simpl; ring.
        -- intros k Hk. destruct (Hstr k Hk) as [t ->]. simpl.
           rewrite String.eqb_eq. split; congruence.
      * rewrite qsum_zero. ring.
Qed.

(** X24.  In exact arithmetic, with amounts that are numbers or
    missing, the aggregation loses and adds nothing: every total of the
    summary is a number, and the totals of its rows add up to the total
    of the amounts of the source rows that have a geography. *)
Theorem funding_is_conserved
  (srt : sorter XQ.t) (df : DataFrame XQ.t) (state_col amount_col : string)
  (states : list (option string)) (amounts : list XQ.t) (gn : column XQ.t) :
  sort_permutes srt ->
  state_col <> amount_col ->
  state_col <> "Grant Number" ->
  amount_col <> "Grant Number" ->
  df_get df state_col = Some (ObjCol states) ->
  df_get df amount_col = Some (FloatCol amounts) ->
  df_get df "Grant Number" = Some gn ->
  Forall (fun a => XQ.is_fin a || XQ.is_nan a = true) amounts ->
  exists summary,
    get_state_summary srt df state_col amount_col = Ok summary
    /\ Forall (fun row => XQ.is_fin (total_funding row) = true) summary
    /\ amounts_total (map total_funding summary)
       == amounts_total (map snd (counted_rows states amounts)).
Proof.
  intros Hperm Hsa Hsg Hag Hk Ha Hg Hfin.
  eexists. split; [eapply get_state_summary_ok; eassumption|].
  set (keys := col_keys (ObjCol states)).
  assert (Hrow : forall k,
             exists t,
               series_sum (select (group_mask k keys) amounts) = XQ.Fin t
               /\ t == amounts_total (select (group_mask k keys) amounts)).
  { intros k. apply series_sum_total, select_Forall, Hfin. }
  split.
  - apply Forall_forall. intros row Hin.
    apply (Permutation_in _ (Hperm _ _ _)) in Hin.
    unfold summary_rows in Hin. apply in_map_iff in Hin.
    destruct Hin as (k & <- & _). cbn [total_funding].
    destruct (Hrow k) as (t & -> & _). reflexivity.
  - rewrite (amounts_total_perm _ _ (Permutation_map total_funding (Hperm _ _ _))).
    unfold summary_rows. rewrite map_map. cbn [total_funding].
    rewrite <- (group_totals_add_up (group_keys keys) states amounts).
    + rewrite amounts_total_map.
      apply qsum_ext. intros k _.
      destruct (Hrow k) as (t & -> & Ht). exact Ht.
    + apply ascending_NoDup, group_keys_ascending.
    + intros k Hin. apply group_keys_In in Hin.
      destruct Hin as (s & -> & _). eauto.
    + intros s Hs. apply group_keys_In. eauto.
Qed.

Lemma funding_is_conserved_witness :
  exists summary,
    get_state_summary insertion_sorter Examples.grants "State" "Awardee Amount"
    = Ok summary
    /\ amounts_total (map total_funding summary) == 15000.
Proof.
  destruct (funding_is_conserved
              insertion_sorter Examples.grants "State" "Awardee Amount"
              [Some "CA"; Some "CA"; Some "TX"]
              [Examples.usd 10000; Examples.usd 5000; XQ.NaN]
              (ObjCol [Some "G1"; Some "G2"; Some "G3"])
              insertion_sorter_permutes
              ltac:(discriminate) ltac:(discriminate) ltac:(discriminate)
              eq_refl eq_refl eq_refl
              ltac:(repeat constructor)) as (summary & Hs & _ & Hsum).
  exists summary. split; [exact Hs|]. rewrite Hsum. reflexivity.
Defined.

(* ================================================================= *)
(** ** Characters that no amount holds *)

Lemma lstrip_In (c : ascii) (s : list ascii) :
  In c s -> is_space c = false -> In c (lstrip s).
Proof.
  intros Hin Hc. induction s as [|d r IH]; [destruct Hin|].
  simpl. destruct (is_space d) eqn:Hd; [|exact Hin].
  destruct Hin as [->|Hin]; [congruence|auto].
Qed.

Lemma strip_In (c : ascii) (s : list ascii) :
  In c s -> is_space c = false -> In c (strip s).
Proof.
  intros Hin Hc. unfold strip.
  apply -> in_rev. apply lstrip_In; [|exact Hc].
  apply -> in_rev. apply lstrip_In; assumption.
Qed.

Lemma remove_char_In (d c : ascii) (s : list ascii) :
  In c s -> Ascii.eqb d c = false -> In c (remove_char d s).
Proof.
  intros Hin Hd. unfold remove_char. apply filter_In.
  split; [exact Hin|]. rewrite Hd. reflexivity.
Qed.

Lemma drop_underscores_In (c : ascii) (prev : option ascii)
  (s t : list ascii) :
  drop_underscores prev s = Some t ->
  In c s -> Ascii.eqb c "_" = false -> In c t.
Proof.
  intros Hdrop Hin Hc. revert prev t Hdrop.
  induction s as [|d r IH]; intros prev t Hdrop; [destruct Hin|].
  simpl in Hdrop. destruct (Ascii.eqb d "_") eqn:Hd.
  - destruct Hin as [->|Hin]; [congruence|].
    destruct (match prev with Some p => is_digit p | None => false end);
      [|discriminate].
    eapply IH; eassumption.
  - destruct (_ && negb (is_digit d)); [discriminate|].
    destruct (drop_underscores (Some d) r) as [t'|] eqn:Hr; [|discriminate].
    injection Hdrop as <-.
    destruct Hin as [->|Hin]; [left; reflexivity|].
    right. eapply IH; eassumption.
Qed.

Lemma parse_sign_chars (s r : list ascii) (neg : bool) (c : ascii) :
  parse_sign s = (neg, r) -> In c s -> float_char c = true \/ In c r.
Proof.
  intros Hp Hin. destruct s as [|a s']; [destruct Hin|].
  destruct a as [[] [] [] [] [] [] [] []]; simpl in Hp;
    injection Hp as <- <-; try (right; exact Hin);
    (destruct Hin as [<-|Hin]; [left; reflexivity|right; exact Hin]).
Qed.

Lemma span_digits_chars (s ds rest : list ascii) (c : ascii) :
  span_digits s = (ds, rest) -> In c s -> float_char c = true \/ In c rest.
Proof.
  revert ds rest. induction s as [|d r IH]; intros ds rest Hs Hin;
    [destruct Hin|].
  simpl in Hs. destruct (is_digit d) eqn:Hd.
  - destruct (span_digits r) as [ds' rest'] eqn:Hr. injection Hs as <- <-.
    destruct Hin as [<-|Hin].
    + left. unfold float_char. rewrite Hd. reflexivity.
    + eapply IH; [reflexivity|exact Hin].
  - injection Hs as <- <-. right. exact Hin.
Qed.

Lemma fraction_chars (r1 fp r2 : list ascii) (c : ascii) :
  match r1 with
  | "."%char :: r' => span_digits r'
  | _ => ([], r1)
  end = (fp, r2) ->
  In c r1 -> float_char c = true \/ In c r2.
Proof.
  intros Hf Hin. destruct r1 as [|a r']; [destruct Hin|].
  destruct a as [[] [] [] [] [] [] [] []];
    try (injection Hf as <- <-; right; exact Hin).
  destruct Hin as [<-|Hin]; [left; reflexivity|].
  eapply span_digits_chars; eassumption.
Qed.

Lemma parse_exponent_chars (s r3 : list ascii) (ex : Z) (c : ascii) :
  parse_exponent s = (ex, r3) -> In c s -> float_char c = true \/ In c r3.
Proof.
  intros Hp Hin. destruct s as [|d r]; [destruct Hin|].
  simpl in Hp.
  destruct (Ascii.eqb d "e" || Ascii.eqb d "E") eqn:He.
  - destruct (parse_sign r) as [neg r1] eqn:Hs.
    destruct (span_digits r1) as [[|d0 ds] rest] eqn:Hd.
    + injection Hp as <- <-. right. exact Hin.
    + injection Hp as <- <-.
      destruct Hin as [<-|Hin].
      * left. apply orb_prop in He.
        destruct He as [He|He]; apply Ascii.eqb_eq in He; subst d; reflexivity.
      * destruct (parse_sign_chars _ _ _ c Hs Hin) as [Hc|Hin1]; [auto|].
        eapply span_digits_chars; eassumption.
  - injection Hp as <- <-. right. exact Hin.
Qed.

Lemma strtod_chars (t : list ascii) (v : bool * Z * Z) (c : ascii) :
  strtod t = Some v -> In c t -> float_char c = true.
Proof.
  unfold strtod. intros Hs Hin.
  destruct (parse_sign t) as [neg r] eqn:Hsign.
  destruct (span_digits r) as [ip r1] eqn:Hip.
  match type of Hs with
  | context [match ?m with (fp, r2) => _ end] =>
      destruct m as [fp r2] eqn:Hfrac
  end.
  destruct (ip ++ fp) as [|d ds]; [discriminate|].
  destruct (parse_exponent r2) as [ex r3] eqn:Hex.
  destruct r3 as [|? ?]; [|discriminate].
  destruct (parse_sign_chars _ _ _ c Hsign Hin) as [Hc|Hin1]; [exact Hc|].
  destruct (span_digits_chars _ _ _ c Hip Hin1) as [Hc|Hin2]; [exact Hc|].
  destruct (fraction_chars _ _ _ c Hfrac Hin2) as [Hc|Hin3]; [exact Hc|].
  destruct (parse_exponent_chars _ _ _ c Hex Hin3) as [Hc|[]]. exact Hc.
Qed.

Lemma chars_eqb_eq (a b : list ascii) : chars_eqb a b = true -> a = b.
Proof.
  unfold chars_eqb. intros E. apply String.eqb_eq in E.
  apply (f_equal list_ascii_of_string) in E.
  rewrite !list_ascii_of_string_of_list_ascii in E. exact E.
Qed.

Lemma word_chars (word : string) (r : list ascii) (c : ascii) :
  lower r = chars word ->
  (forall d, In d (chars word) -> one_of "infatyn" d = true) ->
  In c r -> float_char c = true.
Proof.
  intros Hl Hword Hin. unfold float_char.
  rewrite (Hword (lower_char c)); [apply orb_true_r|].
  rewrite <- Hl. unfold lower. apply in_map. exact Hin.
Qed.

Lemma parse_inf_or_nan_chars {F : Type} `{Arith F} (t : list ascii) (x : F)
  (c : ascii) :
  parse_inf_or_nan t = Some x -> In c t -> float_char c = true.
Proof.
  unfold parse_inf_or_nan. intros Hp Hin.
  destruct (parse_sign t) as [neg r] eqn:Hsign.
  destruct (parse_sign_chars _ _ _ c Hsign Hin) as [Hc|Hin1]; [exact Hc|].
  destruct (chars_eqb (lower r) (chars "inf")) eqn:E1.
  { apply chars_eqb_eq in E1. apply (word_chars "inf" r c E1); [|exact Hin1].
    intros d Hd. simpl in Hd.
    repeat (destruct Hd as [<-|Hd]; [reflexivity|]). destruct Hd. }
  destruct (chars_eqb (lower r) (chars "infinity")) eqn:E2.
  { apply chars_eqb_eq in E2. apply (word_chars "infinity" r c E2); [|exact Hin1].
    intros d Hd. simpl in Hd.
    repeat (destruct Hd as [<-|Hd]; [reflexivity|]). destruct Hd. }
  destruct (chars_eqb (lower r) (chars "nan")) eqn:E3; [|discriminate].
  apply chars_eqb_eq in E3. apply (word_chars "nan" r c E3); [|exact Hin1].
  intros d Hd. simpl in Hd.
  repeat (destruct Hd as [<-|Hd]; [reflexivity|]). destruct Hd.
Qed.

(** X25.  [clean_currency] gives NaN for every string that holds an
    ASCII character which is neither a digit, a sign, the point, [e] or
    [E], the underscore, a letter of [inf], [infinity] or [nan],
    whitespace, the dollar sign nor the comma - a bracket, a percent
    sign, the letter of a unit or of a currency: no part of such a
    string is read as a number. *)
Theorem clean_currency_rejects_other_characters {F : Type} `{Arith F}
  (s : string) (c : ascii) :
  In c (chars s) ->
  (code c < 128)%nat ->
  amount_char c = false ->
  clean_currency (PyStr s) = Ok fnan.
Proof.
  intros Hin _ Hc. unfold amount_char in Hc.
  apply orb_false_iff in Hc. destruct Hc as [Hc Hsym].
  apply orb_false_iff in Hc. destruct Hc as [Hfloat Hspace].
  assert (Hdollar : Ascii.eqb "$" c = false).
  { rewrite Ascii.eqb_sym. unfold one_of in Hsym. simpl in Hsym.
    apply orb_false_iff in Hsym. tauto. }
  assert (Hcomma : Ascii.eqb "," c = false).
  { rewrite Ascii.eqb_sym. unfold one_of in Hsym. simpl in Hsym.
    apply orb_false_iff in Hsym. destruct Hsym as [_ Hsym].
    apply orb_false_iff in Hsym. tauto. }
  assert (Hunder : Ascii.eqb c "_" = false).
  { unfold float_char in Hfloat.
    apply orb_false_iff in Hfloat. destruct Hfloat as [Hfloat _].
    apply orb_false_iff in Hfloat. destruct Hfloat as [_ Hone].
    unfold one_of in Hone. simpl in Hone.
    repeat (apply orb_false_iff in Hone; destruct Hone as [? Hone]).
    assumption. }
  assert (Hclean : In c (strip (cleaned s))).
  { apply strip_In; [|exact Hspace]. unfold cleaned.
    apply strip_In; [|exact Hspace].
    apply remove_char_In; [|exact Hcomma].
    apply remove_char_In; [exact Hin|exact Hdollar]. }
  unfold clean_currency. cbn [isna]. unfold clean_currency_str, float_of_str.
  destruct (drop_underscores None (strip (cleaned s))) as [t|] eqn:Hdrop;
    [|reflexivity].
  pose proof (drop_underscores_In c None _ t Hdrop Hclean Hunder) as Ht.
  destruct (parse_inf_or_nan t) as [x|] eqn:Hword.
  { rewrite (parse_inf_or_nan_chars t x c Hword Ht) in Hfloat. discriminate. }
  destruct (strtod t) as [[[neg m] e]|] eqn:Hnum; [|reflexivity].
  rewrite (strtod_chars t _ c Hnum Ht) in Hfloat. discriminate.
Qed.

Lemma clean_currency_rejects_other_characters_witness :
  clean_currency (F:=B64.t) (PyStr "$1.5M") = Ok fnan.
Proof.
  apply (@clean_currency_rejects_other_characters B64.t b64 "$1.5M" "M"%char).
  - simpl. tauto.
  - vm_compute. lia.
  - reflexivity.
Defined.
